(** * SalahNow: prayer-time resolution, caching and the prayer clock

    A shallow embedding of [salahnow_cli] (models.py, cache.py,
    prayer_api.py, prayer_logic.py, the nearest-location scan of
    location.py and the row style of output.py) together with the
    properties of its specification.

    Python values are modelled as follows.
    - [str] is a list of Unicode code points ([pystr]); literals are written
      [lit "..."] and are ASCII unless spelled out as code points.
    - [int] is [Z]; [float] is a primitive IEEE-754 binary64 float.
    - exceptions are the constructors of [exn]; a computation that may raise
      has type [result A], one that also touches the cache file or the
      network has type [M A].
    - the clock, the time-zone database, the cache file and the network are
      the fields of [World]; what they answer is not decided here, so every
      theorem holds whatever they answer. *)

From Stdlib Require Import ZArith List Ascii Bool Lia.
From Stdlib Require String DecimalN.
Import String.StringSyntax.
Delimit Scope string_scope with string.
From Stdlib Require Import Floats.PrimFloat Floats.SpecFloat Floats.FloatOps.
From Stdlib Require Import Uint63.
Import ListNotations.
Open Scope list_scope.
Open Scope Z_scope.
Set Warnings "-register-all".

(* ================================================================= *)
(** ** Python strings *)

Definition char := Z.
Definition pystr := list char.

Definition lit (s : String.string) : pystr :=
  map (fun a => Z.of_N (N_of_ascii a)) (String.list_ascii_of_string s).
Arguments lit s%_string.

Fixpoint str_eqb (a b : pystr) : bool :=
  match a, b with
  | [], [] => true
  | x :: a', y :: b' => (x =? y) && str_eqb a' b'
  | _, _ => false
  end.

Definition COLON : char := 58.
Definition UNDERSCORE : char := 95.
Definition ZERO : char := 48.

(** Code points of the digit zero of every decimal-digit run of Unicode
    14.0 (general category Nd, the class of [\d] and of [int()]); each run
    holds the ten digits 0..9 in order. *)
Definition decimal_zero_points : list Z :=
  [48; 1632; 1776; 1984; 2406; 2534; 2662; 2790; 2918; 3046; 3174; 3302;
   3430; 3558; 3664; 3792; 3872; 4160; 4240; 6112; 6160; 6470; 6608; 6784;
   6800; 6992; 7088; 7232; 7248; 42528; 43216; 43264; 43472; 43504; 43600;
   44016; 65296; 66720; 68912; 69734; 69872; 69942; 70096; 70384; 70736;
   70864; 71248; 71360; 71472; 71904; 72016; 72784; 73040; 73120; 92768;
   92864; 93008; 120782; 120792; 120802; 120812; 120822; 123200; 123632;
   125264; 130032].

Definition decimal_value (c : char) : option Z :=
  match find (fun z => (z <=? c) && (c <? z + 10)) decimal_zero_points with
  | Some z => Some (c - z)
  | None => None
  end.

Definition is_digit (c : char) : bool :=
  match decimal_value c with Some _ => true | None => false end.

(** [str.isspace] on one character. *)
Definition is_space (c : char) : bool :=
  existsb (Z.eqb c)
    [9; 10; 11; 12; 13; 28; 29; 30; 31; 32; 133; 160; 5760; 8192; 8193; 8194;
     8195; 8196; 8197; 8198; 8199; 8200; 8201; 8202; 8232; 8233; 8239; 8287;
     12288].

Fixpoint drop_while (p : char -> bool) (s : pystr) : pystr :=
  match s with
  | c :: t => if p c then drop_while p t else s
  | [] => []
  end.

Fixpoint take_while (p : char -> bool) (s : pystr) : pystr :=
  match s with
  | c :: t => if p c then c :: take_while p t else []
  | [] => []
  end.

(** [s.strip()] *)
Definition py_strip (s : pystr) : pystr :=
  rev (drop_while is_space (rev (drop_while is_space s))).

(** [s.split(sep)] for a one-character separator. *)
Fixpoint py_split (sep : char) (s : pystr) : list pystr :=
  match s with
  | [] => [[]]
  | c :: t =>
      if c =? sep then [] :: py_split sep t
      else match py_split sep t with
           | p :: ps => (c :: p) :: ps
           | [] => [[c]]
           end
  end.

(* ================================================================= *)
(** ** Exceptions *)

Inductive exn : Type :=
| PrayerApiError (msg : pystr)
| OSError
| JSONDecodeError
| UnicodeDecodeError
| RecursionError
| ValueError
| TypeError
| AttributeError
| KeyError
| OverflowError
| UnicodeEncodeError
| IndexError
| ZoneInfoNotFoundError
| InvalidURL.

Inductive result (A : Type) : Type :=
| Ok (a : A)
| Raise (e : exn).
Arguments Ok {A} a.
Arguments Raise {A} e.

Definition rbind {A B} (r : result A) (k : A -> result B) : result B :=
  match r with
  | Ok a => k a
  | Raise e => Raise e
  end.

Declare Scope result_scope.
Delimit Scope result_scope with result.
Notation "'let?' x := r 'in' k" := (rbind r (fun x => k))
  (at level 10, x name, r at level 100, k at level 200) : result_scope.
Notation "'let?' ' p := r 'in' k" := (rbind r (fun x => match x with p => k end))
  (at level 10, p pattern, r at level 100, k at level 200) : result_scope.

(** [except Exception]: every exception of the model derives from it. *)
Definition except_Exception {A} (r : result A) (handler : result A) : result A :=
  match r with
  | Ok a => Ok a
  | Raise _ => handler
  end.

(* ================================================================= *)
(** ** Integers: printing and parsing *)

Fixpoint uint_chars (u : Decimal.uint) : pystr :=
  match u with
  | Decimal.Nil => []
  | Decimal.D0 u => 48 :: uint_chars u
  | Decimal.D1 u => 49 :: uint_chars u
  | Decimal.D2 u => 50 :: uint_chars u
  | Decimal.D3 u => 51 :: uint_chars u
  | Decimal.D4 u => 52 :: uint_chars u
  | Decimal.D5 u => 53 :: uint_chars u
  | Decimal.D6 u => 54 :: uint_chars u
  | Decimal.D7 u => 55 :: uint_chars u
  | Decimal.D8 u => 56 :: uint_chars u
  | Decimal.D9 u => 57 :: uint_chars u
  end.

(** Decimal digits of a natural number given as [Z] (the absolute value)
    and the sign, as [str(n)] prints them. *)
Definition abs_digits (n : Z) : pystr := uint_chars (N.to_uint (Z.abs_N n)).

Definition int_str (n : Z) : pystr :=
  if n <? 0 then 45 :: abs_digits n else abs_digits n.

(** [f"{n:0w}"]: sign-aware zero padding to a minimal width. *)
Definition fmt_0 (w : nat) (n : Z) : pystr :=
  let sign := if n <? 0 then [45] else [] in
  let ds := abs_digits n in
  sign ++ repeat ZERO (w - length sign - length ds) ++ ds.

(** Whitespace [int()] skips around the number: the ASCII white space of
    the C locale and every non-ASCII [str.isspace] character. *)
Definition int_space (c : char) : bool :=
  ((9 <=? c) && (c <=? 13)) || (c =? 32) || ((127 <=? c) && is_space c).

(** Underscore discipline of an integer literal body: underscores only
    between two digits. [prev] tells what was read last: [None] nothing,
    [Some true] a digit, [Some false] an underscore. *)
Fixpoint underscores_ok (prev : option bool) (s : pystr) : bool :=
  match s with
  | [] => match prev with Some true => true | _ => false end
  | c :: t =>
      if c =? UNDERSCORE
      then match prev with
           | Some true => underscores_ok (Some false) t
           | _ => false
           end
      else underscores_ok (Some true) t
  end.

Definition digits_value (ds : pystr) : Z :=
  fold_left (fun acc c => match decimal_value c with
                          | Some v => 10 * acc + v
                          | None => acc
                          end) ds 0.

Definition int_max_str_digits : nat := 4300.

(** [int(s)] for a string argument, base ten. *)
Definition py_int (s : pystr) : result Z :=
  let s1 := drop_while int_space s in
  let '(neg, s2) :=
    match s1 with
    | c :: r => if c =? 43 then (false, r)
                else if c =? 45 then (true, r) else (false, s1)
    | [] => (false, s1)
    end in
  let body := take_while (fun c => is_digit c || (c =? UNDERSCORE)) s2 in
  let rest := drop_while (fun c => is_digit c || (c =? UNDERSCORE)) s2 in
  let ds := filter is_digit body in
  if underscores_ok None body
     && (length ds <=? int_max_str_digits)%nat
     && match drop_while int_space rest with [] => true | _ => false end
  then Ok (if neg then - digits_value ds else digits_value ds)
  else Raise ValueError.

(* ================================================================= *)
(** ** Regular expressions of prayer_api.py *)

(** [:(\d{2})] at the head of [s]. *)
Definition minutes_here (s : pystr) : option pystr :=
  match s with
  | c :: d :: e :: _ =>
      if (c =? COLON) && is_digit d && is_digit e then Some [d; e] else None
  | _ => None
  end.

(** [(\d{1,2}):(\d{2})] anchored at the head of [s]: the greedy two-digit
    hour is tried first, then the one-digit hour. *)
Definition match_here (s : pystr) : option (pystr * pystr) :=
  match s with
  | a :: t =>
      if is_digit a then
        let one := match minutes_here t with
                   | Some m => Some ([a], m)
                   | None => None
                   end in
        match t with
        | b :: t' =>
            if is_digit b then
              match minutes_here t' with
              | Some m => Some ([a; b], m)
              | None => one
              end
            else one
        | [] => one
        end
      else None
  | [] => None
  end.

(** [re.search(r"(\d{1,2}):(\d{2})", s)]: the two groups of the leftmost
    match. *)
Fixpoint re_search_time (s : pystr) : option (pystr * pystr) :=
  match s with
  | [] => None
  | _ :: t =>
      match match_here s with
      | Some g => Some g
      | None => re_search_time t
      end
  end.

(** [re.fullmatch(r"\d{2}:\d{2}", s)] as a truth value. *)
Definition re_fullmatch_hhmm (s : pystr) : bool :=
  match s with
  | [a; b; c; d; e] =>
      is_digit a && is_digit b && (c =? COLON) && is_digit d && is_digit e
  | _ => false
  end.

(** [re.findall(r"\d+", s)]: the maximal digit runs, left to right.
    [cur] is the run being read, reversed. *)
Fixpoint digit_runs (cur : pystr) (s : pystr) : list pystr :=
  match s with
  | [] => match cur with [] => [] | _ => [rev cur] end
  | c :: t =>
      if is_digit c then digit_runs (c :: cur) t
      else match cur with
           | [] => digit_runs [] t
           | _ => rev cur :: digit_runs [] t
           end
  end.

Definition re_findall_digits (s : pystr) : list pystr := digit_runs [] s.

(* ================================================================= *)
(** ** Floats *)

(** [f"{x:.5f}"]: the exact binary value rounded to five decimals, ties to
    even. *)
Definition fmt_5f (x : float) : pystr :=
  match Prim2SF x with
  | S754_nan => lit "nan"
  | S754_infinity s => if s then lit "-inf" else lit "inf"
  | S754_zero s => if s then lit "-0.00000" else lit "0.00000"
  | S754_finite s m e =>
      let num := Z.pos m * 100000 in
      let q :=
        if 0 <=? e then num * 2 ^ e
        else
          let den := 2 ^ (- e) in
          let q0 := num / den in
          let r := num mod den in
          if (den <? 2 * r) || ((den =? 2 * r) && Z.odd q0) then q0 + 1 else q0 in
      (if s then [45] else [])
        ++ abs_digits (q / 100000) ++ [46] ++ fmt_0 5 (q mod 100000)
  end.

Definition float_of_Z (z : Z) : float :=
  if z <? 0 then PrimFloat.opp (PrimFloat.of_uint63 (Uint63.of_Z (- z)))
  else PrimFloat.of_uint63 (Uint63.of_Z z).

(** [int(x)] for a finite float: truncation toward zero. *)
Definition int_of_float (x : float) : Z :=
  match Prim2SF x with
  | S754_finite s m e =>
      let a := if 0 <=? e then Z.pos m * 2 ^ e else Z.pos m / 2 ^ (- e) in
      if s then - a else a
  | _ => 0
  end.

(* ================================================================= *)
(** ** JSON values and Python dictionaries *)

(** What [json.loads] returns. A [dict] keeps its insertion order, so it is
    an association list; its keys are distinct. *)
Inductive json : Type :=
| JNull
| JBool (b : bool)
| JInt (n : Z)
| JFloat (x : float)
| JStr (s : pystr)
| JList (l : list json)
| JDict (d : list (pystr * json)).

Definition dict := list (pystr * json).

(** [d.get(k)] *)
Fixpoint dict_get (k : pystr) (d : dict) : option json :=
  match d with
  | [] => None
  | (k', v) :: d' => if str_eqb k k' then Some v else dict_get k d'
  end.

(** [d[k] = v]: an existing key keeps its place, a new one goes last. *)
Fixpoint dict_set (k : pystr) (v : json) (d : dict) : dict :=
  match d with
  | [] => [(k, v)]
  | (k', v') :: d' =>
      if str_eqb k k' then (k', v) :: d' else (k', v') :: dict_set k v d'
  end.

(** [v[k]] for a string subscript [k]. *)
Definition py_getitem (v : json) (k : pystr) : result json :=
  match v with
  | JDict d => match dict_get k d with
               | Some x => Ok x
               | None => Raise KeyError
               end
  | _ => Raise TypeError
  end.

(** [v.get(k, default)] *)
Definition py_get (v : json) (k : pystr) (default : json) : result json :=
  match v with
  | JDict d => match dict_get k d with
               | Some x => Ok x
               | None => Ok default
               end
  | _ => Raise AttributeError
  end.

(** Truth value of [v] in an [if]. *)
Definition py_truthy (v : json) : bool :=
  match v with
  | JNull => false
  | JBool b => b
  | JInt n => negb (n =? 0)
  | JFloat x => negb (PrimFloat.eqb x 0%float)
  | JStr s => match s with [] => false | _ => true end
  | JList l => match l with [] => false | _ => true end
  | JDict d => match d with [] => false | _ => true end
  end.

(* ================================================================= *)
(** ** models.py *)

Inductive PrayerSource : Type := diyanet | mwl.

Definition source_str (s : PrayerSource) : pystr :=
  match s with diyanet => lit "diyanet" | mwl => lit "mwl" end.

Definition source_eqb (a b : PrayerSource) : bool :=
  match a, b with
  | diyanet, diyanet | mwl, mwl => true
  | _, _ => false
  end.

Inductive PrayerName : Type := Fajr | Sunrise | Dhuhr | Asr | Maghrib | Isha.

Definition PRAYER_NAMES : list PrayerName :=
  [Fajr; Sunrise; Dhuhr; Asr; Maghrib; Isha].

Definition name_str (n : PrayerName) : pystr :=
  match n with
  | Fajr => lit "Fajr" | Sunrise => lit "Sunrise" | Dhuhr => lit "Dhuhr"
  | Asr => lit "Asr" | Maghrib => lit "Maghrib" | Isha => lit "Isha"
  end.

Record Location : Type := {
  city : pystr;
  country : pystr;
  countryCode : pystr;
  lat : float;
  lon : float;
  addressLabel : option pystr;
  diyanetIlceId : option pystr;
}.

Record PrayerTimes : Type := {
  pt_Fajr : pystr;
  pt_Sunrise : pystr;
  pt_Dhuhr : pystr;
  pt_Asr : pystr;
  pt_Maghrib : pystr;
  pt_Isha : pystr;
}.

(** [PrayerTimes.get] *)
Definition pt_get (t : PrayerTimes) (n : PrayerName) : pystr :=
  match n with
  | Fajr => pt_Fajr t | Sunrise => pt_Sunrise t | Dhuhr => pt_Dhuhr t
  | Asr => pt_Asr t | Maghrib => pt_Maghrib t | Isha => pt_Isha t
  end.

(** [PrayerTimes.to_dict] *)
Definition pt_to_dict (t : PrayerTimes) : dict :=
  map (fun n => (name_str n, JStr (pt_get t n))) PRAYER_NAMES.

(* ================================================================= *)
(** ** What the embedding takes from the interpreter and the package *)

(** Unicode case mapping, [repr] of floats and containers, the functions
    [sin], [cos] and [atan2] that [math] wraps (the C library's, [atan2]
    with the interpreter's special cases) and the packaged table
    [data/locations.json] are not modelled; the code is embedded over
    them. *)
Class Runtime : Type := {
  py_upper : pystr -> pystr;
  py_lower : pystr -> pystr;
  py_repr : json -> result pystr;
  libm_sin : float -> float;
  libm_cos : float -> float;
  libm_atan2 : float -> float -> float;
  get_locations : list Location;
}.

Section Models.
Context {R : Runtime}.

(** [str(v)]; the [repr] of a container can raise [RecursionError]. *)
Definition py_str (v : json) : result pystr :=
  match v with
  | JStr s => Ok s
  | JNull => Ok (lit "None")
  | JBool true => Ok (lit "True")
  | JBool false => Ok (lit "False")
  | JInt n => Ok (int_str n)
  | JFloat _ | JList _ | JDict _ => py_repr v
  end.

(** [PrayerTimes.from_dict] *)
Definition pt_from_dict (data : json) : result PrayerTimes :=
  (let? fajr := rbind (py_getitem data (lit "Fajr")) py_str in
   let? sunrise := rbind (py_getitem data (lit "Sunrise")) py_str in
   let? dhuhr := rbind (py_getitem data (lit "Dhuhr")) py_str in
   let? asr := rbind (py_getitem data (lit "Asr")) py_str in
   let? maghrib := rbind (py_getitem data (lit "Maghrib")) py_str in
   let? isha := rbind (py_getitem data (lit "Isha")) py_str in
   Ok {| pt_Fajr := fajr; pt_Sunrise := sunrise; pt_Dhuhr := dhuhr;
         pt_Asr := asr; pt_Maghrib := maghrib; pt_Isha := isha |})%result.

End Models.


(* ================================================================= *)
(** ** Dates and times *)

(** A [datetime] by its proleptic Gregorian day number ([toordinal]), its
    wall-clock fields and its UTC offset in seconds. All datetimes of one
    call carry the same [tzinfo], so Python compares and subtracts them by
    their wall-clock fields. *)
Record datetime : Type := {
  ordinal : Z;
  hour : Z;
  minute : Z;
  second : Z;
  microsecond : Z;
  utcoffset : Z;
}.

Definition MAXORDINAL : Z := 3652059.

(** Year, month and day of a day number, as [datetime._ord2ymd]. *)
Definition ord2ymd (n0 : Z) : Z * Z * Z :=
  let n := n0 - 1 in
  let n400 := n / 146097 in
  let n := n mod 146097 in
  let n100 := n / 36524 in
  let n := n mod 36524 in
  let n4 := n / 1461 in
  let n := n mod 1461 in
  let n1 := n / 365 in
  let n := n mod 365 in
  let year := n400 * 400 + 1 + n100 * 100 + n4 * 4 + n1 in
  if (n1 =? 4) || (n100 =? 4) then (year - 1, 12, 31)
  else
    let leapyear := (n1 =? 3) && (negb (n4 =? 24) || (n100 =? 3)) in
    let days_before (m : Z) : Z :=
      nth (Z.to_nat m) [0; 0; 31; 59; 90; 120; 151; 181; 212; 243; 273; 304; 334] 0
      + (if (2 <? m) && leapyear then 1 else 0) in
    let month := Z.shiftr (n + 50) 5 in
    let month := if n <? days_before month then month - 1 else month in
    (year, month, n - days_before month + 1).

(** [d.date().isoformat()] *)
Definition date_isoformat (d : datetime) : pystr :=
  let '(y, m, dd) := ord2ymd (ordinal d) in
  fmt_0 4 y ++ [45] ++ fmt_0 2 m ++ [45] ++ fmt_0 2 dd.

(** [d.isoformat()] of an aware datetime. *)
Definition datetime_isoformat (d : datetime) : pystr :=
  let off := Z.abs (utcoffset d) in
  date_isoformat d ++ lit "T"
    ++ fmt_0 2 (hour d) ++ [COLON] ++ fmt_0 2 (minute d) ++ [COLON]
    ++ fmt_0 2 (second d)
    ++ (if microsecond d =? 0 then [] else [46] ++ fmt_0 6 (microsecond d))
    ++ (if utcoffset d <? 0 then [45] else [43])
    ++ fmt_0 2 (off / 3600) ++ [COLON] ++ fmt_0 2 (off mod 3600 / 60)
    ++ (if off mod 60 =? 0 then [] else [COLON] ++ fmt_0 2 (off mod 60)).

(** [d + timedelta(days=1)] *)
Definition plus_one_day (d : datetime) : result datetime :=
  if ordinal d <? MAXORDINAL
  then Ok {| ordinal := ordinal d + 1; hour := hour d; minute := minute d;
             second := second d; microsecond := microsecond d;
             utcoffset := utcoffset d |}
  else Raise OverflowError.

(** Whether a Python integer fits a C [int]. *)
Definition fits_c_int (n : Z) : bool := (- 2147483648 <=? n) && (n <=? 2147483647).

(** [d.replace(hour=h, minute=m, second=0, microsecond=0)] *)
Definition replace_time (d : datetime) (h m : Z) : result datetime :=
  if negb (fits_c_int h && fits_c_int m) then Raise OverflowError
  else if (0 <=? h) && (h <=? 23) && (0 <=? m) && (m <=? 59)
  then Ok {| ordinal := ordinal d; hour := h; minute := m; second := 0;
             microsecond := 0; utcoffset := utcoffset d |}
  else Raise ValueError.

(** Microseconds since the start of day 0, wall clock. *)
Definition wall_us (d : datetime) : Z :=
  (((ordinal d * 24 + hour d) * 60 + minute d) * 60 + second d) * 1000000
  + microsecond d.

(** [a >= b] *)
Definition datetime_geb (a b : datetime) : bool := wall_us b <=? wall_us a.

(** [a - b], a [timedelta], as its whole number of microseconds. *)
Definition datetime_sub (a b : datetime) : Z := wall_us a - wall_us b.

(** [int(td.total_seconds() * 1000)] for a timedelta of [us] microseconds:
    a true division, a float product, a truncation. *)
Definition timedelta_ms (us : Z) : Z :=
  int_of_float
    (PrimFloat.mul (PrimFloat.div (float_of_Z us) (float_of_Z 1000000))
                   (float_of_Z 1000)).

(* ================================================================= *)
(** ** The world around one call *)

(** The cache file as [_safe_read_cache] meets it. [Path.exists] answers
    false for a path that is not there and re-raises every other [OSError]
    of [stat], such as the [PermissionError] of a directory that cannot be
    searched. *)
Inductive file_state : Type :=
| ExistsFails                     (* [CACHE_PATH.exists()] raises an [OSError] *)
| NoFile                          (* [CACHE_PATH.exists()] is false *)
| ReadFails (e : exn)             (* [read_text] raises [e] *)
| Content (loaded : result json). (* [json.loads] of the text *)

(** One GET as [httpx] answers it; [body] is what the adapter's JSON
    decoding of the response body yields. *)
Record response : Type := {
  status_code : Z;
  body : result json;
}.

(** What [httpx.Client(timeout=20.0, headers=headers).get(url)] is given. *)
Record request : Type := {
  req_url : pystr;
  req_headers : list (pystr * pystr);
}.

Inductive http_outcome : Type :=
| Rejected                  (* [client.get] raises [httpx.InvalidURL], which is
                               no [httpx.HTTPError]: nothing is sent *)
| TransportError            (* [client.get] raises an [httpx.HTTPError] *)
| Answer (r : response).

(** How [ZoneInfo(key)] fails for a string key. *)
Inductive zone_failure : Type :=
| KeyNotFound      (* [ZoneInfoNotFoundError]: no such zone in the database *)
| KeyRefused       (* [ValueError]: an absolute or non-normalized key, or a
                      file that is no zone file *)
| ZoneUnreadable.  (* [OSError]: the zone file cannot be opened *)

Definition zone_failure_exn (f : zone_failure) : exn :=
  match f with
  | KeyNotFound => ZoneInfoNotFoundError
  | KeyRefused => ValueError
  | ZoneUnreadable => OSError
  end.

(** How [timestamp()] of a naive datetime fails. *)
Inductive timestamp_failure : Type :=
| TimeOutOfRange   (* [OverflowError]: out of range for the platform *)
| YearOutOfRange   (* [ValueError]: the local year leaves 1..9999 *)
| LocalTimeFails.  (* [OSError] of the platform's [localtime] *)

Definition timestamp_failure_exn (f : timestamp_failure) : exn :=
  match f with
  | TimeOutOfRange => OverflowError
  | YearOutOfRange => ValueError
  | LocalTimeFails => OSError
  end.

Record World : Type := {
  (** [datetime.now(ZoneInfo(key))]; [None] when [ZoneInfo(key)] raises *)
  zone_now : pystr -> option datetime;
  (** how [ZoneInfo(key)] fails when it does *)
  zone_error : pystr -> zone_failure;
  (** [datetime.now().astimezone()] *)
  local_now : datetime;
  (** [int(d.timestamp())] of a naive local datetime [d]; the local-time
      rules of the platform decide *)
  local_timestamp : datetime -> Z + timestamp_failure;
  cache_file : file_state;
  (** whether the cache directory and file can be written *)
  cache_writable : bool;
  (** how the n-th request sent by the process would end, were it this one *)
  http : request -> nat -> http_outcome;
  (** number of requests sent so far *)
  http_count : nat;
}.

Definition with_cache_file (w : World) (f : file_state) : World :=
  {| zone_now := zone_now w; zone_error := zone_error w;
     local_now := local_now w; local_timestamp := local_timestamp w;
     cache_file := f;
     cache_writable := cache_writable w; http := http w;
     http_count := http_count w |}.

Definition with_http_count (w : World) (n : nat) : World :=
  {| zone_now := zone_now w; zone_error := zone_error w;
     local_now := local_now w; local_timestamp := local_timestamp w;
     cache_file := cache_file w; cache_writable := cache_writable w;
     http := http w; http_count := n |}.

(** Computations that may raise and may change the world. *)
Definition M (A : Type) : Type := World -> result A * World.

Definition mret {A} (a : A) : M A := fun w => (Ok a, w).
Definition mraise {A} (e : exn) : M A := fun w => (Raise e, w).
Definition mbind {A B} (m : M A) (k : A -> M B) : M B :=
  fun w => match m w with
           | (Ok a, w') => k a w'
           | (Raise e, w') => (Raise e, w')
           end.
(** A computation that only reads the world. *)
Definition mread {A} (f : World -> result A) : M A := fun w => (f w, w).
(** A computation that does not look at the world. *)
Definition mlift {A} (r : result A) : M A := fun w => (r, w).

Declare Scope M_scope.
Delimit Scope M_scope with M.
Notation "'do' x <- m ; k" := (mbind m (fun x => k))
  (at level 10, x name, m at level 100, k at level 200) : M_scope.
Notation "'do' ' p <- m ; k" := (mbind m (fun x => match x with p => k end))
  (at level 10, p pattern, m at level 100, k at level 200) : M_scope.

(** [datetime.now(ZoneInfo(tz))]: the key must be a string; the empty key
    is not a normalized path, and for any other key the time-zone database
    decides whether it loads and what is raised when it does not. *)
Definition datetime_now_zone (w : World) (tz : json) : result datetime :=
  match tz with
  | JStr [] => Raise ValueError
  | JStr key => match zone_now w key with
                | Some d => Ok d
                | None => Raise (zone_failure_exn (zone_error w key))
                end
  | _ => Raise TypeError
  end.

(** [int(d.timestamp())] *)
Definition datetime_timestamp (w : World) (d : datetime) : result Z :=
  match local_timestamp w d with
  | inl seconds => Ok seconds
  | inr f => Raise (timestamp_failure_exn f)
  end.

(* ================================================================= *)
(** ** cache.py *)

Definition DIYANET_TIME_ZONE : pystr := lit "Europe/Istanbul".

Record CachedPrayerBundle : Type := {
  cb_times : PrayerTimes;
  cb_tomorrow_fajr : pystr;
  cb_time_zone : json;
  cb_date : pystr;
  cb_fetched_at : pystr;
}.

Definition _cache_key (location : Location) (source : PrayerSource) : pystr :=
  city location ++ lit "-" ++ countryCode location ++ lit "-"
    ++ fmt_5f (lat location) ++ lit "-" ++ fmt_5f (lon location) ++ lit "-"
    ++ source_str source.

(** [except (OSError, json.JSONDecodeError)] *)
Definition is_OSError_or_JSONDecodeError (e : exn) : bool :=
  match e with
  | OSError | JSONDecodeError => true
  | _ => false
  end.

Definition _safe_read_cache (w : World) : result dict :=
  match cache_file w with
  | ExistsFails => Raise OSError
  | NoFile => Ok []
  | ReadFails e => if is_OSError_or_JSONDecodeError e then Ok [] else Raise e
  | Content (Raise e) =>
      if is_OSError_or_JSONDecodeError e then Ok [] else Raise e
  | Content (Ok (JDict data)) => Ok data
  | Content (Ok _) => Ok []
  end.

(** Every string (keys included) satisfies [ps] and every integer [pi]. *)
Fixpoint json_forall (ps : pystr -> bool) (pi : Z -> bool) (v : json) : bool :=
  match v with
  | JStr s => ps s
  | JInt n => pi n
  | JList l =>
      (fix all (l : list json) : bool :=
         match l with
         | [] => true
         | x :: t => json_forall ps pi x && all t
         end) l
  | JDict d =>
      (fix all (d : list (pystr * json)) : bool :=
         match d with
         | [] => true
         | (k, x) :: t => ps k && json_forall ps pi x && all t
         end) d
  | _ => true
  end.

(** UTF-8 encodes every code point but the surrogates. *)
Definition utf8_encodable (s : pystr) : bool :=
  forallb (fun c => negb ((55296 <=? c) && (c <=? 57343))) s.

(** [str(n)] stays within the interpreter's digit limit. *)
Definition int_printable (n : Z) : bool :=
  (length (abs_digits n) <=? int_max_str_digits)%nat.

(** [json.dumps] raises on an integer it cannot print, before the file is
    opened; [write_text] opens the file for writing, which empties it, and
    raises when the text does not encode. The text written loads back as
    the payload itself. *)
Definition _safe_write_cache (payload : dict) : M unit :=
  fun w =>
    if negb (cache_writable w) then (Raise OSError, w)
    else if negb (json_forall (fun _ => true) int_printable (JDict payload))
    then (Raise ValueError, w)
    else if negb (json_forall utf8_encodable (fun _ => true) (JDict payload))
    then (Raise UnicodeEncodeError,
          with_cache_file w (Content (Raise JSONDecodeError)))
    else (Ok tt, with_cache_file w (Content (Ok (JDict payload)))).

Definition _date_string_for_zone
    (w : World) (time_zone : json) (source : PrayerSource) : result pystr :=
  let otherwise :=
    if source_eqb source diyanet
    then (let? now := datetime_now_zone w (JStr DIYANET_TIME_ZONE) in
          Ok (date_isoformat now))%result
    else Ok (date_isoformat (local_now w)) in
  if py_truthy time_zone
  then except_Exception
         (let? now := datetime_now_zone w time_zone in
          Ok (date_isoformat now))%result
         otherwise
  else otherwise.

Section Cache.
Context {R : Runtime}.

(** [entry] is what [data.get(key)] gave, [JNull] for a missing key. *)
Definition _parse_cached_entry (entry : json) : option CachedPrayerBundle :=
  match entry with
  | JDict d =>
      match
        (let? times := rbind (py_getitem entry (lit "times")) pt_from_dict in
         let? tomorrow_fajr :=
           rbind (py_getitem entry (lit "tomorrow_fajr")) py_str in
         let? time_zone := py_get entry (lit "time_zone") JNull in
         let? date := rbind (py_getitem entry (lit "date")) py_str in
         let? fetched_at := rbind (py_getitem entry (lit "fetched_at")) py_str in
         Ok {| cb_times := times; cb_tomorrow_fajr := tomorrow_fajr;
               cb_time_zone := time_zone; cb_date := date;
               cb_fetched_at := fetched_at |})%result
      with
      | Ok bundle => Some bundle
      | Raise _ => None
      end
  | _ => None
  end.

Definition dict_get_or_None (k : pystr) (d : dict) : json :=
  match dict_get k d with Some v => v | None => JNull end.

Definition get_fresh_cached_bundle
    (w : World) (location : Location) (source : PrayerSource)
  : result (option CachedPrayerBundle) :=
  (let? data := _safe_read_cache w in
   let key := _cache_key location source in
   match _parse_cached_entry (dict_get_or_None key data) with
   | None => Ok None
   | Some entry =>
       let? expected_date := _date_string_for_zone w (cb_time_zone entry) source in
       if str_eqb (cb_date entry) expected_date then Ok (Some entry) else Ok None
   end)%result.

Definition get_stale_cached_bundle
    (w : World) (location : Location) (source : PrayerSource)
  : result (option CachedPrayerBundle) :=
  (let? data := _safe_read_cache w in
   let key := _cache_key location source in
   Ok (_parse_cached_entry (dict_get_or_None key data)))%result.

(** The record [set_cached_bundle] stores under the key. *)
Definition cache_record
    (times : PrayerTimes) (tomorrow_fajr : pystr) (time_zone : json)
    (date fetched_at : pystr) : json :=
  JDict [(lit "times", JDict (pt_to_dict times));
         (lit "tomorrow_fajr", JStr tomorrow_fajr);
         (lit "time_zone", time_zone);
         (lit "date", JStr date);
         (lit "fetched_at", JStr fetched_at)].

Definition set_cached_bundle
    (location : Location) (source : PrayerSource) (times : PrayerTimes)
    (tomorrow_fajr : pystr) (time_zone : json) : M unit :=
  (do data <- mread _safe_read_cache;
   let key := _cache_key location source in
   do now <- mread (fun w => Ok (local_now w));
   do date <- mread (fun w => _date_string_for_zone w time_zone source);
   _safe_write_cache
     (dict_set key
        (cache_record times tomorrow_fajr time_zone date (datetime_isoformat now))
        data))%M.

End Cache.

(* ================================================================= *)
(** ** location.py: the nearest known location of a country *)

Section LocationSearch.
Context {R : Runtime}.

(** [math_1] of mathmodule.c, the wrapper of [math.sin], [math.cos] and
    [math.sqrt]: a NaN result of an argument that is none, or an infinite
    result of a finite argument, is a [ValueError]. *)
Definition math_1 (f : float -> float) (x : float) : result float :=
  let r := f x in
  if is_nan r && negb (is_nan x) then Raise ValueError
  else if is_infinity r && is_finite x then Raise ValueError
  else Ok r.

(** [math_2] of mathmodule.c, the wrapper of [math.atan2]. *)
Definition math_2 (f : float -> float -> float) (x y : float) : result float :=
  let r := f x y in
  if is_nan r && negb (is_nan x) && negb (is_nan y) then Raise ValueError
  else if is_infinity r && is_finite x && is_finite y then Raise OverflowError
  else Ok r.

Definition math_sin : float -> result float := math_1 libm_sin.
Definition math_cos : float -> result float := math_1 libm_cos.
Definition math_sqrt : float -> result float := math_1 PrimFloat.sqrt.
Definition math_atan2 : float -> float -> result float := math_2 libm_atan2.

(** [math.radians] *)
Definition math_radians (x : float) : float :=
  (x * (0x1.921fb54442d18p+1 / 180))%float.

(** [x ** 2], taken as the correctly rounded square; a finite [x] whose
    square overflows is an [OverflowError]. *)
Definition float_pow_2 (x : float) : result float :=
  let r := (x * x)%float in
  if is_infinity r && is_finite x then Raise OverflowError else Ok r.

Definition haversine_distance (lat1 lon1 lat2 lon2 : float) : result float :=
  let radius_km := 6371%float in
  let d_lat := math_radians (lat2 - lat1)%float in
  let d_lon := math_radians (lon2 - lon1)%float in
  (let? s1 := math_sin (d_lat / 2)%float in
   let? s1 := float_pow_2 s1 in
   let? c1 := math_cos (math_radians lat1) in
   let? c2 := math_cos (math_radians lat2) in
   let? s2 := math_sin (d_lon / 2)%float in
   let? s2 := float_pow_2 s2 in
   let a := (s1 + c1 * c2 * s2)%float in
   let? r1 := math_sqrt a in
   let? r2 := math_sqrt (1 - a)%float in
   let? t := math_atan2 r1 r2 in
   let c := (2 * t)%float in
   Ok (radius_km * c)%float)%result.

(** The [for] loop of [find_nearest_location_by_country_code] over the
    locations still to visit. *)
Fixpoint nearest_scan
    (lat0 lon0 : float) (country_code : pystr) (locations : list Location)
    (nearest : option Location) (min_distance : float)
  : result (option Location) :=
  match locations with
  | [] => Ok nearest
  | loc :: rest =>
      if negb (str_eqb (countryCode loc) country_code)
      then nearest_scan lat0 lon0 country_code rest nearest min_distance
      else
        (let? distance := haversine_distance lat0 lon0 (lat loc) (lon loc) in
         if PrimFloat.ltb distance min_distance
         then nearest_scan lat0 lon0 country_code rest (Some loc) distance
         else nearest_scan lat0 lon0 country_code rest nearest min_distance)%result
  end.

Definition find_nearest_location_by_country_code
    (lat0 lon0 : float) (country_code : pystr) : result (option Location) :=
  nearest_scan lat0 lon0 country_code get_locations None infinity.

End LocationSearch.

(* ================================================================= *)
(** ** prayer_api.py *)

Definition ALADHAN_BASE_URL : pystr := lit "https://api.aladhan.com/v1".
Definition DIYANET_BASE_URL : pystr := lit "https://ezanvakti.emushaf.net/vakitler".
Definition TURKEY_COUNTRY_CODE : pystr := lit "TR".
Definition MAX_RETRIES : nat := 2.

Record PrayerFetchResult : Type := {
  fr_times : PrayerTimes;
  fr_tomorrow_fajr : pystr;
  fr_time_zone : json;
  requested_source : PrayerSource;
  resolved_source : PrayerSource;
}.

Definition format_time_to_hhmm (value : pystr) : result pystr :=
  match re_search_time value with
  | None => Ok value
  | Some (g1, g2) =>
      (let? hours := py_int g1 in
       let? minutes := py_int g2 in
       Ok (fmt_0 2 hours ++ [COLON] ++ fmt_0 2 minutes))%result
  end.

Definition _require_time_field (payload : dict) (key : pystr) : result pystr :=
  match dict_get key payload with
  | Some (JStr raw) =>
      (let? hhmm := format_time_to_hhmm raw in
       if re_fullmatch_hhmm hhmm then Ok hhmm
       else Raise (PrayerApiError (lit "Invalid time format for " ++ key)))%result
  | _ => Raise (PrayerApiError (lit "Missing time field: " ++ key))
  end.

(** [client.get(url)] on a client made with [headers]: how the next
    request ends. A URL the client rejects is not sent. *)
Definition http_get (url : pystr) (headers : list (pystr * pystr)) : M http_outcome :=
  fun w =>
    match http w {| req_url := url; req_headers := headers |} (http_count w) with
    | Rejected => (Ok Rejected, w)
    | outcome => (Ok outcome, with_http_count w (S (http_count w)))
    end.

(** The loop of [_get_with_retries] over the attempts still to run;
    [httpx.InvalidURL] is not caught by [except httpx.HTTPError]. *)
Fixpoint _get_with_retries_from
    (attempts : list nat) (url : pystr) (headers : list (pystr * pystr))
    (error_message : pystr) : M response :=
  match attempts with
  | [] => mraise (PrayerApiError error_message)
  | attempt :: rest =>
      (do outcome <- http_get url headers;
       match outcome with
       | Rejected => mraise InvalidURL
       | Answer r =>
           if (500 <=? status_code r) && (attempt <? MAX_RETRIES)%nat
           then _get_with_retries_from rest url headers error_message
           else mret r
       | TransportError =>
           if (attempt <? MAX_RETRIES)%nat
           then _get_with_retries_from rest url headers error_message
           else mraise (PrayerApiError error_message)
       end)%M
  end.

Definition _get_with_retries
    (url : pystr) (headers : list (pystr * pystr)) (error_message : pystr)
  : M response :=
  _get_with_retries_from (seq 0 (MAX_RETRIES + 1)) url headers error_message.

Definition _parse_diyanet_date_parts (value : pystr) : result (option (Z * Z * Z)) :=
  match re_findall_digits value with
  | m0 :: m1 :: m2 :: _ =>
      (let? day := py_int m0 in
       let? month := py_int m1 in
       let? year := py_int m2 in
       if (day =? 0) || (month =? 0) || (year =? 0) then Ok None
       else Ok (Some (year, month, day)))%result
  | _ => Ok None
  end.

(** [moment] is already a datetime of [time_zone], so [astimezone] leaves
    its fields as they are. *)
Definition _get_timezone_date_parts (moment : datetime) : Z * Z * Z :=
  ord2ymd (ordinal moment).

Definition date_parts_eqb (a : option (Z * Z * Z)) (b : Z * Z * Z) : bool :=
  match a, b with
  | Some (y, m, d), (y', m', d') => (y =? y') && (m =? m') && (d =? d')
  | None, _ => false
  end.

Fixpoint _find_diyanet_prayer_times_in
    (data : list json) (target_parts : Z * Z * Z) : result (option dict) :=
  match data with
  | [] => Ok None
  | entry :: rest =>
      match entry with
      | JDict d =>
          (let? parsed :=
             match dict_get (lit "MiladiTarihKisa") d with
             | None => _parse_diyanet_date_parts []
             | Some (JStr value) => _parse_diyanet_date_parts value
             | Some _ => Raise TypeError
             end in
           if date_parts_eqb parsed target_parts then Ok (Some d)
           else _find_diyanet_prayer_times_in rest target_parts)%result
      | _ => Raise AttributeError
      end
  end.

Definition _find_diyanet_prayer_times
    (data : list json) (target_date : datetime) : result (option dict) :=
  _find_diyanet_prayer_times_in data (_get_timezone_date_parts target_date).

Definition _fetch_from_diyanet (ilce_id : pystr) : M (list json) :=
  let url := DIYANET_BASE_URL ++ lit "/" ++ ilce_id in
  let headers := [(lit "Accept", lit "application/json");
                  (lit "User-Agent", lit "SalahNow")] in
  (do r <- _get_with_retries url headers
             (lit "Failed to fetch prayer times from Diyanet");
   if 400 <=? status_code r
   then mraise (PrayerApiError (lit "Failed to fetch prayer times from Diyanet"))
   else
     match body r with
     | Raise JSONDecodeError => mraise (PrayerApiError (lit "Invalid response from Diyanet"))
     | Raise e => mraise e
     | Ok (JList payload) => mret payload
     | Ok _ => mraise (PrayerApiError (lit "Unexpected Diyanet response"))
     end)%M.

(** [if not found] for an optional dictionary. *)
Definition dict_falsy (found : option dict) : bool :=
  match found with
  | Some (_ :: _) => false
  | _ => true
  end.

Definition prayer_times_of
    (payload : dict) (k1 k2 k3 k4 k5 k6 : pystr) : result PrayerTimes :=
  (let? fajr := _require_time_field payload k1 in
   let? sunrise := _require_time_field payload k2 in
   let? dhuhr := _require_time_field payload k3 in
   let? asr := _require_time_field payload k4 in
   let? maghrib := _require_time_field payload k5 in
   let? isha := _require_time_field payload k6 in
   Ok {| pt_Fajr := fajr; pt_Sunrise := sunrise; pt_Dhuhr := dhuhr;
         pt_Asr := asr; pt_Maghrib := maghrib; pt_Isha := isha |})%result.

Definition _fetch_prayer_times_from_diyanet (ilce_id : pystr) : M PrayerTimes :=
  (do data <- _fetch_from_diyanet ilce_id;
   do today <- mread (fun w => datetime_now_zone w (JStr DIYANET_TIME_ZONE));
   do today_times <- mlift (_find_diyanet_prayer_times data today);
   if dict_falsy today_times
   then mraise (PrayerApiError (lit "Could not find today's prayer times"))
   else
     let payload := match today_times with Some d => d | None => [] end in
     mlift (prayer_times_of payload (lit "Imsak") (lit "Gunes") (lit "Ogle")
              (lit "Ikindi") (lit "Aksam") (lit "Yatsi")))%M.

Definition _fetch_tomorrow_fajr_from_diyanet (ilce_id : pystr) : M pystr :=
  (do data <- _fetch_from_diyanet ilce_id;
   do today <- mread (fun w => datetime_now_zone w (JStr DIYANET_TIME_ZONE));
   do tomorrow <- mlift (plus_one_day today);
   do tomorrow_times <- mlift (_find_diyanet_prayer_times data tomorrow);
   if dict_falsy tomorrow_times
   then mraise (PrayerApiError (lit "Could not find tomorrow's prayer times"))
   else
     let payload := match tomorrow_times with Some d => d | None => [] end in
     mlift (_require_time_field payload (lit "Imsak")))%M.

(** [except ValueError] around [response.json()] *)
Definition is_ValueError (e : exn) : bool :=
  match e with
  | ValueError | JSONDecodeError | UnicodeDecodeError | UnicodeEncodeError => true
  | _ => false
  end.

Section AlAdhan.
Context {R : Runtime}.

(** An f-string formats a float as [str] does. *)
Definition _aladhan_timings_url (timestamp : Z) (location : Location) : result pystr :=
  (let? latitude := py_str (JFloat (lat location)) in
   let? longitude := py_str (JFloat (lon location)) in
   Ok (ALADHAN_BASE_URL ++ lit "/timings/" ++ int_str timestamp
         ++ lit "?latitude=" ++ latitude ++ lit "&longitude=" ++ longitude
         ++ lit "&method=3&school=1"))%result.

Definition ALADHAN_HEADERS : list (pystr * pystr) :=
  [(lit "User-Agent", lit "SalahNow CLI")].

(** The request, status check, JSON decoding and walk to [data.timings]
    shared by the two AlAdhan fetchers; gives [data] and [timings]. *)
Definition aladhan_timings (url error_message : pystr) : M (json * dict) :=
  (do r <- _get_with_retries url ALADHAN_HEADERS error_message;
   if 400 <=? status_code r then mraise (PrayerApiError error_message)
   else
     match body r with
     | Raise e =>
         if is_ValueError e
         then mraise (PrayerApiError (lit "Invalid response from AlAdhan"))
         else mraise e
     | Ok payload =>
         do data <- mlift (py_get payload (lit "data") (JDict []));
         do timings <- mlift (py_get data (lit "timings") (JDict []));
         match timings with
         | JDict t => mret (data, t)
         | _ => mraise (PrayerApiError (lit "Unexpected response format from AlAdhan"))
         end
     end)%M.

Definition _fetch_prayer_times_from_aladhan (location : Location)
  : M (PrayerTimes * json) :=
  (do timestamp <- mread (fun w => datetime_timestamp w (local_now w));
   do url <- mlift (_aladhan_timings_url timestamp location);
   do '(data, timings) <- aladhan_timings url (lit "Failed to fetch prayer times");
   do times <- mlift (prayer_times_of timings (lit "Fajr") (lit "Sunrise")
                        (lit "Dhuhr") (lit "Asr") (lit "Maghrib") (lit "Isha"));
   do meta <- mlift (py_get data (lit "meta") (JDict []));
   do time_zone <- mlift (py_get meta (lit "timezone") JNull);
   mret (times, time_zone))%M.

Definition _fetch_tomorrow_fajr_from_aladhan (location : Location) : M pystr :=
  (do tomorrow <- mread (fun w => plus_one_day (local_now w));
   do timestamp <- mread (fun w => datetime_timestamp w tomorrow);
   do url <- mlift (_aladhan_timings_url timestamp location);
   do '(_, timings) <- aladhan_timings url
                         (lit "Failed to fetch tomorrow's prayer times");
   mlift (_require_time_field timings (lit "Fajr")))%M.

End AlAdhan.

(** [try: body except PrayerApiError: handler]; a bare [raise] in the
    handler raises the exception handed to it. *)
Definition try_except_PrayerApiError {A} (body : M A) (handler : exn -> M A) : M A :=
  fun w =>
    match body w with
    | (Raise (PrayerApiError msg), w') => handler (PrayerApiError msg) w'
    | other => other
    end.

Section PrayerApi.
Context {R : Runtime}.

Definition is_turkiye_location (location : Location) : bool :=
  if str_eqb (py_upper (countryCode location)) TURKEY_COUNTRY_CODE then true
  else
    let country := py_lower (py_strip (country location)) in
    str_eqb country (lit "t" ++ [195; 188] ++ lit "rkiye")
    || str_eqb country (lit "turkiye").

(** [if s] for an optional string. *)
Definition opt_str_truthy (s : option pystr) : bool :=
  match s with
  | Some (_ :: _) => true
  | _ => false
  end.

Definition get_diyanet_ilce_id (location : Location) : result (option pystr) :=
  if opt_str_truthy (diyanetIlceId location) then Ok (diyanetIlceId location)
  else if negb (is_turkiye_location location) then Ok None
  else
    (let? nearest := find_nearest_location_by_country_code
                       (lat location) (lon location) TURKEY_COUNTRY_CODE in
     match nearest with
     | Some nearest => Ok (diyanetIlceId nearest)
     | None => Ok None
     end)%result.

Definition resolve_prayer_source
    (location : Location) (source : PrayerSource) : PrayerSource :=
  if is_turkiye_location location then source else mwl.

Definition result_of_bundle
    (b : CachedPrayerBundle) (source resolved : PrayerSource) : PrayerFetchResult :=
  {| fr_times := cb_times b; fr_tomorrow_fajr := cb_tomorrow_fajr b;
     fr_time_zone := cb_time_zone b; requested_source := source;
     resolved_source := resolved |}.

(** The body of the [try] statement of [fetch_prayer_bundle]. *)
Definition fetch_from_provider
    (location : Location) (source resolved : PrayerSource) : M PrayerFetchResult :=
  (if source_eqb resolved diyanet then
     do ilce_id <- mlift (get_diyanet_ilce_id location);
     if negb (opt_str_truthy ilce_id)
     then mraise (PrayerApiError (lit "Failed to resolve Diyanet location"))
     else
       let ilce := match ilce_id with Some i => i | None => [] end in
       do times <- _fetch_prayer_times_from_diyanet ilce;
       do tomorrow_fajr <- _fetch_tomorrow_fajr_from_diyanet ilce;
       do _ <- set_cached_bundle location resolved times tomorrow_fajr
                 (JStr DIYANET_TIME_ZONE);
       mret {| fr_times := times; fr_tomorrow_fajr := tomorrow_fajr;
               fr_time_zone := JStr DIYANET_TIME_ZONE;
               requested_source := source; resolved_source := resolved |}
   else
     do '(times, time_zone) <- _fetch_prayer_times_from_aladhan location;
     do tomorrow_fajr <- _fetch_tomorrow_fajr_from_aladhan location;
     do _ <- set_cached_bundle location resolved times tomorrow_fajr time_zone;
     mret {| fr_times := times; fr_tomorrow_fajr := tomorrow_fajr;
             fr_time_zone := time_zone;
             requested_source := source; resolved_source := resolved |})%M.

Definition fetch_prayer_bundle
    (location : Location) (source : PrayerSource) : M PrayerFetchResult :=
  let resolved := resolve_prayer_source location source in
  (do fresh_cached <- mread (fun w => get_fresh_cached_bundle w location resolved);
   match fresh_cached with
   | Some fresh => mret (result_of_bundle fresh source resolved)
   | None =>
       try_except_PrayerApiError
         (fetch_from_provider location source resolved)
         (fun e =>
            do stale_cached <-
              mread (fun w => get_stale_cached_bundle w location resolved);
            match stale_cached with
            | Some stale => mret (result_of_bundle stale source resolved)
            | None => mraise e
            end)
   end)%M.

End PrayerApi.

(* ================================================================= *)
(** ** prayer_logic.py *)

Record PrayerTimePoint : Type := {
  tp_name : PrayerName;
  tp_time : pystr;
  tp_timestamp : datetime;
}.

Record CurrentPrayerInfo : Type := {
  current_prayer : option PrayerName;
  next_prayer : PrayerName;
  next_prayer_time : pystr;
  time_until_next_ms : Z;
  is_after_isha : bool;
}.

Definition get_time_zone_now (w : World) (time_zone : json) : result datetime :=
  if py_truthy time_zone then datetime_now_zone w time_zone
  else Ok (local_now w).

Definition time_string_to_datetime
    (time_str : pystr) (base_date : datetime) : result datetime :=
  match firstn 2 (py_split COLON time_str) with
  | [p1; p2] =>
      (let? hours := py_int p1 in
       let? minutes := py_int p2 in
       replace_time base_date hours minutes)%result
  | _ => Raise ValueError
  end.

Fixpoint get_prayer_times_array_of
    (names : list PrayerName) (prayer_times : PrayerTimes) (base_date : datetime)
  : result (list PrayerTimePoint) :=
  match names with
  | [] => Ok []
  | name :: rest =>
      (let? timestamp := time_string_to_datetime (pt_get prayer_times name) base_date in
       let? points := get_prayer_times_array_of rest prayer_times base_date in
       Ok ({| tp_name := name; tp_time := pt_get prayer_times name;
              tp_timestamp := timestamp |} :: points))%result
  end.

Definition get_prayer_times_array
    (prayer_times : PrayerTimes) (base_date : datetime)
  : result (list PrayerTimePoint) :=
  get_prayer_times_array_of PRAYER_NAMES prayer_times base_date.

(** The local variables of [get_current_prayer_info] that its loop
    assigns; [lv_until] is the timedelta in microseconds. *)
Record loop_vars : Type := {
  lv_current : option PrayerName;
  lv_next : PrayerName;
  lv_next_time : pystr;
  lv_until : Z;
  lv_after_isha : bool;
}.

(** The [for] loop of [get_current_prayer_info] over the indices still to
    visit, [len(prayers) - 1] first. *)
Fixpoint scan_prayers
    (indices : list nat) (prayers : list PrayerTimePoint) (now : datetime)
    (prayer_times : PrayerTimes) (tomorrow_fajr : option pystr)
    (vars : loop_vars) : result loop_vars :=
  match indices with
  | [] => Ok vars
  | i :: rest =>
      match nth_error prayers i with
      | None => Raise IndexError
      | Some p =>
          if datetime_geb now (tp_timestamp p) then
            if (i <? length prayers - 1)%nat then
              match nth_error prayers (i + 1) with
              | None => Raise IndexError
              | Some q =>
                  Ok {| lv_current := Some (tp_name p);
                        lv_next := tp_name q;
                        lv_next_time := tp_time q;
                        lv_until := datetime_sub (tp_timestamp q) now;
                        lv_after_isha := lv_after_isha vars |}
              end
            else
              (let? tomorrow := plus_one_day now in
               let next_time :=
                 if opt_str_truthy tomorrow_fajr
                 then match tomorrow_fajr with Some t => t | None => [] end
                 else pt_Fajr prayer_times in
               let? tomorrow_fajr_dt := time_string_to_datetime next_time tomorrow in
               Ok {| lv_current := Some (tp_name p);
                     lv_next := Fajr;
                     lv_next_time := next_time;
                     lv_until := datetime_sub tomorrow_fajr_dt now;
                     lv_after_isha := true |})%result
          else scan_prayers rest prayers now prayer_times tomorrow_fajr vars
      end
  end.

Definition get_current_prayer_info
    (w : World) (prayer_times : PrayerTimes) (tomorrow_fajr : option pystr)
    (time_zone : json) : result CurrentPrayerInfo :=
  (let? now := get_time_zone_now w time_zone in
   let? prayers := get_prayer_times_array prayer_times now in
   let init :=
     {| lv_current := None; lv_next := Fajr;
        lv_next_time := pt_Fajr prayer_times; lv_until := 0;
        lv_after_isha := false |} in
   let? vars :=
     scan_prayers (rev (seq 0 (length prayers))) prayers now prayer_times
       tomorrow_fajr init in
   let? vars :=
     match lv_current vars with
     | None =>
         match nth_error prayers 0 with
         | None => Raise IndexError
         | Some first =>
             Ok {| lv_current := Some Isha; lv_next := Fajr;
                   lv_next_time := pt_Fajr prayer_times;
                   lv_until := datetime_sub (tp_timestamp first) now;
                   lv_after_isha := lv_after_isha vars |}
         end
     | Some _ => Ok vars
     end in
   let time_until_next_ms := timedelta_ms (lv_until vars) in
   Ok {| current_prayer := lv_current vars;
         next_prayer := lv_next vars;
         next_prayer_time := lv_next_time vars;
         time_until_next_ms := Z.max 0 time_until_next_ms;
         is_after_isha := lv_after_isha vars |})%result.

Definition format_countdown (ms : Z) : pystr :=
  if ms <=? 0 then lit "00:00:00"
  else
    let total_seconds := ms / 1000 in
    let hours := total_seconds / 3600 in
    let minutes := (total_seconds mod 3600) / 60 in
    let seconds := total_seconds mod 60 in
    fmt_0 2 hours ++ [COLON] ++ fmt_0 2 minutes ++ [COLON] ++ fmt_0 2 seconds.

(* ================================================================= *)
(** ** A runtime and sample data for closed examples *)

Definition ascii_upper (s : pystr) : pystr :=
  map (fun c => if (97 <=? c) && (c <=? 122) then c - 32 else c) s.

Definition ascii_lower (s : pystr) : pystr :=
  map (fun c => if (65 <=? c) && (c <=? 90) then c + 32 else c) s.

(** Case mapping as Python does it on ASCII text, an empty location table,
    and placeholders for what the examples never call. *)
Definition ascii_runtime : Runtime :=
  {| py_upper := ascii_upper;
     py_lower := ascii_lower;
     py_repr := fun _ => Ok (lit "?");
     libm_sin := fun x => x;
     libm_cos := fun x => x;
     libm_atan2 := fun x _ => x;
     get_locations := [] |}.

(** The location and times of the repository's tests. *)
Definition sample_location_tr : Location :=
  {| city := lit "Istanbul"; country := lit "Turkiye"; countryCode := lit "TR";
     lat := 0x1.4810cb295e9e2p+5; lon := 0x1.cfa786c22680ap+4;
     addressLabel := None; diyanetIlceId := Some (lit "9541") |}.

Definition sample_times : PrayerTimes :=
  {| pt_Fajr := lit "06:22"; pt_Sunrise := lit "07:48"; pt_Dhuhr := lit "13:23";
     pt_Asr := lit "16:19"; pt_Maghrib := lit "18:48"; pt_Isha := lit "20:08" |}.

(** 2024-02-29 at the given wall-clock time, UTC+3. *)
Definition sample_instant (h m s : Z) : datetime :=
  {| ordinal := 738945; hour := h; minute := m; second := s;
     microsecond := 0; utcoffset := 10800 |}.

(** What the sample worlds raise for a key they do not know: an absolute
    path is refused, any other name is not found. *)
Definition sample_zone_error (key : pystr) : zone_failure :=
  match key with
  | 47 :: _ => KeyRefused
  | _ => KeyNotFound
  end.

Definition datetime_eqb (a b : datetime) : bool :=
  (ordinal a =? ordinal b) && (hour a =? hour b) && (minute a =? minute b)
  && (second a =? second b) && (microsecond a =? microsecond b)
  && (utcoffset a =? utcoffset b).

(** Seconds from 1970-01-01 UTC to a datetime, by its UTC offset. *)
Definition epoch_seconds (d : datetime) : Z :=
  (ordinal d - 719163) * 86400 + hour d * 3600 + minute d * 60 + second d
  - utcoffset d.

(** The timestamps a call at [now] asks for, of [now] and of the same
    wall-clock time on the next day; the sample worlds refuse any other. *)
Definition sample_timestamp (now d : datetime) : Z + timestamp_failure :=
  if datetime_eqb d now then inl (epoch_seconds now)
  else
    match plus_one_day now with
    | Ok tomorrow =>
        if datetime_eqb d tomorrow then inl (epoch_seconds tomorrow)
        else inr TimeOutOfRange
    | Raise _ => inr TimeOutOfRange
    end.

(** A world whose time-zone database knows Europe/Istanbul only, whose
    cache file is [file] and whose network never answers. *)
Definition sample_world (now : datetime) (file : file_state) : World :=
  {| zone_now := fun key => if str_eqb key DIYANET_TIME_ZONE then Some now else None;
     zone_error := sample_zone_error;
     local_now := now;
     local_timestamp := sample_timestamp now;
     cache_file := file;
     cache_writable := true;
     http := fun _ _ => TransportError;
     http_count := 0 |}.

(* ================================================================= *)
(** ** Notions the specification speaks of *)

(** The two ASCII digits of a number below one hundred. *)
Definition two_digits (n : Z) : pystr := [ZERO + n / 10; ZERO + n mod 10].

(** The hour field of a countdown: two digits, more from a hundred hours on. *)
Definition hours_field (h : Z) : pystr :=
  if h <? 100 then two_digits h else int_str h.

(** Every character of [g] is a decimal digit. *)
Definition digits (g : pystr) : Prop := Forall (fun c => is_digit c = true) g.

(** [s] holds, at offset [i], an hour [h] of one or two digits, a colon
    and a minute [m] of two digits. *)
Definition time_at (s : pystr) (i : nat) (h m : pystr) : Prop :=
  (length h = 1 \/ length h = 2)%nat /\ length m = 2%nat /\ digits h /\ digits m
  /\ exists pre post, s = pre ++ h ++ COLON :: m ++ post /\ length pre = i.

(** [h ++ ":" ++ m] is the first H:MM or HH:MM substring of [s]. *)
Definition first_time (s : pystr) (h m : pystr) : Prop :=
  exists i, time_at s i h m
            /\ forall j h' m', time_at s j h' m' -> (i <= j)%nat.

(** The zero-padded [HH:MM] of an hour and a minute given by their digits. *)
Definition hhmm_of (h m : pystr) : pystr :=
  two_digits (digits_value h) ++ [COLON] ++ two_digits (digits_value m).

(** An ASCII decimal digit. *)
Definition ascii_digit (c : char) : bool := (48 <=? c) && (c <=? 57).

(** Two ASCII digits, a colon, two ASCII digits. *)
Definition hhmm_shape (s : pystr) : bool :=
  match s with
  | [a; b; c; d; e] =>
      ascii_digit a && ascii_digit b && (c =? COLON) && ascii_digit d && ascii_digit e
  | _ => false
  end.

(** A canonical 24-hour time: hour 00 to 23, minute 00 to 59. *)
Definition canonical_hhmm (s : pystr) : bool :=
  match s with
  | [a; b; _; d; e] =>
      hhmm_shape s
      && ((a - ZERO) * 10 + (b - ZERO) <=? 23)
      && ((d - ZERO) * 10 + (e - ZERO) <=? 59)
  | _ => false
  end.

(** All six fields of [t] satisfy [p]. *)
Definition all_fields (p : pystr -> bool) (t : PrayerTimes) : bool :=
  forallb (fun n => p (pt_get t n)) PRAYER_NAMES.

(** An AlAdhan answer whose six timings all read [v]. *)
Definition aladhan_answer (v : pystr) : http_outcome :=
  Answer
    {| status_code := 200;
       body := Ok (JDict [(lit "data",
                 JDict [(lit "timings",
                   JDict (map (fun n => (name_str n, JStr v)) PRAYER_NAMES))])]) |}.

(** A world whose network gives every request the same [answer]. *)
Definition answering_world (answer : http_outcome) : World :=
  {| zone_now := fun _ => None;
     zone_error := sample_zone_error;
     local_now := sample_instant 12 0 0;
     local_timestamp := sample_timestamp (sample_instant 12 0 0);
     cache_file := NoFile;
     cache_writable := true;
     http := fun _ _ => answer;
     http_count := 0 |}.

Definition times_all (v : pystr) : PrayerTimes :=
  {| pt_Fajr := v; pt_Sunrise := v; pt_Dhuhr := v;
     pt_Asr := v; pt_Maghrib := v; pt_Isha := v |}.

(** A location in Germany whose country name is the Turkish one. *)
Definition location_de_turkiye : Location :=
  {| city := lit "Berlin"; country := lit " Turkiye "; countryCode := lit "DE";
     lat := 52.5; lon := 13.5; addressLabel := None; diyanetIlceId := None |}.

(** "Today" in the recorded time zone, when one is recorded and the
    time-zone database knows it. *)
Definition zone_today (w : World) (time_zone : json) : option pystr :=
  match time_zone with
  | JStr (c :: key) => option_map date_isoformat (zone_now w (c :: key))
  | _ => None
  end.

(** "Today" of the freshness rule, in the order the specification gives:
    the recorded zone, else Europe/Istanbul for the regional source, else
    the local date. [None] when Europe/Istanbul is needed and unknown. *)
Definition spec_today (w : World) (time_zone : json) (source : PrayerSource)
  : option pystr :=
  match zone_today w time_zone with
  | Some today => Some today
  | None =>
      match source with
      | diyanet => zone_today w (JStr DIYANET_TIME_ZONE)
      | mwl => Some (date_isoformat (local_now w))
      end
  end.

(** A store whose reading raises nothing, or one of the two exceptions
    [_safe_read_cache] names. *)
Definition store_tolerated (f : file_state) : Prop :=
  match f with
  | ExistsFails => False
  | ReadFails e | Content (Raise e) => e = OSError \/ e = JSONDecodeError
  | NoFile | Content (Ok _) => True
  end.

(** The mapping a store stands for: its JSON object, else the empty map. *)
Definition store_map (f : file_state) : dict :=
  match f with
  | Content (Ok (JDict data)) => data
  | _ => []
  end.

(** An entry that is no object, or lacks one of the fields the parser
    subscripts, or whose [times] is no object holding all six names. *)
Definition entry_incomplete (entry : json) : Prop :=
  match entry with
  | JDict d =>
      dict_get (lit "times") d = None
      \/ dict_get (lit "tomorrow_fajr") d = None
      \/ dict_get (lit "date") d = None
      \/ dict_get (lit "fetched_at") d = None
      \/ (exists t, dict_get (lit "times") d = Some t /\ forall x, t <> JDict x)
      \/ (exists x name, dict_get (lit "times") d = Some (JDict x)
                         /\ dict_get (name_str name) x = None)
  | _ => True
  end.

(** The bundle an entry reads as when none of its fields is rejected for
    its JSON type: the entry is an object holding [times], [tomorrow_fajr],
    [date] and [fetched_at], [times] is an object holding the six names,
    and each of these values is taken through [str]; [time_zone] is taken
    as it is stored, [null] when it is missing. *)
Definition entry_reads_as {R : Runtime} (entry : json) (b : CachedPrayerBundle) : Prop :=
  exists d x,
    entry = JDict d
    /\ dict_get (lit "times") d = Some (JDict x)
    /\ (forall name, exists v,
           dict_get (name_str name) x = Some v
           /\ py_str v = Ok (pt_get (cb_times b) name))
    /\ (exists v, dict_get (lit "tomorrow_fajr") d = Some v
                  /\ py_str v = Ok (cb_tomorrow_fajr b))
    /\ cb_time_zone b
       = match dict_get (lit "time_zone") d with Some v => v | None => JNull end
    /\ (exists v, dict_get (lit "date") d = Some v /\ py_str v = Ok (cb_date b))
    /\ (exists v, dict_get (lit "fetched_at") d = Some v
                  /\ py_str v = Ok (cb_fetched_at b)).

(** A stored entry with a number for Fajr, [null] for tomorrow's Fajr and
    a boolean for the date. *)
Definition malformed_entry : json :=
  JDict [(lit "times",
          JDict [(lit "Fajr", JInt 5); (lit "Sunrise", JStr (lit "07:48"));
                 (lit "Dhuhr", JStr (lit "13:23")); (lit "Asr", JStr (lit "16:19"));
                 (lit "Maghrib", JStr (lit "18:48")); (lit "Isha", JStr (lit "20:08"))]);
         (lit "tomorrow_fajr", JNull);
         (lit "date", JBool true);
         (lit "fetched_at", JStr (lit "yesterday"))].

(** A store holding one entry under the key of the sample location. *)
Definition sample_store (entry : json) : file_state :=
  Content (Ok (JDict [(_cache_key sample_location_tr diyanet, entry)])).

(** The sample bundle as stored on the day before the sample instant. *)
Definition stale_record : json :=
  cache_record sample_times (lit "06:21") (JStr DIYANET_TIME_ZONE)
    (lit "2024-02-28") (lit "2024-02-28T20:08:00+03:00").

(** A computation that leaves the cache file alone. *)
Definition keeps_cache {A} (m : M A) : Prop :=
  forall w r w', m w = (r, w') -> cache_file w' = cache_file w.

(** Hour and minute a well-formed [HH:MM] stands for. *)
Definition hour_of (s : pystr) : Z :=
  match s with
  | a :: b :: _ => (a - ZERO) * 10 + (b - ZERO)
  | _ => 0
  end.

Definition minute_of (s : pystr) : Z :=
  match s with
  | _ :: _ :: _ :: d :: e :: _ => (d - ZERO) * 10 + (e - ZERO)
  | _ => 0
  end.

(** The wall-clock microsecond at which the time [s] falls on the day of
    [now]: the today-timestamp of a prayer. *)
Definition today_at (now : datetime) (s : pystr) : Z :=
  ((ordinal now * 24 + hour_of s) * 60 + minute_of s) * 60000000.

(** Place of a prayer in the fixed order. *)
Definition prayer_index (n : PrayerName) : nat :=
  match n with
  | Fajr => 0 | Sunrise => 1 | Dhuhr => 2 | Asr => 3 | Maghrib => 4 | Isha => 5
  end.



(** Tomorrow's Fajr is not supplied, or is a well-formed time. *)
Definition tomorrow_fajr_ok (t : option pystr) : Prop :=
  match t with
  | Some s => canonical_hhmm s = true
  | None => True
  end.

(** Times out of the order of the day: Isha falls after midnight. *)
Definition late_isha_times : PrayerTimes :=
  {| pt_Fajr := lit "03:00"; pt_Sunrise := lit "04:30"; pt_Dhuhr := lit "13:00";
     pt_Asr := lit "17:30"; pt_Maghrib := lit "22:00"; pt_Isha := lit "00:30" |}.


(** A store that cannot be decoded as UTF-8. *)
Definition undecodable_store : file_state := ReadFails UnicodeDecodeError.

(** An outcome after which [_get_with_retries] tries again, if attempts
    are left: a transport error or a 5xx answer. *)
Definition retried (o : http_outcome) : bool :=
  match o with
  | Rejected => false
  | TransportError => true
  | Answer r => 500 <=? status_code r
  end.

(** The retry policy written out, attempt by attempt: what the third
    attempt comes to, then the second, then the first. *)
Definition third_attempt (req : request) (error_message : pystr) (w : World)
  : result response * World :=
  match http w req (S (S (http_count w))) with
  | Rejected => (Raise InvalidURL, with_http_count w (S (S (http_count w))))
  | TransportError =>
      (Raise (PrayerApiError error_message),
       with_http_count w (S (S (S (http_count w)))))
  | Answer r => (Ok r, with_http_count w (S (S (S (http_count w)))))
  end.

Definition second_attempt (req : request) (error_message : pystr) (w : World)
  : result response * World :=
  match http w req (S (http_count w)) with
  | Rejected => (Raise InvalidURL, with_http_count w (S (http_count w)))
  | TransportError => third_attempt req error_message w
  | Answer r =>
      if 500 <=? status_code r then third_attempt req error_message w
      else (Ok r, with_http_count w (S (S (http_count w))))
  end.

Definition first_attempt (req : request) (error_message : pystr) (w : World)
  : result response * World :=
  match http w req (http_count w) with
  | Rejected => (Raise InvalidURL, w)
  | TransportError => second_attempt req error_message w
  | Answer r =>
      if 500 <=? status_code r then second_attempt req error_message w
      else (Ok r, with_http_count w (S (http_count w)))
  end.

(** [w'] differs from [w] at most in the number of requests made. *)
Definition same_but_requests (w w' : World) : Prop :=
  zone_now w' = zone_now w /\ zone_error w' = zone_error w
  /\ local_now w' = local_now w /\ local_timestamp w' = local_timestamp w
  /\ cache_file w' = cache_file w /\ cache_writable w' = cache_writable w
  /\ http w' = http w.

(** A computation that touches the world only by making requests. *)
Definition only_requests {A} (m : M A) : Prop :=
  forall w r w', m w = (r, w') -> same_but_requests w w'.

(** A world whose network answers every request with [o], the cache file
    being [file]. *)
Definition world_answering (o : http_outcome) (file : file_state) : World :=
  {| zone_now := fun key => if str_eqb key DIYANET_TIME_ZONE
                            then Some (sample_instant 20 8 0) else None;
     zone_error := sample_zone_error;
     local_now := sample_instant 20 8 0;
     local_timestamp := sample_timestamp (sample_instant 20 8 0);
     cache_file := file;
     cache_writable := true;
     http := fun _ _ => o;
     http_count := 0 |}.

(** A location in New York. *)
Definition sample_location_us : Location :=
  {| city := lit "New York"; country := lit "United States";
     countryCode := lit "US"; lat := 40.5; lon := (-74)%float;
     addressLabel := None; diyanetIlceId := None |}.


(** An AlAdhan answer whose body is a JSON array. *)
Definition array_answer : http_outcome :=
  Answer {| status_code := 200; body := Ok (JList []) |}.

(* ----------------------------------------------------------------- *)
(** output.py: the style of a row of the prayer table *)

Definition name_eqb (a b : PrayerName) : bool :=
  (prayer_index a =? prayer_index b)%nat.

(** [a < b] on datetimes of one zone. *)
Definition datetime_ltb (a b : datetime) : bool := wall_us a <? wall_us b.

Definition _row_style
    (name : PrayerName) (prayer_time : pystr) (now : datetime)
    (info : CurrentPrayerInfo) : result (option pystr) :=
  (let? prayer_dt := time_string_to_datetime prayer_time now in
   let is_after_isha_tomorrow_fajr := is_after_isha info && name_eqb name Fajr in
   if name_eqb name (next_prayer info)
      && (datetime_geb prayer_dt now || is_after_isha_tomorrow_fajr)
   then Ok (Some (lit "bold green"))
   else if datetime_ltb prayer_dt now && negb is_after_isha_tomorrow_fajr
   then Ok (Some (lit "dim"))
   else Ok None)%result.

(** The prayer that follows [n] on the same day. *)
Definition successor (n : PrayerName) : option PrayerName :=
  match n with
  | Fajr => Some Sunrise | Sunrise => Some Dhuhr | Dhuhr => Some Asr
  | Asr => Some Maghrib | Maghrib => Some Isha | Isha => None
  end.

(** The three shapes of what [get_current_prayer_info] reports at [now]. *)
Definition info_shape
    (times : PrayerTimes) (tomorrow_fajr : option pystr) (now : datetime)
    (info : CurrentPrayerInfo) : Prop :=
  (exists n n',
     successor n = Some n'
     /\ today_at now (pt_get times n) <= wall_us now
     /\ (forall m, (prayer_index n < prayer_index m)%nat ->
                   wall_us now < today_at now (pt_get times m))
     /\ current_prayer info = Some n /\ next_prayer info = n'
     /\ next_prayer_time info = pt_get times n' /\ is_after_isha info = false)
  \/ (today_at now (pt_Isha times) <= wall_us now
      /\ current_prayer info = Some Isha /\ next_prayer info = Fajr
      /\ next_prayer_time info
         = match tomorrow_fajr with Some t => t | None => pt_Fajr times end
      /\ is_after_isha info = true)
  \/ ((forall m, wall_us now < today_at now (pt_get times m))
      /\ current_prayer info = Some Isha /\ next_prayer info = Fajr
      /\ next_prayer_time info = pt_Fajr times /\ is_after_isha info = false).

(** A time zone value that UTF-8 cannot encode: a lone surrogate. *)
Definition surrogate_zone : json := JStr [55357].

(** A table of two locations, one of them in Türkiye. *)
Definition table_runtime : Runtime :=
  {| py_upper := ascii_upper;
     py_lower := ascii_lower;
     py_repr := fun _ => Ok (lit "?");
     libm_sin := fun x => x;
     libm_cos := fun x => x;
     libm_atan2 := fun x _ => x;
     get_locations := [sample_location_us; sample_location_tr] |}.

(** A location in Türkiye that carries no district id. *)
Definition location_tr_without_id : Location :=
  {| city := lit "Ankara"; country := lit "Turkiye"; countryCode := lit "TR";
     lat := 40; lon := 33; addressLabel := None; diyanetIlceId := None |}.

(** A Diyanet entry is dated [target]: it is an object whose
    "MiladiTarihKisa" is a string that reads as that year, month and day. *)
Definition entry_dated (entry : json) (target : Z * Z * Z) : Prop :=
  exists d value parts,
    entry = JDict d
    /\ dict_get (lit "MiladiTarihKisa") d = Some (JStr value)
    /\ _parse_diyanet_date_parts value = Ok parts
    /\ date_parts_eqb parts target = true.

(** A Diyanet month of two days, the second dated 2024-03-01, followed by
    an entry that is not an object. *)
Definition diyanet_month : list json :=
  [JDict [(lit "MiladiTarihKisa", JStr (lit "29.02.2024")); (lit "Imsak", JStr (lit "06:22"))];
   JDict [(lit "MiladiTarihKisa", JStr (lit "01.03.2024")); (lit "Imsak", JStr (lit "06:21"))];
   JNull].

(** Midnight of 2024-03-01, UTC+3. *)
Definition first_of_march : datetime :=
  {| ordinal := 738946; hour := 0; minute := 0; second := 0;
     microsecond := 0; utcoffset := 10800 |}.

(** A Diyanet answer carrying [diyanet_month]. *)
Definition diyanet_answer : http_outcome :=
  Answer {| status_code := 200; body := Ok (JList diyanet_month) |}.

(* ================================================================= *)
(** * Properties *)

(** Linear arithmetic with [/] and [mod] by constants. *)
Ltac lia_div := Z.to_euclidean_division_equations; lia.

(** ** Strings and dictionaries *)

Lemma str_eqb_spec (a b : pystr) : reflect (a = b) (str_eqb a b).
Proof.
  revert b; induction a as [|x a IH]; intros [|y b]; simpl;
    try (constructor; congruence).
  destruct (Z.eqb_spec x y) as [->|Hxy]; simpl.
  - destruct (IH b) as [->|Hab]; constructor; congruence.
  - constructor; congruence.
Qed.

Lemma str_eqb_refl (a : pystr) : str_eqb a a = true.
Proof. destruct (str_eqb_spec a a); congruence. Qed.

Lemma str_eqb_neq (a b : pystr) : a <> b -> str_eqb a b = false.
Proof. destruct (str_eqb_spec a b); congruence. Qed.

Lemma dict_get_set_same (k : pystr) (v : json) (d : dict) :
  dict_get k (dict_set k v d) = Some v.
Proof.
  induction d as [|[k' v'] d IH]; simpl.
  - now rewrite str_eqb_refl.
  - destruct (str_eqb_spec k k') as [->|Hk]; simpl.
    + now rewrite str_eqb_refl.
    + now rewrite (str_eqb_neq _ _ Hk).
Qed.

Lemma dict_get_set_other (k k' : pystr) (v : json) (d : dict) :
  k' <> k -> dict_get k' (dict_set k v d) = dict_get k' d.
Proof.
  intros Hne. induction d as [|[k0 v0] d IH]; simpl.
  - now rewrite (str_eqb_neq _ _ Hne).
  - destruct (str_eqb_spec k k0) as [->|Hk]; simpl.
    + now rewrite (str_eqb_neq _ _ Hne).
    + destruct (str_eqb k' k0); [reflexivity | exact IH].
Qed.

(** ** Decimal digits *)

Lemma decimal_value_range (c : char) (v : Z) :
  decimal_value c = Some v -> 0 <= v <= 9.
Proof.
  unfold decimal_value.
  destruct (find _ decimal_zero_points) as [z|] eqn:Hf; [|discriminate].
  intros [= <-]. apply find_some in Hf as [_ Hz]. lia.
Qed.

Lemma is_digit_value (c : char) :
  is_digit c = true -> exists v, decimal_value c = Some v /\ 0 <= v <= 9.
Proof.
  unfold is_digit. destruct (decimal_value c) as [v|] eqn:Hv; [|discriminate].
  intros _. exists v. split; [reflexivity | eauto using decimal_value_range].
Qed.

Lemma is_digit_ge_48 (c : char) : is_digit c = true -> 48 <= c.
Proof.
  unfold is_digit, decimal_value.
  destruct (find _ decimal_zero_points) as [z|] eqn:Hf; [|discriminate].
  intros _. apply find_some in Hf as [Hin Hz].
  assert (Hall : forallb (fun z => 48 <=? z) decimal_zero_points = true)
    by (vm_compute; reflexivity).
  rewrite forallb_forall in Hall. specialize (Hall z Hin). lia.
Qed.

(** No decimal digit is white space for [int()]. *)
Lemma digit_not_int_space (c : char) : is_digit c = true -> int_space c = false.
Proof.
  intros Hd. pose proof (is_digit_ge_48 c Hd) as H48.
  unfold int_space.
  replace (c <=? 13) with false by (symmetry; apply Z.leb_gt; lia).
  replace (c =? 32) with false by (symmetry; apply Z.eqb_neq; lia).
  rewrite andb_false_r. simpl.
  destruct (127 <=? c); [simpl | reflexivity].
  destruct (is_space c) eqn:Hs; [exfalso | reflexivity].
  unfold is_space in Hs. apply existsb_exists in Hs as [s [Hin Hcs]].
  apply Z.eqb_eq in Hcs. subst s.
  unfold is_digit, decimal_value in Hd.
  destruct (find _ decimal_zero_points) as [z|] eqn:Hf; [|discriminate].
  apply find_some in Hf as [Hz Hrange].
  assert (Hall :
    forallb (fun z => forallb (fun s => negb ((z <=? s) && (s <? z + 10)))
      [9; 10; 11; 12; 13; 28; 29; 30; 31; 32; 133; 160; 5760; 8192; 8193; 8194;
       8195; 8196; 8197; 8198; 8199; 8200; 8201; 8202; 8232; 8233; 8239; 8287;
       12288]) decimal_zero_points = true) by (vm_compute; reflexivity).
  rewrite forallb_forall in Hall. specialize (Hall z Hz).
  rewrite forallb_forall in Hall. specialize (Hall c Hin).
  rewrite Hrange in Hall. discriminate.
Qed.

Lemma digit_neq (c k : char) : is_digit k = false -> is_digit c = true -> (c =? k) = false.
Proof.
  intros Hk Hc. destruct (Z.eqb_spec c k) as [->|]; [congruence | reflexivity].
Qed.

Lemma take_while_all (p : char -> bool) (s : pystr) :
  Forall (fun c => p c = true) s -> take_while p s = s.
Proof. induction 1 as [|c s Hc _ IH]; simpl; [|rewrite Hc, IH]; reflexivity. Qed.

Lemma drop_while_all (p : char -> bool) (s : pystr) :
  Forall (fun c => p c = true) s -> drop_while p s = [].
Proof. induction 1 as [|c s Hc _ IH]; simpl; [|rewrite Hc]; auto. Qed.

Lemma filter_all (p : char -> bool) (s : pystr) :
  Forall (fun c => p c = true) s -> filter p s = s.
Proof. induction 1 as [|c s Hc _ IH]; simpl; [|rewrite Hc, IH]; reflexivity. Qed.

Lemma underscores_ok_digits (s : pystr) (prev : option bool) :
  digits s -> s <> [] -> underscores_ok prev s = true.
Proof.
  intros Hs. revert prev. induction Hs as [|c s Hc Hs IH]; intros prev Hne.
  - congruence.
  - simpl. rewrite (digit_neq c UNDERSCORE) by first [exact Hc | vm_compute; reflexivity].
    destruct s as [|c' s']; [reflexivity | apply IH; discriminate].
Qed.

(** [int()] of a short run of digits is its decimal value. *)
Lemma py_int_digits (s : pystr) :
  digits s -> s <> [] -> (length s <= int_max_str_digits)%nat ->
  py_int s = Ok (digits_value s).
Proof.
  intros Hs Hne Hlen. unfold py_int.
  destruct s as [|c s']; [congruence|].
  pose proof (Forall_inv Hs) as Hc. simpl in Hc.
  cbn [drop_while]. rewrite (digit_not_int_space c Hc).
  rewrite (digit_neq c 43), (digit_neq c 45) by first [exact Hc | vm_compute; reflexivity].
  assert (Hall : Forall (fun c => is_digit c || (c =? UNDERSCORE) = true) (c :: s')).
  { eapply Forall_impl; [|exact Hs]. simpl. intros a Ha. now rewrite Ha. }
  rewrite (take_while_all _ _ Hall), (drop_while_all _ _ Hall).
  rewrite (filter_all _ _ Hs).
  rewrite (underscores_ok_digits _ None Hs Hne).
  apply Nat.leb_le in Hlen. rewrite Hlen. reflexivity.
Qed.

Lemma digits_value_1 (a : char) (va : Z) :
  decimal_value a = Some va -> digits_value [a] = va.
Proof. intros H. unfold digits_value. simpl. rewrite H. lia. Qed.

Lemma digits_value_2 (a b : char) (va vb : Z) :
  decimal_value a = Some va -> decimal_value b = Some vb ->
  digits_value [a; b] = 10 * va + vb.
Proof. intros Ha Hb. unfold digits_value. simpl. rewrite Ha, Hb. lia. Qed.

(** A group of one or two digits is worth at most ninety-nine. *)
Lemma digits_value_short (g : pystr) :
  digits g -> (length g = 1 \/ length g = 2)%nat -> 0 <= digits_value g <= 99.
Proof.
  intros Hg Hlen.
  destruct g as [|a [|b [|c g]]]; simpl in Hlen; try lia.
  - apply Forall_inv in Hg. apply is_digit_value in Hg as [va [Ha Hr]].
    rewrite (digits_value_1 _ _ Ha). lia.
  - pose proof (Forall_inv Hg) as Ha. apply Forall_inv_tail, Forall_inv in Hg.
    apply is_digit_value in Ha as [va [Ha Hra]].
    apply is_digit_value in Hg as [vb [Hb Hrb]].
    rewrite (digits_value_2 _ _ _ _ Ha Hb). lia.
Qed.

(** ** Zero padding *)

Lemma fmt_0_2_small (n : Z) : 0 <= n <= 99 -> fmt_0 2 n = two_digits n.
Proof.
  intros Hn.
  assert (Hall : forallb (fun k => str_eqb (fmt_0 2 (Z.of_nat k)) (two_digits (Z.of_nat k)))
                   (seq 0 100) = true) by (vm_compute; reflexivity).
  rewrite forallb_forall in Hall.
  specialize (Hall (Z.to_nat n)). rewrite Z2Nat.id in Hall by lia.
  destruct (str_eqb_spec (fmt_0 2 n) (two_digits n)) as [E|_]; [exact E|].
  assert (false = true); [|discriminate].
  apply Hall. apply in_seq. lia.
Qed.

(** ** The time pattern *)

Lemma minutes_here_inv (t m : pystr) :
  minutes_here t = Some m ->
  exists d e post, t = COLON :: d :: e :: post /\ m = [d; e]
                   /\ is_digit d = true /\ is_digit e = true.
Proof.
  unfold minutes_here. destruct t as [|c [|d [|e post]]]; try discriminate.
  destruct (Z.eqb_spec c COLON) as [->|]; [|discriminate].
  destruct (is_digit d) eqn:Hd; [|discriminate].
  destruct (is_digit e) eqn:He; [|discriminate].
  simpl. intros [= <-]. now exists d, e, post.
Qed.

Lemma minutes_here_intro (d e : char) (post : pystr) :
  is_digit d = true -> is_digit e = true ->
  minutes_here (COLON :: d :: e :: post) = Some [d; e].
Proof. intros Hd He. unfold minutes_here. now rewrite Z.eqb_refl, Hd, He. Qed.

Lemma colon_not_digit : is_digit COLON = false.
Proof. vm_compute. reflexivity. Qed.

Lemma time_at_0_intro (h m post : pystr) :
  (length h = 1 \/ length h = 2)%nat -> length m = 2%nat -> digits h -> digits m ->
  time_at (h ++ COLON :: m ++ post) 0 h m.
Proof.
  intros Hh Hm Dh Dm. repeat split; try assumption. now exists [], post.
Qed.

Lemma match_here_sound (s h m : pystr) :
  match_here s = Some (h, m) -> time_at s 0 h m.
Proof.
  unfold match_here. destruct s as [|a t]; [discriminate|].
  destruct (is_digit a) eqn:Ha; [|discriminate].
  assert (Hone : match minutes_here t with
                 | Some m0 => Some ([a], m0)
                 | None => None
                 end = Some (h, m) -> time_at (a :: t) 0 h m).
  { destruct (minutes_here t) as [m0|] eqn:Hm; [|discriminate].
    intros [= <- <-]. apply minutes_here_inv in Hm as (d & e & post & -> & -> & Hd & He).
    apply (time_at_0_intro [a] [d; e] post); auto; repeat constructor; assumption. }
  destruct t as [|b t']; [exact Hone|].
  destruct (is_digit b) eqn:Hb; [|exact Hone].
  destruct (minutes_here t') as [m0|] eqn:Hm; [|exact Hone].
  intros [= <- <-]. apply minutes_here_inv in Hm as (d & e & post & -> & -> & Hd & He).
  apply (time_at_0_intro [a; b] [d; e] post); auto; repeat constructor; assumption.
Qed.

Lemma match_here_complete (s h m : pystr) :
  time_at s 0 h m -> match_here s = Some (h, m).
Proof.
  intros (Hh & Hm & Dh & Dm & pre & post & -> & Hpre).
  destruct pre; [|discriminate]. simpl.
  destruct m as [|d [|e [|x m']]]; try discriminate.
  pose proof (Forall_inv Dm) as Hd.
  pose proof (Forall_inv (Forall_inv_tail Dm)) as He. simpl in Hd, He.
  destruct h as [|a [|b [|c h']]]; simpl in Hh; try lia.
  - pose proof (Forall_inv Dh) as Ha. simpl in Ha.
    cbn [app match_here]. rewrite Ha, (minutes_here_intro d e post Hd He).
    now rewrite colon_not_digit.
  - pose proof (Forall_inv Dh) as Ha.
    pose proof (Forall_inv (Forall_inv_tail Dh)) as Hb. simpl in Ha, Hb.
    cbn [app match_here]. rewrite Ha, Hb.
    now rewrite (minutes_here_intro d e post Hd He).
Qed.

Lemma time_at_nil (i : nat) (h m : pystr) : ~ time_at [] i h m.
Proof.
  intros (_ & _ & _ & _ & pre & post & E & _).
  symmetry in E. apply app_eq_nil in E as [_ E].
  apply app_eq_nil in E as [_ E]. discriminate.
Qed.

Lemma time_at_cons (c : char) (s : pystr) (i : nat) (h m : pystr) :
  time_at (c :: s) (S i) h m <-> time_at s i h m.
Proof.
  split; intros (Hh & Hm & Dh & Dm & pre & post & E & Hpre);
    repeat split; try assumption.
  - destruct pre as [|c' pre']; [discriminate|].
    injection E as _ E. injection Hpre as Hpre. now exists pre', post.
  - exists (c :: pre), post. simpl. now rewrite E, Hpre.
Qed.

Lemma re_search_time_sound (s h m : pystr) :
  re_search_time s = Some (h, m) -> first_time s h m.
Proof.
  induction s as [|c t IH]; [discriminate|].
  cbn [re_search_time]. destruct (match_here (c :: t)) as [g|] eqn:Hg.
  - intros [= ->]. exists 0%nat. split; [now apply match_here_sound | lia].
  - intros Ht. destruct (IH Ht) as (i & Hi & Hmin).
    exists (S i). split; [now apply (proj2 (time_at_cons c t i h m))|].
    intros [|j] h' m' Hj.
    + apply match_here_complete in Hj. congruence.
    + apply (proj1 (time_at_cons c t j h' m')) in Hj.
      specialize (Hmin _ _ _ Hj). lia.
Qed.

Lemma re_search_time_complete (s : pystr) (i : nat) (h m : pystr) :
  time_at s i h m -> exists g, re_search_time s = Some g.
Proof.
  revert i. induction s as [|c t IH]; intros i Hi.
  - now apply time_at_nil in Hi.
  - cbn [re_search_time]. destruct (match_here (c :: t)) as [g|] eqn:Hg; [eauto|].
    destruct i as [|i'].
    + apply match_here_complete in Hi. congruence.
    + apply (proj1 (time_at_cons c t i' h m)) in Hi. eauto.
Qed.

Lemma format_time_of_first (s h m : pystr) :
  re_search_time s = Some (h, m) -> format_time_to_hhmm s = Ok (hhmm_of h m).
Proof.
  intros Hs. unfold format_time_to_hhmm. rewrite Hs.
  destruct (re_search_time_sound _ _ _ Hs) as (i & (Hh & Hm & Dh & Dm & _) & _).
  assert (Hne : forall g : pystr, (length g = 1 \/ length g = 2)%nat -> g <> [])
    by (intros [|] ?; simpl in *; [lia | discriminate]).
  assert (Hle : forall g : pystr, (length g = 1 \/ length g = 2)%nat ->
                                  (length g <= int_max_str_digits)%nat)
    by (unfold int_max_str_digits; intros; lia).
  rewrite (py_int_digits h), (py_int_digits m); auto.
  cbn [rbind]. unfold hhmm_of.
  rewrite !fmt_0_2_small by (apply digits_value_short; auto).
  reflexivity.
Qed.

Lemma fullmatch_time_at (s : pystr) :
  re_fullmatch_hhmm s = true -> exists h m, time_at s 0 h m.
Proof.
  unfold re_fullmatch_hhmm.
  destruct s as [|a [|b [|c [|d [|e [|x s']]]]]]; try discriminate.
  destruct (is_digit a) eqn:Ha; [|discriminate].
  destruct (is_digit b) eqn:Hb; [|discriminate].
  destruct (Z.eqb_spec c COLON) as [->|]; [|discriminate].
  destruct (is_digit d) eqn:Hd; [|discriminate].
  destruct (is_digit e) eqn:He; [|discriminate].
  intros _. exists [a; b], [d; e].
  apply (time_at_0_intro [a; b] [d; e] []); auto; repeat constructor; assumption.
Qed.

Lemma two_digits_shape (h m : Z) :
  0 <= h <= 99 -> 0 <= m <= 99 ->
  hhmm_shape (two_digits h ++ [COLON] ++ two_digits m) = true.
Proof.
  intros Hh Hm. unfold two_digits. cbn [app hhmm_shape].
  unfold ascii_digit, ZERO, COLON.
  repeat (apply andb_true_intro; split);
    first [apply Z.leb_le; lia_div | apply Z.eqb_eq; reflexivity].
Qed.

(** What [_require_time_field] hands back is always of the shape [DD:DD]. *)
Lemma require_time_field_shape (payload : dict) (key v : pystr) :
  _require_time_field payload key = Ok v -> hhmm_shape v = true.
Proof.
  unfold _require_time_field.
  destruct (dict_get key payload) as [[| | | | raw | |]|]; try discriminate.
  destruct (re_search_time raw) as [[h m]|] eqn:Hs.
  - rewrite (format_time_of_first _ _ _ Hs). cbn [rbind].
    destruct (re_fullmatch_hhmm _); [|discriminate]. intros [= <-].
    destruct (re_search_time_sound _ _ _ Hs) as (i & (Hh & Hm & Dh & Dm & _) & _).
    apply two_digits_shape; apply digits_value_short; auto.
  - unfold format_time_to_hhmm. rewrite Hs. cbn [rbind].
    destruct (re_fullmatch_hhmm raw) eqn:Hf; [|discriminate].
    apply fullmatch_time_at in Hf as (h & m & Ht).
    apply re_search_time_complete in Ht as [g Hg]. congruence.
Qed.

(** C3: a string holding an H:MM or HH:MM substring normalizes to the
    zero-padded HH:MM of the first one, so "5:07 (+03)" gives "05:07"; a
    time field that is missing, is not a string or holds no such substring
    makes [_require_time_field] raise a [PrayerApiError] whose message ends
    in the field's name. *)
Theorem time_normalization (s : pystr) (payload : dict) (key : pystr) :
  ((exists i h m, time_at s i h m) ->
   exists h0 m0, first_time s h0 m0 /\ format_time_to_hhmm s = Ok (hhmm_of h0 m0))
  /\ format_time_to_hhmm (lit "5:07 (+03)") = Ok (lit "05:07")
  /\ (dict_get key payload = None
      \/ (exists v, dict_get key payload = Some v /\ forall raw, v <> JStr raw) ->
      _require_time_field payload key
      = Raise (PrayerApiError (lit "Missing time field: " ++ key)))
  /\ (forall raw,
        dict_get key payload = Some (JStr raw) ->
        (forall i h m, ~ time_at raw i h m) ->
        _require_time_field payload key
        = Raise (PrayerApiError (lit "Invalid time format for " ++ key))).
Proof.
  split; [|split; [|split]].
  - intros (i & h & m & Ht).
    destruct (re_search_time_complete _ _ _ _ Ht) as [[h0 m0] Hs].
    exists h0, m0. split; [now apply re_search_time_sound | now apply format_time_of_first].
  - vm_compute. reflexivity.
  - unfold _require_time_field. intros [-> | (v & -> & Hv)]; [reflexivity|].
    destruct v; try reflexivity. now elim (Hv s0).
  - intros raw Hraw Hnone. unfold _require_time_field. rewrite Hraw.
    destruct (re_search_time raw) as [[h m]|] eqn:Hs.
    + apply re_search_time_sound in Hs as (i & Hi & _). now elim (Hnone i h m).
    + unfold format_time_to_hhmm. rewrite Hs. cbn [rbind].
      destruct (re_fullmatch_hhmm raw) eqn:Hf; [|reflexivity].
      apply fullmatch_time_at in Hf as (h & m & Ht). now elim (Hnone 0%nat h m).
Qed.

Lemma time_normalization_witness :
  (exists h0 m0, first_time (lit "5:07 (+03)") h0 m0
                 /\ format_time_to_hhmm (lit "5:07 (+03)") = Ok (hhmm_of h0 m0))
  /\ _require_time_field [] (lit "Fajr")
     = Raise (PrayerApiError (lit "Missing time field: Fajr"))
  /\ _require_time_field [(lit "Fajr", JStr (lit "soon"))] (lit "Fajr")
     = Raise (PrayerApiError (lit "Invalid time format for Fajr")).
Proof.
  destruct (time_normalization (lit "5:07 (+03)") [] (lit "Fajr")) as (H1 & _ & H3 & _).
  destruct (time_normalization [] [(lit "Fajr", JStr (lit "soon"))] (lit "Fajr"))
    as (_ & _ & _ & H4).
  split; [|split].
  - apply H1. exists 0%nat, (lit "5"), (lit "07").
    apply (time_at_0_intro (lit "5") (lit "07") (lit " (+03)"));
      [left; reflexivity | reflexivity | |];
      repeat constructor.
  - apply H3. left. reflexivity.
  - apply (H4 (lit "soon")); [reflexivity|].
    intros i h m Ht. apply re_search_time_complete in Ht as [g Hg].
    vm_compute in Hg. discriminate.
Defined.

(** ** Computations on the world *)

Lemma mbind_inv {A B} (m : M A) (k : A -> M B) (w w' : World) (r : result B) :
  mbind m k w = (r, w') ->
  (exists a w1, m w = (Ok a, w1) /\ k a w1 = (r, w'))
  \/ (exists e, m w = (Raise e, w') /\ r = Raise e).
Proof.
  unfold mbind. destruct (m w) as [[a|e] w1].
  - intros H. left. now exists a, w1.
  - intros [= <- <-]. right. now exists e.
Qed.

Lemma mbind_Ok_inv {A B} (m : M A) (k : A -> M B) (w w' : World) (b : B) :
  mbind m k w = (Ok b, w') ->
  exists a w1, m w = (Ok a, w1) /\ k a w1 = (Ok b, w').
Proof.
  intros H. apply mbind_inv in H as [H | (e & _ & [=])]. exact H.
Qed.

Lemma mlift_Ok_inv {A} (r : result A) (w w' : World) (a : A) :
  mlift r w = (Ok a, w') -> r = Ok a /\ w' = w.
Proof. unfold mlift. now intros [= -> ->]. Qed.

(** ** The shape of fetched times *)

Lemma prayer_times_of_shape (payload : dict) (k1 k2 k3 k4 k5 k6 : pystr)
    (t : PrayerTimes) :
  prayer_times_of payload k1 k2 k3 k4 k5 k6 = Ok t ->
  all_fields hhmm_shape t = true.
Proof.
  unfold prayer_times_of, rbind.
  destruct (_require_time_field payload k1) as [v1|] eqn:H1; [|discriminate].
  destruct (_require_time_field payload k2) as [v2|] eqn:H2; [|discriminate].
  destruct (_require_time_field payload k3) as [v3|] eqn:H3; [|discriminate].
  destruct (_require_time_field payload k4) as [v4|] eqn:H4; [|discriminate].
  destruct (_require_time_field payload k5) as [v5|] eqn:H5; [|discriminate].
  destruct (_require_time_field payload k6) as [v6|] eqn:H6; [|discriminate].
  intros [= <-]. unfold all_fields. cbn [forallb PRAYER_NAMES pt_get
    pt_Fajr pt_Sunrise pt_Dhuhr pt_Asr pt_Maghrib pt_Isha].
  rewrite (require_time_field_shape _ _ _ H1), (require_time_field_shape _ _ _ H2),
    (require_time_field_shape _ _ _ H3), (require_time_field_shape _ _ _ H4),
    (require_time_field_shape _ _ _ H5), (require_time_field_shape _ _ _ H6).
  reflexivity.
Qed.

(** C9, as the code has it: every [PrayerTimes] either adapter builds has
    its six fields of the shape DD:DD, two ASCII digits, a colon, two ASCII
    digits; hours and minutes are not checked against 23 and 59. *)
Theorem adapters_build_shaped_times {R : Runtime}
    (w w' : World) (ilce_id : pystr) (location : Location)
    (times : PrayerTimes) (time_zone : json) :
  (_fetch_prayer_times_from_diyanet ilce_id w = (Ok times, w') ->
   all_fields hhmm_shape times = true)
  /\ (_fetch_prayer_times_from_aladhan location w = (Ok (times, time_zone), w') ->
      all_fields hhmm_shape times = true).
Proof.
  split.
  - unfold _fetch_prayer_times_from_diyanet. intros H.
    apply mbind_Ok_inv in H as (data & w1 & _ & H).
    apply mbind_Ok_inv in H as (today & w2 & _ & H).
    apply mbind_Ok_inv in H as (found & w3 & _ & H).
    destruct (dict_falsy found); [discriminate|].
    apply mlift_Ok_inv in H as [H _].
    eapply prayer_times_of_shape; exact H.
  - unfold _fetch_prayer_times_from_aladhan. intros H.
    apply mbind_Ok_inv in H as (timestamp & w0 & _ & H).
    apply mbind_Ok_inv in H as (url & w0' & _ & H).
    apply mbind_Ok_inv in H as ([data timings] & w1 & _ & H).
    apply mbind_Ok_inv in H as (t & w2 & Ht & H).
    apply mbind_Ok_inv in H as (meta & w3 & _ & H).
    apply mbind_Ok_inv in H as (tz & w4 & _ & H).
    unfold mret in H. injection H as <- _ _.
    apply mlift_Ok_inv in Ht as [Ht _].
    eapply prayer_times_of_shape; exact Ht.
Qed.

Lemma adapters_build_shaped_times_witness :
  all_fields hhmm_shape (times_all (lit "05:07")) = true.
Proof.
  apply (adapters_build_shaped_times (R := ascii_runtime)
           (answering_world (aladhan_answer (lit "5:07 (+03)")))
           (with_http_count (answering_world (aladhan_answer (lit "5:07 (+03)"))) 1)
           [] sample_location_tr (times_all (lit "05:07")) JNull).
  vm_compute. reflexivity.
Defined.

(** C9 as stated fails: AlAdhan timings reading "99:99" come back as a
    [PrayerTimes] whose fields are not 24-hour times. *)
Lemma adapters_accept_out_of_range_times :
  fst (_fetch_prayer_times_from_aladhan (R := ascii_runtime) sample_location_tr
         (answering_world (aladhan_answer (lit "99:99"))))
  = Ok (times_all (lit "99:99"), JNull)
  /\ all_fields canonical_hhmm (times_all (lit "99:99")) = false.
Proof. split; vm_compute; reflexivity. Qed.

(** ** The countdown *)

Lemma abs_digits_long (n : Z) : 10 <= n -> (2 <= length (abs_digits n))%nat.
Proof.
  intros Hn. unfold abs_digits.
  assert (Hge : (10 <= Z.abs_N n)%N) by lia.
  rewrite <- (DecimalN.Unsigned.of_to (Z.abs_N n)) in Hge.
  destruct (N.to_uint (Z.abs_N n)) as [|u|u|u|u|u|u|u|u|u|u];
    try (destruct u; [vm_compute in Hge; now elim Hge | ..]; simpl; lia).
  vm_compute in Hge. now elim Hge.
Qed.

Lemma fmt_0_2_hours (h : Z) : 0 <= h -> fmt_0 2 h = hours_field h.
Proof.
  intros Hh. unfold hours_field. destruct (Z.ltb_spec h 100).
  - apply fmt_0_2_small. lia.
  - unfold fmt_0, int_str. replace (h <? 0) with false by (symmetry; apply Z.ltb_ge; lia).
    pose proof (abs_digits_long h ltac:(lia)) as Hlen. cbn [length app].
    replace (2 - 0 - length (abs_digits h))%nat with 0%nat by lia. reflexivity.
Qed.

(** C8: a countdown renders as zero-padded HH:MM:SS, hours, minutes and
    seconds being the floor quotients of the whole seconds; zero and
    negative inputs render as "00:00:00" and 3,661,000 ms as "01:01:01". *)
Theorem format_countdown_spec (ms : Z) :
  (ms <= 0 -> format_countdown ms = lit "00:00:00")
  /\ (0 < ms ->
      format_countdown ms
      = hours_field (ms / 1000 / 3600) ++ [COLON]
          ++ two_digits (ms / 1000 mod 3600 / 60) ++ [COLON]
          ++ two_digits (ms / 1000 mod 60))
  /\ format_countdown 3661000 = lit "01:01:01".
Proof.
  split; [|split].
  - intros H. unfold format_countdown.
    now replace (ms <=? 0) with true by (symmetry; apply Z.leb_le; lia).
  - intros H. unfold format_countdown.
    replace (ms <=? 0) with false by (symmetry; apply Z.leb_gt; lia).
    cbv zeta.
    rewrite (fmt_0_2_hours (ms / 1000 / 3600)) by lia_div.
    rewrite (fmt_0_2_small (ms / 1000 mod 3600 / 60)) by lia_div.
    rewrite (fmt_0_2_small (ms / 1000 mod 60)) by lia_div.
    reflexivity.
  - vm_compute. reflexivity.
Qed.

Lemma format_countdown_spec_witness :
  format_countdown (-5) = lit "00:00:00"
  /\ format_countdown 45296789 = lit "12:34:56".
Proof.
  destruct (format_countdown_spec (-5)) as (H1 & _ & _).
  destruct (format_countdown_spec 45296789) as (_ & H2 & _).
  split; [apply H1; lia | rewrite H2 by lia; vm_compute; reflexivity].
Defined.

(** ** Source resolution *)

(** C2, as the code has it: a country code that upper-cases to "TR" keeps
    the requested source; a location is forced to "mwl" when its country
    code does not match and its country name, stripped and lower-cased, is
    neither of the two spellings the code lists; and a country name that is
    one of the two keeps the requested source whatever the country code. *)
Theorem resolve_prayer_source_spec {R : Runtime}
    (location : Location) (source : PrayerSource) :
  (py_upper (countryCode location) = TURKEY_COUNTRY_CODE ->
   resolve_prayer_source location source = source)
  /\ (py_upper (countryCode location) <> TURKEY_COUNTRY_CODE ->
      py_lower (py_strip (country location)) <> lit "t" ++ [195; 188] ++ lit "rkiye" ->
      py_lower (py_strip (country location)) <> lit "turkiye" ->
      resolve_prayer_source location source = mwl)
  /\ (py_lower (py_strip (country location)) = lit "t" ++ [195; 188] ++ lit "rkiye"
      \/ py_lower (py_strip (country location)) = lit "turkiye" ->
      resolve_prayer_source location source = source).
Proof.
  unfold resolve_prayer_source, is_turkiye_location. split; [|split].
  - intros ->. now rewrite str_eqb_refl.
  - intros Hcc H1 H2.
    now rewrite (str_eqb_neq _ _ Hcc), (str_eqb_neq _ _ H1), (str_eqb_neq _ _ H2).
  - intros Hname.
    destruct (str_eqb (py_upper (countryCode location)) TURKEY_COUNTRY_CODE);
      [reflexivity|].
    destruct Hname as [-> | ->]; rewrite str_eqb_refl;
      [reflexivity | now rewrite orb_true_r].
Qed.

Lemma resolve_prayer_source_spec_witness :
  resolve_prayer_source (R := ascii_runtime) sample_location_tr diyanet = diyanet
  /\ resolve_prayer_source (R := ascii_runtime)
       {| city := lit "New York"; country := lit "United States";
          countryCode := lit "US"; lat := 40.5; lon := (-74)%float;
          addressLabel := None; diyanetIlceId := None |} diyanet = mwl
  /\ resolve_prayer_source (R := ascii_runtime)
       {| city := lit "Ankara"; country := lit "TURKIYE";
          countryCode := lit "DE"; lat := 40; lon := 33;
          addressLabel := None; diyanetIlceId := None |} diyanet = diyanet.
Proof.
  split; [|split].
  - apply (proj1 (resolve_prayer_source_spec (R := ascii_runtime) _ _)).
    vm_compute. reflexivity.
  - apply (proj1 (proj2 (resolve_prayer_source_spec (R := ascii_runtime) _ _)));
      vm_compute; discriminate.
  - apply (proj2 (proj2 (resolve_prayer_source_spec (R := ascii_runtime) _ _))).
    right. vm_compute. reflexivity.
Defined.

(** C2 as stated fails: the country code "DE" does not match "TR", yet the
    country name " Turkiye " keeps the requested source. *)
Lemma country_name_keeps_requested_source :
  py_upper (Runtime := ascii_runtime) (countryCode location_de_turkiye)
    <> TURKEY_COUNTRY_CODE
  /\ resolve_prayer_source (R := ascii_runtime) location_de_turkiye diyanet <> mwl.
Proof. split; vm_compute; discriminate. Qed.

(** ** The cache *)

Lemma mread_inv {A} (f : World -> result A) (w w' : World) (r : result A) :
  mread f w = (r, w') -> f w = r /\ w' = w.
Proof. unfold mread. now intros [= -> ->]. Qed.

(** What a successful [set_cached_bundle] did. *)
Lemma set_cached_bundle_inv
    (w w' : World) (location : Location) (source : PrayerSource)
    (times : PrayerTimes) (tomorrow_fajr : pystr) (time_zone : json) :
  set_cached_bundle location source times tomorrow_fajr time_zone w = (Ok tt, w') ->
  exists data date,
    _safe_read_cache w = Ok data
    /\ _date_string_for_zone w time_zone source = Ok date
    /\ w' = with_cache_file w
              (Content (Ok (JDict
                 (dict_set (_cache_key location source)
                    (cache_record times tomorrow_fajr time_zone date
                       (datetime_isoformat (local_now w)))
                    data)))).
Proof.
  unfold set_cached_bundle. intros H.
  apply mbind_Ok_inv in H as (data & w1 & Hd & H).
  apply mread_inv in Hd as [Hd ->].
  apply mbind_Ok_inv in H as (now & w1 & Hn & H).
  apply mread_inv in Hn as [[= <-] ->].
  apply mbind_Ok_inv in H as (date & w1 & Hdate & H).
  apply mread_inv in Hdate as [Hdate ->].
  exists data, date. repeat split; try assumption.
  unfold _safe_write_cache in H.
  destruct (negb (cache_writable w)); [discriminate|].
  destruct (negb (json_forall _ int_printable _)); [discriminate|].
  destruct (negb (json_forall utf8_encodable _ _)); [discriminate|].
  now injection H as <-.
Qed.

Lemma parse_cache_record {R : Runtime}
    (times : PrayerTimes) (tomorrow_fajr : pystr) (time_zone : json)
    (date fetched_at : pystr) :
  _parse_cached_entry (cache_record times tomorrow_fajr time_zone date fetched_at)
  = Some {| cb_times := times; cb_tomorrow_fajr := tomorrow_fajr;
            cb_time_zone := time_zone; cb_date := date;
            cb_fetched_at := fetched_at |}.
Proof. destruct times. reflexivity. Qed.

Lemma safe_read_written (w : World) (payload : dict) :
  cache_file w = Content (Ok (JDict payload)) -> _safe_read_cache w = Ok payload.
Proof. unfold _safe_read_cache. now intros ->. Qed.

(** C4: a bundle written with [set_cached_bundle] and read back with
    [get_fresh_cached_bundle] under the same location and source, while
    the date of the freshness rule is still the one stamped, comes back
    with the same six times, tomorrow's Fajr and time zone. *)
Theorem cache_round_trip {R : Runtime}
    (w w' w2 : World) (location : Location) (source : PrayerSource)
    (times : PrayerTimes) (tomorrow_fajr : pystr) (time_zone : json) :
  set_cached_bundle location source times tomorrow_fajr time_zone w = (Ok tt, w') ->
  cache_file w2 = cache_file w' ->
  _date_string_for_zone w2 time_zone source
  = _date_string_for_zone w time_zone source ->
  exists bundle,
    get_fresh_cached_bundle w2 location source = Ok (Some bundle)
    /\ cb_times bundle = times
    /\ cb_tomorrow_fajr bundle = tomorrow_fajr
    /\ cb_time_zone bundle = time_zone.
Proof.
  intros Hset Hfile Hdate.
  apply set_cached_bundle_inv in Hset as (data & date & _ & Hd & ->).
  cbn [with_cache_file cache_file] in Hfile.
  eexists. split.
  - unfold get_fresh_cached_bundle.
    rewrite (safe_read_written _ _ Hfile). cbn [rbind].
    unfold dict_get_or_None. rewrite dict_get_set_same, parse_cache_record.
    cbn [cb_time_zone cb_date]. rewrite Hdate, Hd. cbn [rbind].
    rewrite str_eqb_refl. reflexivity.
  - repeat split.
Qed.

Lemma cache_round_trip_witness :
  exists bundle,
    get_fresh_cached_bundle (R := ascii_runtime)
      (sample_world (sample_instant 23 59 59)
         (cache_file (snd (set_cached_bundle sample_location_tr diyanet sample_times
                             (lit "06:21") (JStr DIYANET_TIME_ZONE)
                             (sample_world (sample_instant 20 8 0) NoFile)))))
      sample_location_tr diyanet = Ok (Some bundle)
    /\ cb_times bundle = sample_times
    /\ cb_tomorrow_fajr bundle = lit "06:21"
    /\ cb_time_zone bundle = JStr DIYANET_TIME_ZONE.
Proof.
  apply (cache_round_trip (R := ascii_runtime)
           (sample_world (sample_instant 20 8 0) NoFile)
           (snd (set_cached_bundle sample_location_tr diyanet sample_times
                   (lit "06:21") (JStr DIYANET_TIME_ZONE)
                   (sample_world (sample_instant 20 8 0) NoFile))));
    vm_compute; reflexivity.
Defined.

(** The date of the freshness rule, as computed, is the one the
    specification describes; the call raises exactly when Europe/Istanbul
    is needed and the time-zone database does not load it. *)
Lemma date_string_for_zone_spec
    (w : World) (time_zone : json) (source : PrayerSource) :
  _date_string_for_zone w time_zone source
  = match spec_today w time_zone source with
    | Some today => Ok today
    | None => Raise (zone_failure_exn (zone_error w DIYANET_TIME_ZONE))
    end.
Proof.
  assert (E : exists c key, DIYANET_TIME_ZONE = c :: key) by (vm_compute; eauto).
  destruct E as (c0 & key0 & E).
  assert (Hother :
    (if source_eqb source diyanet
     then rbind (datetime_now_zone w (JStr DIYANET_TIME_ZONE))
            (fun now => Ok (date_isoformat now))
     else Ok (date_isoformat (local_now w)))
    = match match source with
            | diyanet => zone_today w (JStr DIYANET_TIME_ZONE)
            | mwl => Some (date_isoformat (local_now w))
            end with
      | Some today => Ok today
      | None => Raise (zone_failure_exn (zone_error w DIYANET_TIME_ZONE))
      end).
  { destruct source; cbn [source_eqb]; [|reflexivity].
    unfold datetime_now_zone, zone_today. rewrite E.
    destruct (zone_now w (c0 :: key0)); reflexivity. }
  unfold _date_string_for_zone, spec_today.
  destruct time_zone as [|b|n|x|[|c key]|l|d]; cbn [zone_today];
    try (destruct (py_truthy _); cbn [datetime_now_zone except_Exception rbind];
         exact Hother).
  cbn [py_truthy datetime_now_zone].
  destruct (zone_now w (c :: key)) as [now|]; cbn [rbind except_Exception option_map];
    [reflexivity | exact Hother].
Qed.

(** C10, as the code has it: on a store that holds a JSON object, a
    [set_cached_bundle] that returns leaves the entry of every other key as
    it was; one that raises [UnicodeEncodeError] has emptied the file,
    which then reads as the empty map. *)
Theorem set_cached_bundle_frame
    (w w' : World) (data : dict) (location : Location) (source : PrayerSource)
    (times : PrayerTimes) (tomorrow_fajr : pystr) (time_zone : json)
    (outcome : result unit) :
  cache_file w = Content (Ok (JDict data)) ->
  set_cached_bundle location source times tomorrow_fajr time_zone w = (outcome, w') ->
  (outcome = Ok tt ->
   exists data',
     cache_file w' = Content (Ok (JDict data'))
     /\ forall key, key <> _cache_key location source ->
                    dict_get key data' = dict_get key data)
  /\ (outcome = Raise UnicodeEncodeError ->
      store_tolerated (cache_file w') /\ store_map (cache_file w') = []).
Proof.
  intros Hfile Hset. split.
  - intros ->.
    apply set_cached_bundle_inv in Hset as (data0 & date & Hread & _ & ->).
    rewrite (safe_read_written _ _ Hfile) in Hread. injection Hread as <-.
    eexists. split; [reflexivity|].
    intros key Hkey. now apply dict_get_set_other.
  - intros ->. unfold set_cached_bundle in Hset.
    apply mbind_inv in Hset as [(d & w1 & Hd & H) | (e' & Hd & _)];
      [|apply mread_inv in Hd as [Hd _];
        rewrite (safe_read_written _ _ Hfile) in Hd; discriminate].
    apply mread_inv in Hd as [_ ->].
    apply mbind_inv in H as [(now & w1 & Hn & H) | (e' & Hn & _)];
      [|apply mread_inv in Hn as [[=] _]].
    apply mread_inv in Hn as [_ ->].
    apply mbind_inv in H as [(date & w1 & Hdate & H) | (e' & Hdate & [= <-])].
    + apply mread_inv in Hdate as [_ ->]. unfold _safe_write_cache in H.
      destruct (negb (cache_writable w)); [discriminate|].
      destruct (negb (json_forall _ int_printable _)); [discriminate|].
      destruct (negb (json_forall utf8_encodable _ _)); [|discriminate].
      injection H as <-. cbn [with_cache_file cache_file store_tolerated store_map].
      split; [now right | reflexivity].
    + apply mread_inv in Hdate as [Hdate _].
      rewrite date_string_for_zone_spec in Hdate.
      destruct (spec_today w time_zone source); [discriminate|].
      destruct (zone_error w DIYANET_TIME_ZONE); discriminate.
Qed.

Lemma set_cached_bundle_frame_witness :
  exists data',
    cache_file (snd (set_cached_bundle sample_location_tr diyanet sample_times
                       (lit "06:21") JNull
                       (sample_world (sample_instant 20 8 0)
                          (Content (Ok (JDict [(lit "other", JInt 1)]))))))
    = Content (Ok (JDict data'))
    /\ forall key, key <> _cache_key sample_location_tr diyanet ->
                   dict_get key data' = dict_get key [(lit "other", JInt 1)].
Proof.
  refine (proj1 (set_cached_bundle_frame
                   (sample_world (sample_instant 20 8 0)
                      (Content (Ok (JDict [(lit "other", JInt 1)]))))
                   _ _ sample_location_tr diyanet sample_times (lit "06:21") JNull
                   (Ok tt) _ _) _).
  - reflexivity.
  - vm_compute. reflexivity.
  - reflexivity.
Defined.

(** C10 as stated fails: a write whose time zone holds a lone surrogate
    raises [UnicodeEncodeError] after the file has been opened for writing,
    and the entry another key had is gone. *)
Lemma unencodable_write_loses_other_entries :
  get_stale_cached_bundle (R := ascii_runtime)
    (sample_world (sample_instant 20 8 0) (sample_store stale_record))
    sample_location_tr diyanet
  = Ok (Some {| cb_times := sample_times; cb_tomorrow_fajr := lit "06:21";
                cb_time_zone := JStr DIYANET_TIME_ZONE;
                cb_date := lit "2024-02-28";
                cb_fetched_at := lit "2024-02-28T20:08:00+03:00" |})
  /\ _cache_key sample_location_us mwl <> _cache_key sample_location_tr diyanet
  /\ fst (set_cached_bundle sample_location_us mwl sample_times (lit "06:21")
            surrogate_zone
            (sample_world (sample_instant 20 8 0) (sample_store stale_record)))
     = Raise UnicodeEncodeError
  /\ get_stale_cached_bundle (R := ascii_runtime)
       (snd (set_cached_bundle sample_location_us mwl sample_times (lit "06:21")
               surrogate_zone
               (sample_world (sample_instant 20 8 0) (sample_store stale_record))))
       sample_location_tr diyanet
     = Ok None.
Proof.
  split; [|split; [|split]]; vm_compute; first [reflexivity | discriminate].
Qed.

(** C5: an entry that parses is returned by [get_fresh_cached_bundle]
    exactly when its stored date is today's, today being taken in the
    entry's recorded zone when it is a known one, else in Europe/Istanbul
    for the regional source, else as the local date; otherwise the lookup
    gives nothing. *)
Theorem fresh_iff_date_is_today {R : Runtime}
    (w : World) (location : Location) (source : PrayerSource)
    (data : dict) (entry : CachedPrayerBundle) (today : pystr) :
  _safe_read_cache w = Ok data ->
  _parse_cached_entry (dict_get_or_None (_cache_key location source) data)
  = Some entry ->
  spec_today w (cb_time_zone entry) source = Some today ->
  (cb_date entry = today ->
   get_fresh_cached_bundle w location source = Ok (Some entry))
  /\ (cb_date entry <> today ->
      get_fresh_cached_bundle w location source = Ok None).
Proof.
  intros Hread Hparse Htoday. unfold get_fresh_cached_bundle.
  rewrite Hread. cbn [rbind]. rewrite Hparse.
  rewrite date_string_for_zone_spec, Htoday. cbn [rbind].
  split; intros H.
  - rewrite H, str_eqb_refl. reflexivity.
  - now rewrite (str_eqb_neq _ _ H).
Qed.

Lemma fresh_iff_date_is_today_witness :
  get_fresh_cached_bundle (R := ascii_runtime)
    (sample_world (sample_instant 20 8 0)
       (Content (Ok (JDict
          [(_cache_key sample_location_tr diyanet,
            cache_record sample_times (lit "06:21") JNull (lit "2024-02-28")
              (lit "2024-02-28T20:08:00+03:00"))]))))
    sample_location_tr diyanet = Ok None.
Proof.
  eapply (fresh_iff_date_is_today (R := ascii_runtime)).
  - reflexivity.
  - vm_compute. reflexivity.
  - vm_compute. reflexivity.
  - vm_compute. discriminate.
Defined.

(** ** Reading the cache defensively *)

Lemma safe_read_cache_tolerated (w : World) :
  store_tolerated (cache_file w) ->
  _safe_read_cache w = Ok (store_map (cache_file w)).
Proof.
  unfold _safe_read_cache, store_tolerated, store_map.
  destruct (cache_file w) as [| |e|[v|e]]; try reflexivity.
  - intros [].
  - now intros [-> | ->].
  - destruct v; reflexivity.
  - now intros [-> | ->].
Qed.

Lemma rbind_Ok_inv {A B} (r : result A) (k : A -> result B) (b : B) :
  rbind r k = Ok b -> exists a, r = Ok a /\ k a = Ok b.
Proof. destruct r as [a|e]; [eauto | discriminate]. Qed.

Lemma pt_from_dict_needs_names {R : Runtime} (t : json) (times : PrayerTimes) :
  pt_from_dict t = Ok times ->
  exists x, t = JDict x /\ forall name, dict_get (name_str name) x <> None.
Proof.
  unfold pt_from_dict. intros H.
  assert (Hget : forall k v, py_getitem t k = Ok v ->
                             exists x, t = JDict x /\ dict_get k x = Some v).
  { intros k v. unfold py_getitem. destruct t; try discriminate.
    destruct (dict_get k d) eqn:E; [|discriminate]. intros [= <-]. eauto. }
  apply rbind_Ok_inv in H as (v1 & H1 & H).
  apply rbind_Ok_inv in H1 as (j1 & H1 & _).
  apply rbind_Ok_inv in H as (v2 & H2 & H).
  apply rbind_Ok_inv in H2 as (j2 & H2 & _).
  apply rbind_Ok_inv in H as (v3 & H3 & H).
  apply rbind_Ok_inv in H3 as (j3 & H3 & _).
  apply rbind_Ok_inv in H as (v4 & H4 & H).
  apply rbind_Ok_inv in H4 as (j4 & H4 & _).
  apply rbind_Ok_inv in H as (v5 & H5 & H).
  apply rbind_Ok_inv in H5 as (j5 & H5 & _).
  apply rbind_Ok_inv in H as (v6 & H6 & _).
  apply rbind_Ok_inv in H6 as (j6 & H6 & _).
  apply Hget in H1 as (x & -> & H1).
  apply Hget in H2 as (? & [= <-] & H2). apply Hget in H3 as (? & [= <-] & H3).
  apply Hget in H4 as (? & [= <-] & H4). apply Hget in H5 as (? & [= <-] & H5).
  apply Hget in H6 as (? & [= <-] & H6).
  exists x. split; [reflexivity|]. intros []; cbn [name_str]; congruence.
Qed.

Lemma parse_incomplete_entry {R : Runtime} (entry : json) :
  entry_incomplete entry -> _parse_cached_entry entry = None.
Proof.
  destruct entry as [| | | | | |d]; try reflexivity.
  cbn [entry_incomplete]. intros H.
  destruct (_parse_cached_entry (JDict d)) as [b|] eqn:E; [exfalso | reflexivity].
  unfold _parse_cached_entry in E.
  match type of E with
  | match ?r with Ok _ => _ | Raise _ => _ end = _ => destruct r as [b'|] eqn:Er; [|discriminate]
  end.
  clear E.
  assert (Hget : forall k v, py_getitem (JDict d) k = Ok v -> dict_get k d = Some v).
  { intros k v. cbn [py_getitem]. destruct (dict_get k d); [|discriminate]. congruence. }
  apply rbind_Ok_inv in Er as (times & H1 & Er).
  apply rbind_Ok_inv in H1 as (t & Ht & Hpt). apply Hget in Ht.
  apply rbind_Ok_inv in Er as (tf & H2 & Er).
  apply rbind_Ok_inv in H2 as (jtf & Htf & _). apply Hget in Htf.
  apply rbind_Ok_inv in Er as (tz & _ & Er).
  apply rbind_Ok_inv in Er as (date & H3 & Er).
  apply rbind_Ok_inv in H3 as (jd & Hd & _). apply Hget in Hd.
  apply rbind_Ok_inv in Er as (fa & H4 & _).
  apply rbind_Ok_inv in H4 as (jf & Hf & _). apply Hget in Hf.
  apply pt_from_dict_needs_names in Hpt as (x & -> & Hnames).
  destruct H as [H | [H | [H | [H | [(t' & H & Hn) | (x' & name & H & Hn)]]]]];
    try congruence.
  all: rewrite Ht in H; injection H as <-;
    first [now elim (Hn x) | now elim (Hnames name)].
Qed.

Lemma zone_today_istanbul (w : World) :
  zone_today w (JStr DIYANET_TIME_ZONE)
  = option_map date_isoformat (zone_now w DIYANET_TIME_ZONE).
Proof.
  assert (E : exists c key, DIYANET_TIME_ZONE = c :: key) by (vm_compute; eauto).
  destruct E as (c & key & E). rewrite E. reflexivity.
Qed.

Lemma spec_today_defined (w : World) (time_zone : json) (source : PrayerSource) :
  source = mwl \/ zone_now w DIYANET_TIME_ZONE <> None ->
  exists today, spec_today w time_zone source = Some today.
Proof.
  intros H. unfold spec_today.
  destruct (zone_today w time_zone); [eauto|].
  destruct source.
  - rewrite zone_today_istanbul.
    destruct H as [|H]; [discriminate|].
    destruct (zone_now w DIYANET_TIME_ZONE); [cbn; eauto | congruence].
  - eauto.
Qed.

Lemma parse_entry_reads_as {R : Runtime} (entry : json) (b : CachedPrayerBundle) :
  entry_reads_as entry b -> _parse_cached_entry entry = Some b.
Proof.
  intros (d & x & -> & Ht & Hnames & (vt & Hvt & Svt) & Hz & (vd & Hvd & Svd)
            & (vf & Hvf & Svf)).
  destruct (Hnames Fajr) as (v0 & G0 & S0). destruct (Hnames Sunrise) as (v1 & G1 & S1).
  destruct (Hnames Dhuhr) as (v2 & G2 & S2). destruct (Hnames Asr) as (v3 & G3 & S3).
  destruct (Hnames Maghrib) as (v4 & G4 & S4). destruct (Hnames Isha) as (v5 & G5 & S5).
  cbn [name_str] in G0, G1, G2, G3, G4, G5.
  unfold _parse_cached_entry, pt_from_dict, py_getitem, py_get.
  rewrite Ht, Hvt, Hvd, Hvf. cbn [rbind].
  rewrite G0, G1, G2, G3, G4, G5. cbn [rbind].
  rewrite S0, S1, S2, S3, S4, S5. cbn [rbind]. rewrite Svt. cbn [rbind].
  destruct b as [[t0 t1 t2 t3 t4 t5] tf tz date fa].
  cbn [cb_times cb_tomorrow_fajr cb_time_zone cb_date cb_fetched_at pt_get] in *.
  destruct (dict_get (lit "time_zone") d); cbn [rbind];
    rewrite Svd; cbn [rbind]; rewrite Svf; cbn [rbind]; now subst tz.
Qed.

(** C6, as the code has it. On a store whose existence check succeeds and
    that is absent, unreadable, not JSON, not an object, or an object, the
    stale lookup never raises and answers from the entry under the key
    alone, a corrupt store counting as the empty map; the fresh lookup does
    the same for the fallback source, and for the regional one when
    Europe/Istanbul loads; an entry that is no object or lacks a required
    field gives nothing; a field of another JSON type is not rejected but
    taken through [str]. When the existence check itself raises, both
    lookups raise. *)
Theorem cache_lookups_tolerate {R : Runtime}
    (w : World) (location : Location) (source : PrayerSource) :
  (store_tolerated (cache_file w) ->
   get_stale_cached_bundle w location source
   = Ok (_parse_cached_entry
           (dict_get_or_None (_cache_key location source) (store_map (cache_file w))))
   /\ (source = mwl \/ zone_now w DIYANET_TIME_ZONE <> None ->
       exists found,
         get_fresh_cached_bundle w location source = Ok found
         /\ (found = None
             \/ found = _parse_cached_entry
                          (dict_get_or_None (_cache_key location source)
                             (store_map (cache_file w)))))
   /\ (entry_incomplete
         (dict_get_or_None (_cache_key location source) (store_map (cache_file w))) ->
       get_stale_cached_bundle w location source = Ok None
       /\ get_fresh_cached_bundle w location source = Ok None)
   /\ (forall bundle,
         entry_reads_as
           (dict_get_or_None (_cache_key location source) (store_map (cache_file w)))
           bundle ->
         get_stale_cached_bundle w location source = Ok (Some bundle)))
  /\ (cache_file w = ExistsFails ->
      get_stale_cached_bundle w location source = Raise OSError
      /\ get_fresh_cached_bundle w location source = Raise OSError).
Proof.
  split.
  - intros Htol. pose proof (safe_read_cache_tolerated w Htol) as Hread.
    unfold get_stale_cached_bundle, get_fresh_cached_bundle.
    rewrite Hread. cbn [rbind]. split; [reflexivity | split; [|split]].
    + intros Hzone.
      destruct (_parse_cached_entry _) as [b|]; [|eauto].
      rewrite date_string_for_zone_spec.
      destruct (spec_today_defined w (cb_time_zone b) source Hzone) as [today ->].
      cbn [rbind]. destruct (str_eqb (cb_date b) today); eauto.
    + intros Hinc. now rewrite (parse_incomplete_entry _ Hinc).
    + intros bundle Hb. now rewrite (parse_entry_reads_as _ _ Hb).
  - intros Hfile.
    unfold get_stale_cached_bundle, get_fresh_cached_bundle, _safe_read_cache.
    rewrite Hfile. split; reflexivity.
Qed.

Lemma cache_lookups_tolerate_witness :
  (get_stale_cached_bundle (R := ascii_runtime)
     (sample_world (sample_instant 20 8 0) (Content (Raise JSONDecodeError)))
     sample_location_tr diyanet = Ok None
   /\ get_fresh_cached_bundle (R := ascii_runtime)
        (sample_world (sample_instant 20 8 0) (Content (Raise JSONDecodeError)))
        sample_location_tr diyanet = Ok None)
  /\ get_stale_cached_bundle (R := ascii_runtime)
       (sample_world (sample_instant 20 8 0) ExistsFails)
       sample_location_tr diyanet = Raise OSError.
Proof.
  split.
  - destruct (cache_lookups_tolerate (R := ascii_runtime)
                (sample_world (sample_instant 20 8 0) (Content (Raise JSONDecodeError)))
                sample_location_tr diyanet) as [Htol _].
    destruct Htol as (_ & _ & Hinc & _).
    + right. reflexivity.
    + apply Hinc. exact I.
  - destruct (cache_lookups_tolerate (R := ascii_runtime)
                (sample_world (sample_instant 20 8 0) ExistsFails)
                sample_location_tr diyanet) as [_ Hfails].
    destruct Hfails as [Hstale _]; [reflexivity | exact Hstale].
Defined.

(** C6 as stated fails: an entry whose fields have the wrong JSON types is
    not dropped, its fields are converted with [str]. *)
Lemma malformed_fields_are_coerced :
  get_stale_cached_bundle (R := ascii_runtime)
    (sample_world (sample_instant 20 8 0) (sample_store malformed_entry))
    sample_location_tr diyanet
  = Ok (Some {| cb_times :=
                  {| pt_Fajr := lit "5"; pt_Sunrise := lit "07:48";
                     pt_Dhuhr := lit "13:23"; pt_Asr := lit "16:19";
                     pt_Maghrib := lit "18:48"; pt_Isha := lit "20:08" |};
                cb_tomorrow_fajr := lit "None";
                cb_time_zone := JNull;
                cb_date := lit "True";
                cb_fetched_at := lit "yesterday" |}).
Proof. vm_compute. reflexivity. Qed.

(** ** The orchestrator *)

Lemma keeps_cache_mret {A} (a : A) : keeps_cache (mret a).
Proof. intros w r w'. unfold mret. now intros [= _ <-]. Qed.

Lemma keeps_cache_mraise {A} (e : exn) : keeps_cache (@mraise A e).
Proof. intros w r w'. unfold mraise. now intros [= _ <-]. Qed.

Lemma keeps_cache_mlift {A} (r : result A) : keeps_cache (mlift r).
Proof. intros w r' w'. unfold mlift. now intros [= _ <-]. Qed.

Lemma keeps_cache_mread {A} (f : World -> result A) : keeps_cache (mread f).
Proof. intros w r' w'. unfold mread. now intros [= _ <-]. Qed.

Lemma keeps_cache_mbind {A B} (m : M A) (k : A -> M B) :
  keeps_cache m -> (forall a, keeps_cache (k a)) -> keeps_cache (mbind m k).
Proof.
  intros Hm Hk w r w' H.
  apply mbind_inv in H as [(a & w1 & H1 & H2) | (e & H1 & _)].
  - rewrite (Hk a _ _ _ H2). eauto.
  - eauto.
Qed.

Lemma keeps_cache_http_get (url : pystr) (headers : list (pystr * pystr)) :
  keeps_cache (http_get url headers).
Proof.
  intros w r w'. unfold http_get.
  destruct (http w _ (http_count w)); now intros [= _ <-].
Qed.

Lemma keeps_cache_get_with_retries
    (url : pystr) (headers : list (pystr * pystr)) (error_message : pystr) :
  keeps_cache (_get_with_retries url headers error_message).
Proof.
  unfold _get_with_retries. generalize (seq 0 (MAX_RETRIES + 1)).
  induction l as [|attempt rest IH]; cbn [_get_with_retries_from].
  - apply keeps_cache_mraise.
  - apply keeps_cache_mbind; [apply keeps_cache_http_get|].
    intros [| |r].
    + apply keeps_cache_mraise.
    + destruct (attempt <? MAX_RETRIES)%nat; [exact IH | apply keeps_cache_mraise].
    + destruct ((500 <=? status_code r) && (attempt <? MAX_RETRIES)%nat);
        [exact IH | apply keeps_cache_mret].
Qed.

Ltac keeps_cache_step :=
  first [ apply keeps_cache_mret | apply keeps_cache_mraise
        | apply keeps_cache_mlift | apply keeps_cache_mread
        | apply keeps_cache_get_with_retries
        | apply keeps_cache_mbind; [|intros ?] ].

Lemma keeps_cache_fetch_from_diyanet (ilce_id : pystr) :
  keeps_cache (_fetch_from_diyanet ilce_id).
Proof.
  unfold _fetch_from_diyanet. cbv zeta.
  apply keeps_cache_mbind; [apply keeps_cache_get_with_retries | intros r].
  destruct (400 <=? status_code r); [keeps_cache_step|].
  destruct (body r) as [[]|[]]; keeps_cache_step.
Qed.

Lemma keeps_cache_times_from_diyanet (ilce_id : pystr) :
  keeps_cache (_fetch_prayer_times_from_diyanet ilce_id).
Proof.
  unfold _fetch_prayer_times_from_diyanet.
  apply keeps_cache_mbind; [apply keeps_cache_fetch_from_diyanet | intros data].
  apply keeps_cache_mbind; [apply keeps_cache_mread | intros today].
  apply keeps_cache_mbind; [apply keeps_cache_mlift | intros found].
  destruct (dict_falsy found); keeps_cache_step.
Qed.

Lemma keeps_cache_tomorrow_from_diyanet (ilce_id : pystr) :
  keeps_cache (_fetch_tomorrow_fajr_from_diyanet ilce_id).
Proof.
  unfold _fetch_tomorrow_fajr_from_diyanet.
  apply keeps_cache_mbind; [apply keeps_cache_fetch_from_diyanet | intros data].
  apply keeps_cache_mbind; [apply keeps_cache_mread | intros today].
  apply keeps_cache_mbind; [apply keeps_cache_mlift | intros tomorrow].
  apply keeps_cache_mbind; [apply keeps_cache_mlift | intros found].
  destruct (dict_falsy found); keeps_cache_step.
Qed.

Lemma keeps_cache_aladhan_timings {R : Runtime} (url error_message : pystr) :
  keeps_cache (aladhan_timings url error_message).
Proof.
  unfold aladhan_timings.
  apply keeps_cache_mbind; [apply keeps_cache_get_with_retries | intros r].
  destruct (400 <=? status_code r); [keeps_cache_step|].
  destruct (body r) as [payload|e].
  - apply keeps_cache_mbind; [apply keeps_cache_mlift | intros data].
    apply keeps_cache_mbind; [apply keeps_cache_mlift | intros timings].
    destruct timings; keeps_cache_step.
  - destruct (is_ValueError e); keeps_cache_step.
Qed.

Lemma keeps_cache_times_from_aladhan {R : Runtime} (location : Location) :
  keeps_cache (_fetch_prayer_times_from_aladhan location).
Proof.
  unfold _fetch_prayer_times_from_aladhan.
  apply keeps_cache_mbind; [apply keeps_cache_mread | intros timestamp].
  apply keeps_cache_mbind; [apply keeps_cache_mlift | intros url].
  apply keeps_cache_mbind; [apply keeps_cache_aladhan_timings | intros [data timings]].
  apply keeps_cache_mbind; [apply keeps_cache_mlift | intros times].
  apply keeps_cache_mbind; [apply keeps_cache_mlift | intros meta].
  apply keeps_cache_mbind; [apply keeps_cache_mlift | intros time_zone].
  apply keeps_cache_mret.
Qed.

Lemma keeps_cache_tomorrow_from_aladhan {R : Runtime} (location : Location) :
  keeps_cache (_fetch_tomorrow_fajr_from_aladhan location).
Proof.
  unfold _fetch_tomorrow_fajr_from_aladhan.
  apply keeps_cache_mbind; [apply keeps_cache_mread | intros tomorrow].
  apply keeps_cache_mbind; [apply keeps_cache_mread | intros timestamp].
  apply keeps_cache_mbind; [apply keeps_cache_mlift | intros url].
  apply keeps_cache_mbind; [apply keeps_cache_aladhan_timings | intros [data timings]].
  apply keeps_cache_mlift.
Qed.

Lemma safe_read_cache_ext (w1 w2 : World) :
  cache_file w1 = cache_file w2 -> _safe_read_cache w1 = _safe_read_cache w2.
Proof. unfold _safe_read_cache. now intros ->. Qed.

(** With a readable store, [set_cached_bundle] raises no [PrayerApiError]. *)
Lemma set_cached_bundle_no_api_error
    (w w' : World) (data : dict) (location : Location) (source : PrayerSource)
    (times : PrayerTimes) (tomorrow_fajr : pystr) (time_zone : json) (msg : pystr) :
  _safe_read_cache w = Ok data ->
  set_cached_bundle location source times tomorrow_fajr time_zone w
  <> (Raise (PrayerApiError msg), w').
Proof.
  intros Hread H. unfold set_cached_bundle in H.
  apply mbind_inv in H as [(d & w1 & Hd & H) | (e & Hd & _)];
    [|apply mread_inv in Hd as [Hd _]; congruence].
  apply mread_inv in Hd as [_ ->].
  apply mbind_inv in H as [(now & w1 & Hn & H) | (e & Hn & _)];
    [|apply mread_inv in Hn as [[=] _]].
  apply mread_inv in Hn as [_ ->].
  apply mbind_inv in H as [(date & w1 & Hdate & H) | (e & Hdate & [= <-])].
  - apply mread_inv in Hdate as [_ ->]. unfold _safe_write_cache in H.
    destruct (negb (cache_writable w)); [discriminate|].
    destruct (negb (json_forall _ int_printable _)); [discriminate|].
    destruct (negb (json_forall utf8_encodable _ _)); discriminate.
  - apply mread_inv in Hdate as [Hdate _].
    rewrite date_string_for_zone_spec in Hdate.
    destruct (spec_today w time_zone source); [discriminate|].
    destruct (zone_error w DIYANET_TIME_ZONE); discriminate.
Qed.

(** When the provider path fails with a [PrayerApiError], the cache file
    is as it was when the path started. *)
Lemma failed_fetch_keeps_cache {R : Runtime}
    (w w1 : World) (data : dict) (location : Location)
    (source resolved : PrayerSource) (msg : pystr) :
  _safe_read_cache w = Ok data ->
  fetch_from_provider location source resolved w = (Raise (PrayerApiError msg), w1) ->
  cache_file w1 = cache_file w.
Proof.
  intros Hread H. unfold fetch_from_provider in H.
  destruct (source_eqb resolved diyanet).
  - apply mbind_inv in H as [(ilce_id & w0 & Hid & H) | (e & Hid & _)];
      [|now apply keeps_cache_mlift in Hid].
    apply mlift_Ok_inv in Hid as [_ ->].
    destruct (negb (opt_str_truthy ilce_id)).
    { now apply keeps_cache_mraise in H. }
    apply mbind_inv in H as [(times & wa & Ha & H) | (e & Ha & _)];
      [|now apply keeps_cache_times_from_diyanet in Ha].
    apply keeps_cache_times_from_diyanet in Ha.
    apply mbind_inv in H as [(tf & wb & Hb & H) | (e & Hb & _)];
      [|apply keeps_cache_tomorrow_from_diyanet in Hb; congruence].
    apply keeps_cache_tomorrow_from_diyanet in Hb.
    apply mbind_inv in H as [(u & wc & Hc & H) | (e & Hc & [= <-])];
      [discriminate|].
    exfalso. revert Hc. apply (set_cached_bundle_no_api_error _ _ data).
    rewrite <- Hread. apply safe_read_cache_ext. congruence.
  - apply mbind_inv in H as [([times tz] & wa & Ha & H) | (e & Ha & _)];
      [|now apply keeps_cache_times_from_aladhan in Ha].
    apply keeps_cache_times_from_aladhan in Ha.
    apply mbind_inv in H as [(tf & wb & Hb & H) | (e & Hb & _)];
      [|apply keeps_cache_tomorrow_from_aladhan in Hb; congruence].
    apply keeps_cache_tomorrow_from_aladhan in Hb.
    apply mbind_inv in H as [(u & wc & Hc & H) | (e & Hc & [= <-])];
      [discriminate|].
    exfalso. revert Hc. apply (set_cached_bundle_no_api_error _ _ data).
    rewrite <- Hread. apply safe_read_cache_ext. congruence.
Qed.

Lemma get_stale_ext {R : Runtime} (w1 w2 : World) (location : Location)
    (source : PrayerSource) :
  cache_file w1 = cache_file w2 ->
  get_stale_cached_bundle w1 location source
  = get_stale_cached_bundle w2 location source.
Proof.
  intros H. unfold get_stale_cached_bundle. now rewrite (safe_read_cache_ext _ _ H).
Qed.

(** C1: when the fresh lookup misses and the provider path raises a
    [PrayerApiError], [fetch_prayer_bundle] returns without raising a
    result whose times, tomorrow's Fajr and time zone are those of the
    stale entry under the resolved key if there is one, and raises that
    same error if there is none. *)
Theorem stale_fallback {R : Runtime}
    (w w1 : World) (location : Location) (source : PrayerSource) (msg : pystr) :
  get_fresh_cached_bundle w location (resolve_prayer_source location source)
  = Ok None ->
  fetch_from_provider location source (resolve_prayer_source location source) w
  = (Raise (PrayerApiError msg), w1) ->
  (forall stale,
     get_stale_cached_bundle w location (resolve_prayer_source location source)
     = Ok (Some stale) ->
     exists fetched,
       fetch_prayer_bundle location source w = (Ok fetched, w1)
       /\ fr_times fetched = cb_times stale
       /\ fr_tomorrow_fajr fetched = cb_tomorrow_fajr stale
       /\ fr_time_zone fetched = cb_time_zone stale
       /\ requested_source fetched = source
       /\ resolved_source fetched = resolve_prayer_source location source)
  /\ (get_stale_cached_bundle w location (resolve_prayer_source location source)
      = Ok None ->
      fetch_prayer_bundle location source w = (Raise (PrayerApiError msg), w1)).
Proof.
  intros Hfresh Hfail.
  assert (Hread : exists data, _safe_read_cache w = Ok data).
  { unfold get_fresh_cached_bundle in Hfresh.
    destruct (_safe_read_cache w); [eauto | discriminate]. }
  destruct Hread as [data Hread].
  pose proof (failed_fetch_keeps_cache _ _ _ _ _ _ _ Hread Hfail) as Hkeep.
  assert (Hrun : forall r,
    get_stale_cached_bundle w location (resolve_prayer_source location source) = Ok r ->
    fetch_prayer_bundle location source w
    = match r with
      | Some stale =>
          (Ok (result_of_bundle stale source (resolve_prayer_source location source)), w1)
      | None => (Raise (PrayerApiError msg), w1)
      end).
  { intros r Hr. unfold fetch_prayer_bundle, mbind at 1, mread at 1.
    rewrite Hfresh. unfold try_except_PrayerApiError. rewrite Hfail.
    unfold mbind, mread. rewrite (get_stale_ext w1 w _ _ Hkeep), Hr.
    destruct r; reflexivity. }
  split.
  - intros stale Hs. eexists. split; [exact (Hrun _ Hs)|]. repeat split.
  - intros Hs. exact (Hrun _ Hs).
Qed.

Lemma stale_fallback_witness :
  exists fetched,
    fst (fetch_prayer_bundle (R := ascii_runtime) sample_location_tr diyanet
           (sample_world (sample_instant 20 8 0) (sample_store stale_record)))
    = Ok fetched
    /\ fr_times fetched = sample_times
    /\ fr_tomorrow_fajr fetched = lit "06:21"
    /\ fr_time_zone fetched = JStr DIYANET_TIME_ZONE.
Proof.
  destruct (stale_fallback (R := ascii_runtime)
              (sample_world (sample_instant 20 8 0) (sample_store stale_record))
              (with_http_count
                 (sample_world (sample_instant 20 8 0) (sample_store stale_record)) 3)
              sample_location_tr diyanet
              (lit "Failed to fetch prayer times from Diyanet")) as [Hstale _].
  - vm_compute. reflexivity.
  - vm_compute. reflexivity.
  - destruct (Hstale {| cb_times := sample_times; cb_tomorrow_fajr := lit "06:21";
                        cb_time_zone := JStr DIYANET_TIME_ZONE;
                        cb_date := lit "2024-02-28";
                        cb_fetched_at := lit "2024-02-28T20:08:00+03:00" |})
      as (fetched & Hrun & Ht & Hf & Hz & _).
    + vm_compute. reflexivity.
    + exists fetched. rewrite Hrun. repeat split; assumption.
Defined.

(** ** The prayer clock *)

Lemma ascii_digit_value (c : char) :
  ascii_digit c = true -> is_digit c = true /\ decimal_value c = Some (c - ZERO).
Proof.
  unfold ascii_digit. intros H. apply andb_prop in H as [H1 H2].
  apply Z.leb_le in H1. apply Z.leb_le in H2.
  assert (E : decimal_value c = Some (c - ZERO)).
  { unfold decimal_value, decimal_zero_points. cbn [find].
    replace ((48 <=? c) && (c <? 48 + 10)) with true; [reflexivity|].
    symmetry. apply andb_true_intro. split; [apply Z.leb_le | apply Z.ltb_lt]; lia. }
  split; [|exact E]. unfold is_digit. now rewrite E.
Qed.

Lemma canonical_inv (s : pystr) :
  canonical_hhmm s = true ->
  exists a b d e,
    s = [a; b; COLON; d; e]
    /\ ascii_digit a = true /\ ascii_digit b = true
    /\ ascii_digit d = true /\ ascii_digit e = true
    /\ hour_of s <= 23 /\ minute_of s <= 59.
Proof.
  unfold canonical_hhmm.
  destruct s as [|a [|b [|c [|d [|e [|x s']]]]]]; try discriminate.
  intros H. apply andb_prop in H as [H Hm]. apply andb_prop in H as [H Hh].
  unfold hhmm_shape in H.
  apply andb_prop in H as [H He]. apply andb_prop in H as [H Hd].
  apply andb_prop in H as [H Hc]. apply andb_prop in H as [Ha Hb].
  apply Z.eqb_eq in Hc. subst c. apply Z.leb_le in Hh. apply Z.leb_le in Hm.
  exists a, b, d, e. repeat split; assumption.
Qed.

Lemma time_string_canonical (s : pystr) (base : datetime) :
  canonical_hhmm s = true ->
  exists dt, time_string_to_datetime s base = Ok dt
             /\ wall_us dt = today_at base s.
Proof.
  intros H. destruct (canonical_inv s H) as (a & b & d & e & -> & Ha & Hb & Hd & He & Hh & Hm).
  destruct (ascii_digit_value a Ha) as [Da Va].
  destruct (ascii_digit_value b Hb) as [Db Vb].
  destruct (ascii_digit_value d Hd) as [Dd Vd].
  destruct (ascii_digit_value e He) as [De Ve].
  unfold time_string_to_datetime. cbn [py_split].
  rewrite (digit_neq a COLON colon_not_digit Da), (digit_neq b COLON colon_not_digit Db),
    (digit_neq d COLON colon_not_digit Dd), (digit_neq e COLON colon_not_digit De).
  rewrite Z.eqb_refl. cbn [firstn].
  assert (Hlen : forall x y : char, (length [x; y] <= int_max_str_digits)%nat)
    by (intros; apply Nat.leb_le; reflexivity).
  rewrite (py_int_digits [a; b]), (py_int_digits [d; e]);
    first [apply Hlen | discriminate | repeat constructor; assumption | idtac].
  cbn [rbind]. rewrite (digits_value_2 _ _ _ _ Va Vb), (digits_value_2 _ _ _ _ Vd Ve).
  cbn [hour_of minute_of] in Hh, Hm.
  unfold ascii_digit in Ha, Hb, Hd, He. unfold ZERO in *.
  apply andb_prop in Ha as [Ha1 Ha2]. apply andb_prop in Hb as [Hb1 Hb2].
  apply andb_prop in Hd as [Hd1 Hd2]. apply andb_prop in He as [He1 He2].
  apply Z.leb_le in Ha1, Ha2, Hb1, Hb2, Hd1, Hd2, He1, He2.
  unfold replace_time, fits_c_int.
  repeat match goal with
         | |- context [?x <=? ?y] =>
             replace (x <=? y) with true by (symmetry; apply Z.leb_le; lia)
         end.
  cbn [negb andb]. eexists. split; [reflexivity|].
  unfold wall_us, today_at.
  cbn [ordinal hour minute second microsecond hour_of minute_of]. unfold ZERO. lia.
Qed.

Lemma canonical_nonempty (s : pystr) :
  canonical_hhmm s = true -> opt_str_truthy (Some s) = true.
Proof. destruct s; [discriminate | reflexivity]. Qed.

Lemma datetime_geb_le (a b : datetime) :
  datetime_geb a b = true <-> wall_us b <= wall_us a.
Proof. unfold datetime_geb. apply Z.leb_le. Qed.

Lemma datetime_geb_gt (a b : datetime) :
  datetime_geb a b = false <-> wall_us a < wall_us b.
Proof. unfold datetime_geb. apply Z.leb_gt. Qed.

Lemma all_fields_inv (p : pystr -> bool) (t : PrayerTimes) :
  all_fields p t = true -> forall n, p (pt_get t n) = true.
Proof.
  unfold all_fields. rewrite forallb_forall. intros H n. apply H.
  destruct n; cbn; auto 10.
Qed.





(** The order of the day is needed for the clause on the time before
    Fajr: with Isha at 00:30 and now at 02:00, before today's Fajr at
    03:00, Isha has begun and the next prayer reported is tomorrow's
    Fajr. *)
Remark isha_after_midnight_precedes_fajr :
  all_fields canonical_hhmm late_isha_times = true
  /\ wall_us (sample_instant 2 0 0)
     < today_at (sample_instant 2 0 0) (pt_Fajr late_isha_times)
  /\ get_current_prayer_info (sample_world (sample_instant 2 0 0) NoFile)
       late_isha_times (Some (lit "02:58")) JNull
     = Ok {| current_prayer := Some Isha; next_prayer := Fajr;
             next_prayer_time := lit "02:58"; time_until_next_ms := 89880000;
             is_after_isha := true |}.
Proof. repeat split; vm_compute; reflexivity. Qed.

(** * Further properties of the code *)

(** ** models.py: PrayerTimes and its dictionary *)

(** [PrayerTimes.to_dict] followed by [PrayerTimes.from_dict] gives the
    times back; [from_dict] raises [TypeError] on anything but an object,
    and never succeeds on an object that lacks one of the six names. *)
Theorem prayer_times_dict_round_trip {R : Runtime} (t : PrayerTimes) (v : json) :
  pt_from_dict (JDict (pt_to_dict t)) = Ok t
  /\ ((forall d, v <> JDict d) -> pt_from_dict v = Raise TypeError)
  /\ (forall d name t',
        v = JDict d -> dict_get (name_str name) d = None ->
        pt_from_dict v <> Ok t').
Proof.
  split; [|split].
  - destruct t. reflexivity.
  - intros Hv. destruct v; try reflexivity. now elim (Hv d).
  - intros d name t' -> Hmiss Hok.
    apply pt_from_dict_needs_names in Hok as (x & [= <-] & Hall).
    now elim (Hall name).
Qed.

Lemma prayer_times_dict_round_trip_witness :
  pt_from_dict (R := ascii_runtime) (JList []) = Raise TypeError
  /\ pt_from_dict (R := ascii_runtime) (JDict [(lit "Fajr", JStr (lit "06:22"))])
     <> Ok sample_times.
Proof.
  destruct (prayer_times_dict_round_trip (R := ascii_runtime) sample_times (JList []))
    as (_ & H2 & _).
  destruct (prayer_times_dict_round_trip (R := ascii_runtime) sample_times
              (JDict [(lit "Fajr", JStr (lit "06:22"))])) as (_ & _ & H3).
  split.
  - apply H2. discriminate.
  - apply (H3 [(lit "Fajr", JStr (lit "06:22"))] Isha); reflexivity.
Defined.

(** ** prayer_api.py: normalization *)

Lemma digits_value_two_digits (n : Z) :
  0 <= n <= 99 -> digits (two_digits n) /\ digits_value (two_digits n) = n.
Proof.
  intros Hn. unfold two_digits.
  assert (Ha : ascii_digit (ZERO + n / 10) = true).
  { unfold ascii_digit, ZERO. apply andb_true_intro.
    split; apply Z.leb_le; lia_div. }
  assert (Hb : ascii_digit (ZERO + n mod 10) = true).
  { unfold ascii_digit, ZERO. apply andb_true_intro.
    split; apply Z.leb_le; lia_div. }
  destruct (ascii_digit_value _ Ha) as [Da Va].
  destruct (ascii_digit_value _ Hb) as [Db Vb].
  split; [repeat constructor; assumption|].
  etransitivity; [exact (digits_value_2 _ _ _ _ Va Vb) | unfold ZERO; lia_div].
Qed.

(** [format_time_to_hhmm] never raises, leaves a string without an H:MM
    or HH:MM substring as it is, and normalizing its result again changes
    nothing. *)
Theorem format_time_idempotent (s : pystr) :
  exists v,
    format_time_to_hhmm s = Ok v
    /\ format_time_to_hhmm v = Ok v
    /\ ((forall i h m, ~ time_at s i h m) -> v = s).
Proof.
  destruct (re_search_time s) as [[h m]|] eqn:Hs.
  - exists (hhmm_of h m).
    pose proof (format_time_of_first _ _ _ Hs) as Hf.
    destruct (re_search_time_sound _ _ _ Hs) as (i & Hi & _).
    pose proof Hi as (Hh & Hm & Dh & Dm & _).
    pose proof (digits_value_short h Dh Hh) as Rh.
    pose proof (digits_value_short m Dm (or_intror Hm)) as Rm.
    destruct (digits_value_two_digits _ Rh) as [D1 V1].
    destruct (digits_value_two_digits _ Rm) as [D2 V2].
    split; [exact Hf | split].
    + assert (Ht : time_at (hhmm_of h m) 0
                     (two_digits (digits_value h)) (two_digits (digits_value m))).
      { unfold hhmm_of.
        replace ([COLON] ++ two_digits (digits_value m))
          with (COLON :: two_digits (digits_value m) ++ [])
          by (now rewrite app_nil_r).
        apply time_at_0_intro; auto. }
      apply match_here_complete in Ht.
      assert (Hs' : re_search_time (hhmm_of h m)
                    = Some (two_digits (digits_value h), two_digits (digits_value m))).
      { unfold hhmm_of, two_digits in *. cbn [app re_search_time] in *.
        now rewrite Ht. }
      rewrite (format_time_of_first _ _ _ Hs'). unfold hhmm_of at 1.
      now rewrite V1, V2.
    + intros Hnone. now elim (Hnone i h m).
  - exists s. unfold format_time_to_hhmm. rewrite Hs. auto.
Qed.

Lemma format_time_idempotent_witness :
  exists v,
    format_time_to_hhmm (lit "noon") = Ok v /\ v = lit "noon".
Proof.
  destruct (format_time_idempotent (lit "noon")) as (v & Hv & _ & Hsame).
  exists v. split; [exact Hv|]. apply Hsame.
  intros i h m Ht. destruct (re_search_time_complete _ _ _ _ Ht) as [g Hg].
  vm_compute in Hg. discriminate.
Defined.

(** ** cache.py: how the lookups relate *)

(** A fresh hit is a stale hit: whatever [get_fresh_cached_bundle]
    returns, [get_stale_cached_bundle] returns too. *)
Theorem fresh_hit_is_stale_hit {R : Runtime}
    (w : World) (location : Location) (source : PrayerSource)
    (bundle : CachedPrayerBundle) :
  get_fresh_cached_bundle w location source = Ok (Some bundle) ->
  get_stale_cached_bundle w location source = Ok (Some bundle).
Proof.
  unfold get_fresh_cached_bundle, get_stale_cached_bundle.
  destruct (_safe_read_cache w) as [data|]; [|discriminate]. cbn [rbind].
  destruct (_parse_cached_entry _) as [entry|]; [|discriminate].
  destruct (_date_string_for_zone w (cb_time_zone entry) source) as [d|];
    [|discriminate].
  cbn [rbind]. destruct (str_eqb (cb_date entry) d); [|discriminate].
  now intros [= ->].
Qed.

Lemma fresh_hit_is_stale_hit_witness :
  get_stale_cached_bundle (R := ascii_runtime)
    (sample_world (sample_instant 20 8 0)
       (sample_store
          (cache_record sample_times (lit "06:21") JNull (lit "2024-02-29")
             (lit "2024-02-29T05:00:00+03:00"))))
    sample_location_tr diyanet
  = Ok (Some {| cb_times := sample_times; cb_tomorrow_fajr := lit "06:21";
                cb_time_zone := JNull; cb_date := lit "2024-02-29";
                cb_fetched_at := lit "2024-02-29T05:00:00+03:00" |}).
Proof.
  apply (fresh_hit_is_stale_hit (R := ascii_runtime)). vm_compute. reflexivity.
Defined.

Lemma cache_key_source_distinct (location : Location) :
  _cache_key location diyanet <> _cache_key location mwl.
Proof.
  unfold _cache_key. intros H.
  repeat apply app_inv_head in H. vm_compute in H. discriminate.
Qed.

(** The two sources of one location never share a cache entry: a write
    under one source leaves the stale lookup under the other as it was. *)
Theorem write_leaves_other_source_alone {R : Runtime}
    (w w' : World) (location : Location) (source other : PrayerSource)
    (times : PrayerTimes) (tomorrow_fajr : pystr) (time_zone : json) :
  source <> other ->
  set_cached_bundle location source times tomorrow_fajr time_zone w = (Ok tt, w') ->
  get_stale_cached_bundle w' location other
  = get_stale_cached_bundle w location other.
Proof.
  intros Hne Hset.
  apply set_cached_bundle_inv in Hset as (data & date & Hread & _ & ->).
  unfold get_stale_cached_bundle.
  rewrite (safe_read_written (with_cache_file w _) _ eq_refl), Hread. cbn [rbind].
  unfold dict_get_or_None. rewrite dict_get_set_other; [reflexivity|].
  pose proof (cache_key_source_distinct location) as Hk.
  destruct source, other; congruence.
Qed.

Lemma write_leaves_other_source_alone_witness :
  get_stale_cached_bundle (R := ascii_runtime)
    (snd (set_cached_bundle sample_location_tr mwl sample_times (lit "06:21") JNull
            (sample_world (sample_instant 20 8 0) (sample_store stale_record))))
    sample_location_tr diyanet
  = get_stale_cached_bundle (R := ascii_runtime)
      (sample_world (sample_instant 20 8 0) (sample_store stale_record))
      sample_location_tr diyanet.
Proof.
  apply (write_leaves_other_source_alone (R := ascii_runtime)
           (sample_world (sample_instant 20 8 0) (sample_store stale_record)) _
           sample_location_tr mwl diyanet sample_times (lit "06:21") JNull).
  - discriminate.
  - vm_compute. reflexivity.
Defined.

(** A store whose reading raises anything but [OSError] or
    [JSONDecodeError] (text that is not UTF-8, JSON nested too deep, an
    integer too long) is not tolerated: both lookups raise that exception,
    and so does [fetch_prayer_bundle], before any request is made. *)
Theorem unreadable_store_raises {R : Runtime}
    (w : World) (location : Location) (source : PrayerSource) (e : exn) :
  is_OSError_or_JSONDecodeError e = false ->
  cache_file w = ReadFails e \/ cache_file w = Content (Raise e) ->
  get_stale_cached_bundle w location source = Raise e
  /\ get_fresh_cached_bundle w location source = Raise e
  /\ fetch_prayer_bundle location source w = (Raise e, w).
Proof.
  intros He Hfile.
  assert (Hread : _safe_read_cache w = Raise e).
  { unfold _safe_read_cache. destruct Hfile as [-> | ->]; now rewrite He. }
  assert (Hfresh : forall s, get_fresh_cached_bundle w location s = Raise e).
  { intros s. unfold get_fresh_cached_bundle. now rewrite Hread. }
  split; [|split].
  - unfold get_stale_cached_bundle. now rewrite Hread.
  - apply Hfresh.
  - unfold fetch_prayer_bundle, mbind, mread. now rewrite Hfresh.
Qed.

Lemma unreadable_store_raises_witness :
  fetch_prayer_bundle (R := ascii_runtime) sample_location_tr diyanet
    (sample_world (sample_instant 20 8 0) undecodable_store)
  = (Raise UnicodeDecodeError, sample_world (sample_instant 20 8 0) undecodable_store).
Proof.
  apply (unreadable_store_raises (R := ascii_runtime)
           (sample_world (sample_instant 20 8 0) undecodable_store)
           sample_location_tr diyanet UnicodeDecodeError).
  - reflexivity.
  - left. reflexivity.
Defined.

(** ** prayer_api.py: retries *)

Lemma get_with_retries_unrolled
    (url : pystr) (headers : list (pystr * pystr)) (error_message : pystr)
    (w : World) :
  _get_with_retries url headers error_message w
  = first_attempt {| req_url := url; req_headers := headers |} error_message w.
Proof.
  cbv [_get_with_retries _get_with_retries_from MAX_RETRIES seq Nat.add
       mbind http_get mret mraise Nat.ltb Nat.leb
       first_attempt second_attempt third_attempt].
  destruct (http w _ (http_count w)) as [| |r0];
    [reflexivity | | destruct (500 <=? status_code r0)];
    cbn [http http_count with_http_count andb]; try reflexivity;
    (destruct (http w _ (S (http_count w))) as [| |r1];
     [reflexivity | | destruct (500 <=? status_code r1)];
     cbn [http http_count with_http_count andb]; try reflexivity;
     (destruct (http w _ (S (S (http_count w)))) as [| |r2];
      cbn [http http_count with_http_count andb];
      rewrite ?andb_false_r; reflexivity)).
Qed.

Lemma with_http_count_same (w : World) : with_http_count w (http_count w) = w.
Proof. now destruct w. Qed.

(** [_get_with_retries] sends at most three requests and does nothing
    else. It hands back the answer of its last request, an answer with a
    status of 500 or more only from the third; it raises [PrayerApiError]
    with the caller's message only when the third request fails in
    transport; [httpx.InvalidURL], raised when the client rejects the URL,
    is neither retried nor wrapped; every request before the last one sent
    was a transport error or a 5xx answer. *)
Theorem get_with_retries_budget
    (url : pystr) (headers : list (pystr * pystr)) (error_message : pystr)
    (w w' : World) (result : result response) :
  _get_with_retries url headers error_message w = (result, w') ->
  exists n,
    (n <= 3)%nat
    /\ w' = with_http_count w (http_count w + n)
    /\ (forall k, (k < n - 1)%nat ->
          retried (http w {| req_url := url; req_headers := headers |}
                     (http_count w + k)) = true)
    /\ match result with
       | Ok r =>
           (1 <= n)%nat
           /\ http w {| req_url := url; req_headers := headers |}
                (http_count w + (n - 1)) = Answer r
           /\ (500 <= status_code r -> n = 3%nat)
       | Raise e =>
           (e = PrayerApiError error_message /\ n = 3%nat
            /\ http w {| req_url := url; req_headers := headers |}
                 (http_count w + 2) = TransportError)
           \/ (e = InvalidURL /\ (n <= 2)%nat
               /\ http w {| req_url := url; req_headers := headers |}
                    (http_count w + n) = Rejected
               /\ ((1 <= n)%nat ->
                   retried (http w {| req_url := url; req_headers := headers |}
                              (http_count w + (n - 1))) = true))
       end.
Proof.
  rewrite get_with_retries_unrolled.
  unfold first_attempt, second_attempt, third_attempt.
  set (req := {| req_url := url; req_headers := headers |}).
  assert (E0 : (http_count w + 0)%nat = http_count w) by lia.
  assert (E1 : (http_count w + 1)%nat = S (http_count w)) by lia.
  assert (E2 : (http_count w + 2)%nat = S (S (http_count w))) by lia.
  assert (E3 : (http_count w + 3)%nat = S (S (S (http_count w)))) by lia.
  assert (K1 : forall k, (k < 1)%nat -> k = 0%nat) by (intros; lia).
  assert (K2 : forall k, (k < 2)%nat -> k = 0%nat \/ k = 1%nat) by (intros; lia).
  destruct (http w req (http_count w)) as [| |r0] eqn:H0;
    [| |destruct (Z.leb_spec 500 (status_code r0)) as [S0|S0]];
    try (destruct (http w req (S (http_count w))) as [| |r1] eqn:H1;
         [| |destruct (Z.leb_spec 500 (status_code r1)) as [S1|S1]];
         try (destruct (http w req (S (S (http_count w)))) as [| |r2] eqn:H2));
    intros [= <- <-].
  all: first
    [ (* nothing sent *)
      exists 0%nat; split; [lia|]; split;
      [rewrite E0; symmetry; apply with_http_count_same|]; split;
      [intros k Hk; lia|];
      right; rewrite E0; repeat split; first [assumption | lia]
    | (* one request *)
      exists 1%nat; split; [lia|]; split; [now rewrite E1|]; split;
      [intros k Hk; lia|]; cbn [Nat.sub]; rewrite ?E0, ?E1;
      first [ split; [lia|]; split; [assumption | lia]
            | right; split; [reflexivity|]; split; [lia|]; split; [assumption|];
              intros _; rewrite H0; cbn [retried]; first [reflexivity | now apply Z.leb_le] ]
    | (* two requests *)
      exists 2%nat; split; [lia|]; split; [now rewrite E2|]; split;
      [intros k Hk; rewrite (K1 k Hk), E0, H0; cbn [retried];
       first [reflexivity | now apply Z.leb_le]|];
      cbn [Nat.sub]; rewrite ?E1, ?E2;
      first [ split; [lia|]; split; [assumption | lia]
            | right; split; [reflexivity|]; split; [lia|]; split; [assumption|];
              intros _; rewrite H1; cbn [retried]; first [reflexivity | now apply Z.leb_le] ]
    | (* three requests *)
      exists 3%nat; split; [lia|]; split; [now rewrite E3|]; split;
      [intros k Hk; destruct (K2 k Hk) as [-> | ->]; rewrite ?E0, ?E1;
       first [rewrite H0 | rewrite H1]; cbn [retried];
       first [reflexivity | now apply Z.leb_le]|];
      cbn [Nat.sub]; rewrite ?E2;
      first [ split; [lia|]; split; [assumption | reflexivity]
            | left; repeat split; assumption ] ].
Qed.

Lemma get_with_retries_budget_witness :
  exists n,
    (n <= 3)%nat
    /\ snd (_get_with_retries (lit "https://example.org") [] (lit "down")
              (world_answering TransportError NoFile))
       = with_http_count (world_answering TransportError NoFile) (0 + n).
Proof.
  destruct (get_with_retries_budget (lit "https://example.org") [] (lit "down")
              (world_answering TransportError NoFile)
              (snd (_get_with_retries (lit "https://example.org") [] (lit "down")
                      (world_answering TransportError NoFile)))
              (fst (_get_with_retries (lit "https://example.org") [] (lit "down")
                      (world_answering TransportError NoFile))))
    as (n & Hn & Hw & _).
  - vm_compute. reflexivity.
  - exists n. split; [exact Hn | exact Hw].
Defined.

(** ** prayer_api.py: what the provider path touches *)

Lemma same_but_requests_refl (w : World) : same_but_requests w w.
Proof. repeat split. Qed.

Lemma same_but_requests_trans (w1 w2 w3 : World) :
  same_but_requests w1 w2 -> same_but_requests w2 w3 -> same_but_requests w1 w3.
Proof.
  intros (A1 & A2 & A3 & A4 & A5 & A6 & A7) (B1 & B2 & B3 & B4 & B5 & B6 & B7).
  repeat split; congruence.
Qed.

Lemma only_requests_mret {A} (a : A) : only_requests (mret a).
Proof. intros w r w'. unfold mret. intros [= _ <-]. apply same_but_requests_refl. Qed.

Lemma only_requests_mraise {A} (e : exn) : only_requests (@mraise A e).
Proof. intros w r w'. unfold mraise. intros [= _ <-]. apply same_but_requests_refl. Qed.

Lemma only_requests_mlift {A} (r : result A) : only_requests (mlift r).
Proof. intros w r' w'. unfold mlift. intros [= _ <-]. apply same_but_requests_refl. Qed.

Lemma only_requests_mread {A} (f : World -> result A) : only_requests (mread f).
Proof. intros w r' w'. unfold mread. intros [= _ <-]. apply same_but_requests_refl. Qed.

Lemma only_requests_mbind {A B} (m : M A) (k : A -> M B) :
  only_requests m -> (forall a, only_requests (k a)) -> only_requests (mbind m k).
Proof.
  intros Hm Hk w r w' H.
  apply mbind_inv in H as [(a & w1 & H1 & H2) | (e & H1 & _)].
  - eapply same_but_requests_trans; [exact (Hm _ _ _ H1) | exact (Hk _ _ _ _ H2)].
  - exact (Hm _ _ _ H1).
Qed.

Lemma only_requests_get_with_retries
    (url : pystr) (headers : list (pystr * pystr)) (error_message : pystr) :
  only_requests (_get_with_retries url headers error_message).
Proof.
  intros w r w'. rewrite get_with_retries_unrolled.
  unfold first_attempt, second_attempt, third_attempt.
  repeat match goal with
         | |- context [match http w ?q ?n with _ => _ end] => destruct (http w q n)
         | |- context [500 <=? status_code ?x] => destruct (500 <=? status_code x)
         end;
    intros [= _ <-]; repeat split.
Qed.

Ltac only_requests_step :=
  first [ apply only_requests_mret | apply only_requests_mraise
        | apply only_requests_mlift | apply only_requests_mread
        | apply only_requests_get_with_retries
        | apply only_requests_mbind; [|intros ?]
        | match goal with
          | |- only_requests (if ?c then _ else _) => destruct c
          | |- only_requests (match ?x with _ => _ end) => destruct x
          | |- only_requests (let '(_, _) := ?x in _) => destruct x
          end ].

Lemma only_requests_fetch_from_diyanet (ilce_id : pystr) :
  only_requests (_fetch_from_diyanet ilce_id).
Proof. unfold _fetch_from_diyanet. cbv zeta. repeat only_requests_step. Qed.

Lemma only_requests_times_from_diyanet (ilce_id : pystr) :
  only_requests (_fetch_prayer_times_from_diyanet ilce_id).
Proof.
  unfold _fetch_prayer_times_from_diyanet.
  apply only_requests_mbind; [apply only_requests_fetch_from_diyanet | intros data].
  repeat only_requests_step.
Qed.

Lemma only_requests_tomorrow_from_diyanet (ilce_id : pystr) :
  only_requests (_fetch_tomorrow_fajr_from_diyanet ilce_id).
Proof.
  unfold _fetch_tomorrow_fajr_from_diyanet.
  apply only_requests_mbind; [apply only_requests_fetch_from_diyanet | intros data].
  repeat only_requests_step.
Qed.

Lemma only_requests_aladhan_timings {R : Runtime} (url error_message : pystr) :
  only_requests (aladhan_timings url error_message).
Proof. unfold aladhan_timings. repeat only_requests_step. Qed.

Lemma only_requests_times_from_aladhan {R : Runtime} (location : Location) :
  only_requests (_fetch_prayer_times_from_aladhan location).
Proof.
  unfold _fetch_prayer_times_from_aladhan.
  apply only_requests_mbind; [apply only_requests_mread | intros timestamp].
  apply only_requests_mbind; [apply only_requests_mlift | intros url].
  apply only_requests_mbind; [apply only_requests_aladhan_timings | intros [data timings]].
  repeat only_requests_step.
Qed.

Lemma only_requests_tomorrow_from_aladhan {R : Runtime} (location : Location) :
  only_requests (_fetch_tomorrow_fajr_from_aladhan location).
Proof.
  unfold _fetch_tomorrow_fajr_from_aladhan.
  apply only_requests_mbind; [apply only_requests_mread | intros tomorrow].
  apply only_requests_mbind; [apply only_requests_mread | intros timestamp].
  apply only_requests_mbind; [apply only_requests_mlift | intros url].
  apply only_requests_mbind; [apply only_requests_aladhan_timings | intros [data timings]].
  repeat only_requests_step.
Qed.

Lemma date_string_for_zone_ext
    (w1 w2 : World) (time_zone : json) (source : PrayerSource) :
  same_but_requests w1 w2 ->
  _date_string_for_zone w2 time_zone source = _date_string_for_zone w1 time_zone source.
Proof.
  intros (Hz & He & Hl & _). unfold _date_string_for_zone, datetime_now_zone.
  now rewrite Hz, He, Hl.
Qed.

(** What a successful provider path did: two fetches that only made
    requests, then one write of what they returned. *)
Lemma fetch_from_provider_Ok_inv {R : Runtime}
    (w w' : World) (location : Location) (source resolved : PrayerSource)
    (fetched : PrayerFetchResult) :
  fetch_from_provider location source resolved w = (Ok fetched, w') ->
  exists wx,
    same_but_requests w wx
    /\ set_cached_bundle location resolved (fr_times fetched)
         (fr_tomorrow_fajr fetched) (fr_time_zone fetched) wx = (Ok tt, w')
    /\ requested_source fetched = source
    /\ resolved_source fetched = resolved
    /\ all_fields hhmm_shape (fr_times fetched) = true
    /\ hhmm_shape (fr_tomorrow_fajr fetched) = true
    /\ (resolved = diyanet -> fr_time_zone fetched = JStr DIYANET_TIME_ZONE).
Proof.
  unfold fetch_from_provider. intros H.
  destruct resolved; cbn [source_eqb] in H.
  - apply mbind_Ok_inv in H as (ilce_id & w0 & Hid & H).
    apply mlift_Ok_inv in Hid as [_ ->].
    destruct (negb (opt_str_truthy ilce_id)); [discriminate|].
    apply mbind_Ok_inv in H as (times & wa & Ha & H).
    apply mbind_Ok_inv in H as (tf & wb & Hb & H).
    apply mbind_Ok_inv in H as ([] & wc & Hc & H).
    unfold mret in H. injection H as <- <-.
    exists wb. cbn [fr_times fr_tomorrow_fajr fr_time_zone requested_source
                    resolved_source].
    split; [|split; [exact Hc|repeat split]].
    + eapply same_but_requests_trans;
        [eapply only_requests_times_from_diyanet | eapply only_requests_tomorrow_from_diyanet];
        eassumption.
    + unfold _fetch_prayer_times_from_diyanet in Ha.
      apply mbind_Ok_inv in Ha as (data & w1 & _ & Ha).
      apply mbind_Ok_inv in Ha as (today & w2 & _ & Ha).
      apply mbind_Ok_inv in Ha as (found & w3 & _ & Ha).
      destruct (dict_falsy found); [discriminate|].
      apply mlift_Ok_inv in Ha as [Ha _].
      eapply prayer_times_of_shape; exact Ha.
    + unfold _fetch_tomorrow_fajr_from_diyanet in Hb.
      apply mbind_Ok_inv in Hb as (data & w1 & _ & Hb).
      apply mbind_Ok_inv in Hb as (today & w2 & _ & Hb).
      apply mbind_Ok_inv in Hb as (tomorrow & w3 & _ & Hb).
      apply mbind_Ok_inv in Hb as (found & w4 & _ & Hb).
      destruct (dict_falsy found); [discriminate|].
      apply mlift_Ok_inv in Hb as [Hb _].
      eapply require_time_field_shape; exact Hb.
  - apply mbind_Ok_inv in H as ([times tz] & wa & Ha & H).
    apply mbind_Ok_inv in H as (tf & wb & Hb & H).
    apply mbind_Ok_inv in H as ([] & wc & Hc & H).
    unfold mret in H. injection H as <- <-.
    exists wb. cbn [fr_times fr_tomorrow_fajr fr_time_zone requested_source
                    resolved_source].
    split; [|split; [exact Hc|repeat split]].
    + eapply same_but_requests_trans;
        [eapply only_requests_times_from_aladhan | eapply only_requests_tomorrow_from_aladhan];
        eassumption.
    + unfold _fetch_prayer_times_from_aladhan in Ha.
      apply mbind_Ok_inv in Ha as (timestamp & w0 & _ & Ha).
      apply mbind_Ok_inv in Ha as (url & w0' & _ & Ha).
      apply mbind_Ok_inv in Ha as ([data timings] & w1 & _ & Ha).
      apply mbind_Ok_inv in Ha as (t & w2 & Ht & Ha).
      apply mbind_Ok_inv in Ha as (meta & w3 & _ & Ha).
      apply mbind_Ok_inv in Ha as (tz' & w4 & _ & Ha).
      unfold mret in Ha. injection Ha as <- _ _.
      apply mlift_Ok_inv in Ht as [Ht _].
      eapply prayer_times_of_shape; exact Ht.
    + unfold _fetch_tomorrow_fajr_from_aladhan in Hb.
      apply mbind_Ok_inv in Hb as (tomorrow & w0 & _ & Hb).
      apply mbind_Ok_inv in Hb as (timestamp & w0' & _ & Hb).
      apply mbind_Ok_inv in Hb as (url & w0'' & _ & Hb).
      apply mbind_Ok_inv in Hb as ([data timings] & w1 & _ & Hb).
      apply mlift_Ok_inv in Hb as [Hb _].
      eapply require_time_field_shape; exact Hb.
    + discriminate.
Qed.

(** ** prayer_api.py: the orchestrator's results *)

(** Every result [fetch_prayer_bundle] returns, from the fresh cache, the
    provider or the stale cache, names the source that was requested and
    the source [resolve_prayer_source] gives; for a location outside
    Türkiye that is always "mwl". *)
Theorem fetch_result_names_sources {R : Runtime}
    (w w' : World) (location : Location) (source : PrayerSource)
    (fetched : PrayerFetchResult) :
  fetch_prayer_bundle location source w = (Ok fetched, w') ->
  requested_source fetched = source
  /\ resolved_source fetched = resolve_prayer_source location source
  /\ (is_turkiye_location location = false -> resolved_source fetched = mwl).
Proof.
  intros H.
  assert (Hres : requested_source fetched = source
                 /\ resolved_source fetched = resolve_prayer_source location source).
  { unfold fetch_prayer_bundle in H.
    apply mbind_Ok_inv in H as (fresh & w1 & Hf & H).
    apply mread_inv in Hf as [_ ->].
    destruct fresh as [b|].
    - unfold mret in H. injection H as <- _. split; reflexivity.
    - unfold try_except_PrayerApiError in H.
      destruct (fetch_from_provider location source
                  (resolve_prayer_source location source) w) as [[got|e] w2] eqn:Hp.
      + injection H as <- _.
        apply fetch_from_provider_Ok_inv in Hp as (_ & _ & _ & H1 & H2 & _).
        split; assumption.
      + destruct e; try discriminate.
        apply mbind_Ok_inv in H as (stale & w3 & _ & H).
        destruct stale as [b|]; [|discriminate].
        unfold mret in H. injection H as <- _. split; reflexivity. }
  destruct Hres as [H1 H2]. repeat split; try assumption.
  intros Hnot. rewrite H2. unfold resolve_prayer_source. now rewrite Hnot.
Qed.

Lemma fetch_result_names_sources_witness :
  requested_source
    {| fr_times := times_all (lit "05:07"); fr_tomorrow_fajr := lit "05:07";
       fr_time_zone := JNull; requested_source := diyanet; resolved_source := mwl |}
  = diyanet
  /\ resolved_source
       {| fr_times := times_all (lit "05:07"); fr_tomorrow_fajr := lit "05:07";
          fr_time_zone := JNull; requested_source := diyanet; resolved_source := mwl |}
     = mwl.
Proof.
  destruct (fetch_result_names_sources (R := ascii_runtime)
              (world_answering (aladhan_answer (lit "5:07 (+03)")) NoFile)
              (snd (fetch_prayer_bundle (R := ascii_runtime) sample_location_us diyanet
                      (world_answering (aladhan_answer (lit "5:07 (+03)")) NoFile)))
              sample_location_us diyanet
              {| fr_times := times_all (lit "05:07"); fr_tomorrow_fajr := lit "05:07";
                 fr_time_zone := JNull; requested_source := diyanet;
                 resolved_source := mwl |})
    as (H1 & _ & H3).
  - vm_compute. reflexivity.
  - split; [exact H1 | apply H3; vm_compute; reflexivity].
Defined.

(** After a fetch that went to the provider and succeeded, a second
    fetch on the same day makes no request and changes nothing: it returns
    the same result from the cache. *)
Theorem second_fetch_served_from_cache {R : Runtime}
    (w w' w2 : World) (location : Location) (source : PrayerSource)
    (fetched : PrayerFetchResult) :
  fetch_from_provider location source (resolve_prayer_source location source) w
  = (Ok fetched, w') ->
  cache_file w2 = cache_file w' ->
  _date_string_for_zone w2 (fr_time_zone fetched)
    (resolve_prayer_source location source)
  = _date_string_for_zone w (fr_time_zone fetched)
      (resolve_prayer_source location source) ->
  fetch_prayer_bundle location source w2 = (Ok fetched, w2).
Proof.
  intros Hp Hfile Hdate.
  apply fetch_from_provider_Ok_inv in Hp as (wx & Hsame & Hset & H1 & H2 & _).
  apply set_cached_bundle_inv in Hset as (data & date & _ & Hd & ->).
  cbn [with_cache_file cache_file] in Hfile.
  rewrite (date_string_for_zone_ext _ _ _ _ Hsame) in Hd.
  unfold fetch_prayer_bundle, mbind, mread, get_fresh_cached_bundle.
  rewrite (safe_read_written _ _ Hfile). cbn [rbind].
  unfold dict_get_or_None. rewrite dict_get_set_same, parse_cache_record.
  cbn [cb_time_zone cb_date]. rewrite Hdate, Hd. cbn [rbind].
  rewrite str_eqb_refl. unfold mret, result_of_bundle.
  cbn [cb_times cb_tomorrow_fajr cb_time_zone].
  destruct fetched. cbn in *. now subst.
Qed.

Lemma second_fetch_served_from_cache_witness :
  fetch_prayer_bundle (R := ascii_runtime) sample_location_us mwl
    (snd (fetch_prayer_bundle (R := ascii_runtime) sample_location_us mwl
            (world_answering (aladhan_answer (lit "5:07 (+03)")) NoFile)))
  = (Ok {| fr_times := times_all (lit "05:07"); fr_tomorrow_fajr := lit "05:07";
           fr_time_zone := JNull; requested_source := mwl;
           resolved_source := mwl |},
     snd (fetch_prayer_bundle (R := ascii_runtime) sample_location_us mwl
            (world_answering (aladhan_answer (lit "5:07 (+03)")) NoFile))).
Proof.
  apply (second_fetch_served_from_cache (R := ascii_runtime)
           (world_answering (aladhan_answer (lit "5:07 (+03)")) NoFile)
           (snd (fetch_prayer_bundle (R := ascii_runtime) sample_location_us mwl
                   (world_answering (aladhan_answer (lit "5:07 (+03)")) NoFile))));
    vm_compute; reflexivity.
Defined.

Lemma retries_exhausted
    (url : pystr) (headers : list (pystr * pystr)) (error_message : pystr)
    (w : World) :
  (forall k, (k < 3)%nat ->
     retried (http w {| req_url := url; req_headers := headers |}
                (http_count w + k)) = true) ->
  _get_with_retries url headers error_message w
  = (Raise (PrayerApiError error_message), with_http_count w (http_count w + 3))
  \/ exists r,
       _get_with_retries url headers error_message w
       = (Ok r, with_http_count w (http_count w + 3))
       /\ 500 <= status_code r.
Proof.
  intros Hall.
  pose proof (Hall 0%nat ltac:(lia)) as H0.
  pose proof (Hall 1%nat ltac:(lia)) as H1.
  pose proof (Hall 2%nat ltac:(lia)) as H2.
  replace (http_count w + 0)%nat with (http_count w) in H0 by lia.
  replace (http_count w + 1)%nat with (S (http_count w)) in H1 by lia.
  replace (http_count w + 2)%nat with (S (S (http_count w))) in H2 by lia.
  replace (http_count w + 3)%nat with (S (S (S (http_count w)))) by lia.
  rewrite get_with_retries_unrolled.
  unfold first_attempt, second_attempt, third_attempt.
  destruct (http w _ (http_count w)) as [| |r0]; cbn [retried] in H0;
    [discriminate | |rewrite H0];
    (destruct (http w _ (S (http_count w))) as [| |r1]; cbn [retried] in H1;
     [discriminate | |rewrite H1];
     (destruct (http w _ (S (S (http_count w)))) as [| |r2]; cbn [retried] in H2;
      [ discriminate
      | left; reflexivity
      | right; exists r2; split; [reflexivity | now apply Z.leb_le]])).
Qed.

(** When every request fails in transport or is answered with a 5xx
    status, the provider path gives up after exactly three requests, all
    spent on the fetch of today's times, and raises that fetch's
    [PrayerApiError]: the Diyanet path when a district id is found, the
    AlAdhan path when its timestamp and URL are built. The Diyanet path
    without a district id raises without a request. *)
Theorem provider_gives_up_after_three_requests {R : Runtime}
    (w : World) (location : Location) (source : PrayerSource) :
  (forall req k, (k < 3)%nat -> retried (http w req (http_count w + k)) = true) ->
  (forall ilce_id,
     get_diyanet_ilce_id location = Ok ilce_id ->
     (opt_str_truthy ilce_id = false ->
      fetch_from_provider location source diyanet w
      = (Raise (PrayerApiError (lit "Failed to resolve Diyanet location")), w))
     /\ (opt_str_truthy ilce_id = true ->
         fetch_from_provider location source diyanet w
         = (Raise (PrayerApiError (lit "Failed to fetch prayer times from Diyanet")),
            with_http_count w (http_count w + 3))))
  /\ (forall timestamp url,
        datetime_timestamp w (local_now w) = Ok timestamp ->
        _aladhan_timings_url timestamp location = Ok url ->
        fetch_from_provider location source mwl w
        = (Raise (PrayerApiError (lit "Failed to fetch prayer times")),
           with_http_count w (http_count w + 3))).
Proof.
  intros Hall. split.
  - intros ilce_id Hid.
    split; intros Htruthy; unfold fetch_from_provider; cbn [source_eqb];
      unfold mbind at 1, mlift at 1; rewrite Hid; cbv beta iota;
      rewrite Htruthy; cbn [negb].
    + reflexivity.
    + unfold _fetch_prayer_times_from_diyanet, _fetch_from_diyanet, mbind at 1 2 3.
      cbv zeta.
      match goal with
      | |- context [_get_with_retries ?u ?h ?m w] =>
          destruct (retries_exhausted u h m w (Hall _)) as [-> | (r & -> & Hr)]
      end; [reflexivity|].
      replace (400 <=? status_code r) with true by (symmetry; apply Z.leb_le; lia).
      reflexivity.
  - intros timestamp url Hts Hurl. unfold fetch_from_provider. cbn [source_eqb].
    unfold _fetch_prayer_times_from_aladhan, mbind at 1 2 3, mread at 1, mlift at 1.
    rewrite Hts, Hurl. unfold aladhan_timings, mbind at 1 2.
    match goal with
    | |- context [_get_with_retries ?u ?h ?m w] =>
        destruct (retries_exhausted u h m w (Hall _)) as [-> | (r & -> & Hr)]
    end; [reflexivity|].
    replace (400 <=? status_code r) with true by (symmetry; apply Z.leb_le; lia).
    reflexivity.
Qed.

Lemma provider_gives_up_after_three_requests_witness :
  fetch_from_provider (R := ascii_runtime) sample_location_tr diyanet diyanet
    (world_answering TransportError NoFile)
  = (Raise (PrayerApiError (lit "Failed to fetch prayer times from Diyanet")),
     with_http_count (world_answering TransportError NoFile) (0 + 3)).
Proof.
  refine (proj2 (proj1 (provider_gives_up_after_three_requests (R := ascii_runtime)
                          (world_answering TransportError NoFile)
                          sample_location_tr diyanet _)
                   (Some (lit "9541")) _) _).
  - intros req k _. reflexivity.
  - reflexivity.
  - reflexivity.
Defined.

(** An AlAdhan answer below status 400 whose body is JSON but not an
    object raises [AttributeError], which the orchestrator does not catch:
    [fetch_prayer_bundle] raises it after that one request, whether or not
    a stale entry exists. *)
Theorem non_object_payload_escapes_fallback {R : Runtime}
    (w : World) (location : Location) (source : PrayerSource)
    (timestamp : Z) (url : pystr) (r : response) (v : json) :
  resolve_prayer_source location source = mwl ->
  get_fresh_cached_bundle w location mwl = Ok None ->
  datetime_timestamp w (local_now w) = Ok timestamp ->
  _aladhan_timings_url timestamp location = Ok url ->
  http w {| req_url := url; req_headers := ALADHAN_HEADERS |} (http_count w)
  = Answer r ->
  status_code r < 400 ->
  body r = Ok v ->
  (forall d, v <> JDict d) ->
  fetch_prayer_bundle location source w
  = (Raise AttributeError, with_http_count w (S (http_count w))).
Proof.
  intros Hres Hfresh Hts Hurl Hhttp Hstatus Hbody Hv.
  assert (Hget : _get_with_retries url ALADHAN_HEADERS
                   (lit "Failed to fetch prayer times") w
                 = (Ok r, with_http_count w (S (http_count w)))).
  { rewrite get_with_retries_unrolled. unfold first_attempt. rewrite Hhttp.
    now replace (500 <=? status_code r) with false by (symmetry; apply Z.leb_gt; lia). }
  assert (Hattr : py_get v (lit "data") (JDict []) = Raise AttributeError).
  { destruct v; try reflexivity. now elim (Hv d). }
  unfold fetch_prayer_bundle. rewrite Hres.
  unfold mbind at 1, mread at 1. rewrite Hfresh.
  unfold try_except_PrayerApiError, fetch_from_provider. cbn [source_eqb].
  unfold _fetch_prayer_times_from_aladhan, mbind at 1 2 3, mread at 1, mlift at 1.
  rewrite Hts, Hurl. unfold aladhan_timings, mbind at 1 2.
  rewrite Hget.
  replace (400 <=? status_code r) with false by (symmetry; apply Z.leb_gt; lia).
  rewrite Hbody. unfold mbind, mlift. rewrite Hattr. reflexivity.
Qed.

Lemma non_object_payload_escapes_fallback_witness :
  fetch_prayer_bundle (R := ascii_runtime) sample_location_us mwl
    (world_answering array_answer NoFile)
  = (Raise AttributeError,
     with_http_count (world_answering array_answer NoFile) 1).
Proof.
  eapply (non_object_payload_escapes_fallback (R := ascii_runtime)
            (world_answering array_answer NoFile) sample_location_us mwl
            _ _ {| status_code := 200; body := Ok (JList []) |} (JList []));
    try reflexivity.
  discriminate.
Defined.

(** ** prayer_logic.py and output.py: the clock and its table *)

Lemma current_prayer_info_shape
    (w : World) (times : PrayerTimes) (tomorrow_fajr : option pystr)
    (time_zone : json) (now : datetime) :
  get_time_zone_now w time_zone = Ok now ->
  all_fields canonical_hhmm times = true ->
  tomorrow_fajr_ok tomorrow_fajr ->
  ordinal now < MAXORDINAL ->
  exists info,
    get_current_prayer_info w times tomorrow_fajr time_zone = Ok info
    /\ info_shape times tomorrow_fajr now info.
Proof.
  intros Hnow Hall Htf Hord.
  pose proof (all_fields_inv _ _ Hall) as Hc.
  destruct (time_string_canonical _ now (Hc Fajr)) as (d0 & E0 & W0).
  destruct (time_string_canonical _ now (Hc Sunrise)) as (d1 & E1 & W1).
  destruct (time_string_canonical _ now (Hc Dhuhr)) as (d2 & E2 & W2).
  destruct (time_string_canonical _ now (Hc Asr)) as (d3 & E3 & W3).
  destruct (time_string_canonical _ now (Hc Maghrib)) as (d4 & E4 & W4).
  destruct (time_string_canonical _ now (Hc Isha)) as (d5 & E5 & W5).
  cbn [pt_get] in E0, E1, E2, E3, E4, E5, W0, W1, W2, W3, W4, W5.
  assert (Htom : exists tomorrow, plus_one_day now = Ok tomorrow).
  { unfold plus_one_day.
    replace (ordinal now <? MAXORDINAL) with true by (symmetry; apply Z.ltb_lt; lia).
    eauto. }
  destruct Htom as [tomorrow Etom].
  assert (Hnt : exists nt,
    (if opt_str_truthy tomorrow_fajr
     then match tomorrow_fajr with Some t => t | None => [] end
     else pt_Fajr times) = nt
    /\ nt = match tomorrow_fajr with Some t => t | None => pt_Fajr times end
    /\ canonical_hhmm nt = true).
  { destruct tomorrow_fajr as [t|]; cbn [tomorrow_fajr_ok] in Htf.
    - rewrite (canonical_nonempty t Htf). eauto.
    - cbn [opt_str_truthy]. exists (pt_Fajr times).
      repeat split. exact (Hc Fajr). }
  destruct Hnt as (nt & Ent & Hnt & Cnt).
  destruct (time_string_canonical nt tomorrow Cnt) as (dtf & Edtf & _).
  unfold get_current_prayer_info. rewrite Hnow. cbn [rbind].
  unfold get_prayer_times_array.
  cbn [get_prayer_times_array_of PRAYER_NAMES pt_get].
  rewrite E0, E1, E2, E3, E4, E5.
  cbn -[datetime_geb datetime_sub timedelta_ms time_string_to_datetime plus_one_day
        Z.max opt_str_truthy].
  rewrite Etom. cbn [rbind]. rewrite Ent, Edtf. cbn [rbind].
  assert (Hlater : forall n (P : PrayerName -> Prop),
            (forall m, (prayer_index n < prayer_index m)%nat -> P m) <->
            (forall m, (prayer_index n <? prayer_index m)%nat = true -> P m)).
  { intros n P. split; intros H m Hm; apply H; now apply Nat.ltb_lt. }
  destruct (datetime_geb now d5) eqn:G5;
    [|destruct (datetime_geb now d4) eqn:G4;
      [|destruct (datetime_geb now d3) eqn:G3;
        [|destruct (datetime_geb now d2) eqn:G2;
          [|destruct (datetime_geb now d1) eqn:G1;
            [|destruct (datetime_geb now d0) eqn:G0]]]]];
    repeat match goal with
           | G : datetime_geb _ _ = true |- _ => apply datetime_geb_le in G
           | G : datetime_geb _ _ = false |- _ => apply datetime_geb_gt in G
           end;
    rewrite ?W0, ?W1, ?W2, ?W3, ?W4, ?W5 in *;
    (eexists; split; [reflexivity|]); unfold info_shape;
    cbn [current_prayer next_prayer next_prayer_time time_until_next_ms is_after_isha
         lv_current lv_next lv_next_time lv_until lv_after_isha].
  - right. left. repeat split; first [assumption | reflexivity].
  - left. exists Maghrib, Isha. repeat split; try assumption.
    intros m Hm. destruct m; cbn [prayer_index pt_get] in *; first [lia | assumption].
  - left. exists Asr, Maghrib. repeat split; try assumption.
    intros m Hm. destruct m; cbn [prayer_index pt_get] in *; first [lia | assumption].
  - left. exists Dhuhr, Asr. repeat split; try assumption.
    intros m Hm. destruct m; cbn [prayer_index pt_get] in *; first [lia | assumption].
  - left. exists Sunrise, Dhuhr. repeat split; try assumption.
    intros m Hm. destruct m; cbn [prayer_index pt_get] in *; first [lia | assumption].
  - left. exists Fajr, Sunrise. repeat split; try assumption.
    intros m Hm. destruct m; cbn [prayer_index pt_get] in *; first [lia | assumption].
  - right. right. repeat split; try reflexivity.
    intros m. destruct m; cbn [pt_get]; assumption.
Qed.

(** While a prayer other than Isha is the last one begun, the next
    prayer reported is its immediate successor in the fixed order, with
    that prayer's own time string, and [is_after_isha] is not set. *)
Theorem next_prayer_is_successor
    (w : World) (times : PrayerTimes) (tomorrow_fajr : option pystr)
    (time_zone : json) (now : datetime) (n n' : PrayerName) :
  get_time_zone_now w time_zone = Ok now ->
  all_fields canonical_hhmm times = true ->
  tomorrow_fajr_ok tomorrow_fajr ->
  ordinal now < MAXORDINAL ->
  successor n = Some n' ->
  today_at now (pt_get times n) <= wall_us now ->
  (forall m, (prayer_index n < prayer_index m)%nat ->
             wall_us now < today_at now (pt_get times m)) ->
  exists info,
    get_current_prayer_info w times tomorrow_fajr time_zone = Ok info
    /\ current_prayer info = Some n
    /\ next_prayer info = n'
    /\ next_prayer_time info = pt_get times n'
    /\ is_after_isha info = false.
Proof.
  intros Hnow Hall Htf Hord Hsucc Hbegun Hlater.
  destruct (current_prayer_info_shape w times tomorrow_fajr time_zone now
              Hnow Hall Htf Hord) as (info & Hrun & Hshape).
  exists info. split; [exact Hrun|].
  assert (Hisha : wall_us now < today_at now (pt_Isha times)).
  { destruct n; try discriminate; apply (Hlater Isha); cbn; lia. }
  destruct Hshape as [(k & k' & Hk & Hkb & Hkl & H1 & H2 & H3 & H4)
                     | [(HI & _) | (Hnone & _)]].
  - assert (k = n).
    { destruct (Nat.lt_trichotomy (prayer_index k) (prayer_index n))
        as [Hlt | [Heq | Hgt]].
      - specialize (Hkl n Hlt). lia.
      - destruct k, n; cbn in Heq; congruence.
      - specialize (Hlater k Hgt). lia. }
    subst k. rewrite Hsucc in Hk. injection Hk as ->. repeat split; assumption.
  - lia.
  - specialize (Hnone n). lia.
Qed.

Lemma next_prayer_is_successor_witness :
  exists info,
    get_current_prayer_info (sample_world (sample_instant 13 23 1) NoFile)
      sample_times None JNull = Ok info
    /\ current_prayer info = Some Dhuhr
    /\ next_prayer info = Asr
    /\ next_prayer_time info = pt_get sample_times Asr
    /\ is_after_isha info = false.
Proof.
  refine (next_prayer_is_successor (sample_world (sample_instant 13 23 1) NoFile)
            sample_times None JNull (sample_instant 13 23 1) Dhuhr Asr
            _ _ _ _ _ _ _).
  - vm_compute. reflexivity.
  - vm_compute. reflexivity.
  - vm_compute. reflexivity.
  - vm_compute. reflexivity.
  - vm_compute. reflexivity.
  - vm_compute. discriminate.
  - intros m Hm. destruct m; cbn [prayer_index] in Hm; try lia;
      vm_compute; reflexivity.
Defined.

(** In the prayer table drawn at the instant the info was computed, the
    row of the next prayer is the one styled "bold green", and no other
    row is. *)
Theorem next_prayer_row_is_highlighted
    (w : World) (times : PrayerTimes) (tomorrow_fajr : option pystr)
    (time_zone : json) (now : datetime) (info : CurrentPrayerInfo) :
  get_time_zone_now w time_zone = Ok now ->
  all_fields canonical_hhmm times = true ->
  tomorrow_fajr_ok tomorrow_fajr ->
  ordinal now < MAXORDINAL ->
  get_current_prayer_info w times tomorrow_fajr time_zone = Ok info ->
  forall name,
    _row_style name (pt_get times name) now info = Ok (Some (lit "bold green"))
    <-> name = next_prayer info.
Proof.
  intros Hnow Hall Htf Hord Hrun name.
  destruct (current_prayer_info_shape w times tomorrow_fajr time_zone now
              Hnow Hall Htf Hord) as (info' & Hrun' & Hshape).
  rewrite Hrun in Hrun'. injection Hrun' as <-.
  pose proof (all_fields_inv _ _ Hall) as Hc.
  destruct (time_string_canonical _ now (Hc name)) as (dt & Edt & Wdt).
  unfold _row_style. rewrite Edt. cbn [rbind].
  unfold datetime_geb, datetime_ltb. rewrite Wdt.
  assert (Hname : forall a b, name_eqb a b = true <-> a = b).
  { intros a b. unfold name_eqb. rewrite Nat.eqb_eq.
    split; [|now intros ->]. destruct a, b; cbn; congruence. }
  destruct (name_eqb name (next_prayer info)) eqn:En.
  - apply Hname in En. split; [intros _; exact En | intros _].
    subst name. cbn [andb].
    destruct Hshape as [(k & k' & Hk & Hkb & Hkl & H1 & H2 & H3 & H4)
                       | [(HI & H1 & H2 & H3 & H4) | (Hnone & H1 & H2 & H3 & H4)]].
    + rewrite H2, H4. cbn [andb orb].
      assert (Hlt : wall_us now < today_at now (pt_get times k')).
      { apply Hkl. destruct k; try discriminate; injection Hk as <-; cbn; lia. }
      replace (wall_us now <=? today_at now (pt_get times k')) with true
        by (symmetry; apply Z.leb_le; lia).
      reflexivity.
    + rewrite H2, H4. cbn [name_eqb prayer_index Nat.eqb andb]. now rewrite orb_true_r.
    + rewrite H2. specialize (Hnone Fajr).
      replace (wall_us now <=? today_at now (pt_get times Fajr)) with true
        by (symmetry; apply Z.leb_le; lia).
      reflexivity.
  - cbn [andb]. split.
    + destruct (_ && _); discriminate.
    + intros ->. assert (name_eqb (next_prayer info) (next_prayer info) = true)
        by now apply Hname.
      congruence.
Qed.

Lemma next_prayer_row_is_highlighted_witness :
  _row_style Fajr (pt_get sample_times Fajr) (sample_instant 20 8 0)
    {| current_prayer := Some Isha; next_prayer := Fajr;
       next_prayer_time := lit "06:21"; time_until_next_ms := 36780000;
       is_after_isha := true |}
  = Ok (Some (lit "bold green")).
Proof.
  refine (proj2 (next_prayer_row_is_highlighted
                   (sample_world (sample_instant 20 8 0) NoFile) sample_times
                   (Some (lit "06:21")) (JStr DIYANET_TIME_ZONE)
                   (sample_instant 20 8 0)
                   {| current_prayer := Some Isha; next_prayer := Fajr;
                      next_prayer_time := lit "06:21";
                      time_until_next_ms := 36780000; is_after_isha := true |}
                   _ _ _ _ _ Fajr) _);
    vm_compute; reflexivity.
Defined.

Lemma time_string_out_of_range (s : pystr) (base : datetime) :
  hhmm_shape s = true -> canonical_hhmm s = false ->
  time_string_to_datetime s base = Raise ValueError.
Proof.
  intros Hshape Hcanon. unfold canonical_hhmm in Hcanon.
  destruct s as [|a [|b [|c [|d [|e [|x s']]]]]]; try discriminate.
  rewrite Hshape in Hcanon. cbn [andb] in Hcanon.
  unfold hhmm_shape in Hshape.
  apply andb_prop in Hshape as [H He]. apply andb_prop in H as [H Hd].
  apply andb_prop in H as [H Hc]. apply andb_prop in H as [Ha Hb].
  apply Z.eqb_eq in Hc. subst c.
  destruct (ascii_digit_value a Ha) as [Da Va].
  destruct (ascii_digit_value b Hb) as [Db Vb].
  destruct (ascii_digit_value d Hd) as [Dd Vd].
  destruct (ascii_digit_value e He) as [De Ve].
  unfold time_string_to_datetime. cbn [py_split].
  rewrite (digit_neq a COLON colon_not_digit Da), (digit_neq b COLON colon_not_digit Db),
    (digit_neq d COLON colon_not_digit Dd), (digit_neq e COLON colon_not_digit De).
  rewrite Z.eqb_refl. cbn [firstn].
  assert (Hlen : forall x y : char, (length [x; y] <= int_max_str_digits)%nat)
    by (intros; apply Nat.leb_le; reflexivity).
  rewrite (py_int_digits [a; b]), (py_int_digits [d; e]);
    first [apply Hlen | discriminate | repeat constructor; assumption | idtac].
  cbn [rbind]. rewrite (digits_value_2 _ _ _ _ Va Vb), (digits_value_2 _ _ _ _ Vd Ve).
  unfold ascii_digit in Ha, Hb, Hd, He. unfold ZERO in *.
  apply andb_prop in Ha as [Ha1 Ha2]. apply andb_prop in Hb as [Hb1 Hb2].
  apply andb_prop in Hd as [Hd1 Hd2]. apply andb_prop in He as [He1 He2].
  apply Z.leb_le in Ha1, Ha2, Hb1, Hb2, Hd1, Hd2, He1, He2.
  assert (Hrange : 10 * (a - 48) + (b - 48) > 23 \/ 10 * (d - 48) + (e - 48) > 59).
  { apply andb_false_iff in Hcanon as [Hh | Hm]; apply Z.leb_gt in Hh || apply Z.leb_gt in Hm; lia. }
  unfold replace_time, fits_c_int.
  repeat match goal with
         | |- context [?x <=? ?y] => destruct (Z.leb_spec x y)
         end; cbn [andb negb]; first [reflexivity | lia].
Qed.

Lemma prayer_times_array_out_of_range
    (names : list PrayerName) (times : PrayerTimes) (base : datetime) :
  (forall n, hhmm_shape (pt_get times n) = true) ->
  forallb (fun n => canonical_hhmm (pt_get times n)) names = false ->
  get_prayer_times_array_of names times base = Raise ValueError.
Proof.
  intros Hshape. induction names as [|n rest IH]; [discriminate|].
  cbn [forallb get_prayer_times_array_of].
  destruct (canonical_hhmm (pt_get times n)) eqn:Hc; cbn [andb].
  - intros Hrest. destruct (time_string_canonical _ base Hc) as (dt & -> & _).
    cbn [rbind]. now rewrite (IH Hrest).
  - intros _. now rewrite (time_string_out_of_range _ base (Hshape n) Hc).
Qed.

(** Times that have the shape DD:DD, which is all the adapters check, but
    an hour above 23 or a minute above 59 make the prayer clock raise
    [ValueError]. *)
Theorem out_of_range_time_stops_the_clock
    (w : World) (times : PrayerTimes) (tomorrow_fajr : option pystr)
    (time_zone : json) (now : datetime) :
  get_time_zone_now w time_zone = Ok now ->
  all_fields hhmm_shape times = true ->
  all_fields canonical_hhmm times = false ->
  get_current_prayer_info w times tomorrow_fajr time_zone = Raise ValueError.
Proof.
  intros Hnow Hshape Hcanon. unfold get_current_prayer_info.
  rewrite Hnow. cbn [rbind]. unfold get_prayer_times_array.
  rewrite (prayer_times_array_out_of_range _ _ _ (all_fields_inv _ _ Hshape) Hcanon).
  reflexivity.
Qed.

Lemma out_of_range_time_stops_the_clock_witness :
  get_current_prayer_info (sample_world (sample_instant 12 0 0) NoFile)
    (times_all (lit "99:99")) None JNull = Raise ValueError.
Proof.
  apply (out_of_range_time_stops_the_clock
           (sample_world (sample_instant 12 0 0) NoFile) (times_all (lit "99:99"))
           None JNull (sample_instant 12 0 0));
    vm_compute; reflexivity.
Defined.

(** A bundle recorded with a time zone that does not load is still served
    as fresh for the fallback source, dated by the local date; the prayer
    clock, given that bundle's zone, raises what [ZoneInfo] raised for it
    ([ZoneInfoNotFoundError] for a name the database lacks, [ValueError]
    for an absolute or non-normalized key) instead of falling back to
    local time. *)
Theorem unknown_zone_served_fresh_but_stops_the_clock {R : Runtime}
    (w : World) (location : Location) (bundle : CachedPrayerBundle) (key : pystr) :
  get_fresh_cached_bundle w location mwl = Ok (Some bundle) ->
  cb_time_zone bundle = JStr key ->
  key <> [] ->
  zone_now w key = None ->
  cb_date bundle = date_isoformat (local_now w)
  /\ get_current_prayer_info w (cb_times bundle) (Some (cb_tomorrow_fajr bundle))
       (cb_time_zone bundle) = Raise (zone_failure_exn (zone_error w key)).
Proof.
  intros Hfresh Hzone Hkey Hnone. split.
  - unfold get_fresh_cached_bundle in Hfresh.
    destruct (_safe_read_cache w) as [data|]; [|discriminate]. cbn [rbind] in Hfresh.
    destruct (_parse_cached_entry _) as [entry|]; [|discriminate].
    rewrite date_string_for_zone_spec in Hfresh.
    destruct (spec_today w (cb_time_zone entry) mwl) as [today|] eqn:Ht;
      [|discriminate].
    cbn [rbind] in Hfresh.
    destruct (str_eqb_spec (cb_date entry) today) as [E|]; [|discriminate].
    injection Hfresh as ->. rewrite E.
    unfold spec_today, zone_today in Ht. rewrite Hzone in Ht.
    destruct key as [|c k]; [congruence|]. rewrite Hnone in Ht.
    cbn [option_map] in Ht. now injection Ht as <-.
  - unfold get_current_prayer_info, get_time_zone_now. rewrite Hzone.
    destruct key as [|c k]; [congruence|].
    cbn [py_truthy datetime_now_zone]. now rewrite Hnone.
Qed.

Lemma unknown_zone_served_fresh_but_stops_the_clock_witness :
  get_current_prayer_info
    (sample_world (sample_instant 20 8 0)
       (Content (Ok (JDict
          [(_cache_key sample_location_us mwl,
            cache_record sample_times (lit "06:21") (JStr (lit "/etc/localtime"))
              (lit "2024-02-29") (lit "2024-02-29T05:00:00+03:00"))]))))
    sample_times (Some (lit "06:21")) (JStr (lit "/etc/localtime"))
  = Raise ValueError.
Proof.
  refine (proj2 (unknown_zone_served_fresh_but_stops_the_clock (R := ascii_runtime)
                   _ sample_location_us
                   {| cb_times := sample_times; cb_tomorrow_fajr := lit "06:21";
                      cb_time_zone := JStr (lit "/etc/localtime");
                      cb_date := lit "2024-02-29";
                      cb_fetched_at := lit "2024-02-29T05:00:00+03:00" |}
                   (lit "/etc/localtime") _ _ _ _)).
  - vm_compute. reflexivity.
  - reflexivity.
  - discriminate.
  - reflexivity.
Defined.

(** ** cache.py: a write that cannot be encoded *)

(** When the store was readable and [set_cached_bundle] raises
    [UnicodeEncodeError] (a string of the payload holds a lone surrogate),
    the cache file has been emptied: afterwards every lookup, for any
    location and source, finds nothing. *)
Theorem unencodable_write_empties_store {R : Runtime}
    (w w' : World) (data : dict) (location : Location) (source : PrayerSource)
    (times : PrayerTimes) (tomorrow_fajr : pystr) (time_zone : json) :
  _safe_read_cache w = Ok data ->
  set_cached_bundle location source times tomorrow_fajr time_zone w
  = (Raise UnicodeEncodeError, w') ->
  forall location' source',
    get_stale_cached_bundle w' location' source' = Ok None
    /\ get_fresh_cached_bundle w' location' source' = Ok None.
Proof.
  intros Hread H. unfold set_cached_bundle in H.
  apply mbind_inv in H as [(d & w1 & Hd & H) | (e & Hd & _)];
    [|apply mread_inv in Hd as [Hd _]; congruence].
  apply mread_inv in Hd as [_ ->].
  apply mbind_inv in H as [(now & w1 & Hn & H) | (e & Hn & _)];
    [|apply mread_inv in Hn as [[=] _]].
  apply mread_inv in Hn as [_ ->].
  apply mbind_inv in H as [(date & w1 & Hdate & H) | (e & Hdate & [= <-])].
  - apply mread_inv in Hdate as [_ ->]. unfold _safe_write_cache in H.
    destruct (negb (cache_writable w)); [discriminate|].
    destruct (negb (json_forall _ int_printable _)); [discriminate|].
    destruct (negb (json_forall utf8_encodable _ _)); [|discriminate].
    injection H as <-. intros location' source'.
    unfold get_stale_cached_bundle, get_fresh_cached_bundle, _safe_read_cache.
    cbn [with_cache_file cache_file is_OSError_or_JSONDecodeError rbind].
    split; reflexivity.
  - apply mread_inv in Hdate as [Hdate _].
    rewrite date_string_for_zone_spec in Hdate.
    destruct (spec_today w time_zone source); [discriminate|].
    destruct (zone_error w DIYANET_TIME_ZONE); discriminate.
Qed.

Lemma unencodable_write_empties_store_witness :
  get_stale_cached_bundle (R := ascii_runtime)
    (snd (set_cached_bundle sample_location_us mwl sample_times (lit "06:21")
            surrogate_zone
            (sample_world (sample_instant 20 8 0) (sample_store stale_record))))
    sample_location_tr diyanet = Ok None.
Proof.
  refine (proj1 (unencodable_write_empties_store (R := ascii_runtime)
                   (sample_world (sample_instant 20 8 0) (sample_store stale_record))
                   _ _ sample_location_us mwl sample_times (lit "06:21")
                   surrogate_zone _ _ sample_location_tr diyanet)).
  - vm_compute. reflexivity.
  - vm_compute. reflexivity.
Defined.

(** ** location.py and prayer_api.py: the district id *)

Lemma nearest_scan_invariant {R : Runtime}
    (lat0 lon0 : float) (country_code : pystr) (table : list Location)
    (start : option Location) (d0 : float) (found : Location) :
  nearest_scan lat0 lon0 country_code table start d0 = Ok (Some found) ->
  start = Some found
  \/ (In found table /\ countryCode found = country_code).
Proof.
  revert start d0. induction table as [|loc rest IH]; intros start d0 H.
  - left. now injection H.
  - cbn [nearest_scan] in H.
    destruct (str_eqb_spec (countryCode loc) country_code) as [Hcc|Hcc];
      cbn [negb] in H.
    + destruct (haversine_distance lat0 lon0 (lat loc) (lon loc)) as [distance|];
        [|discriminate]. cbn [rbind] in H.
      destruct (PrimFloat.ltb distance d0).
      * apply IH in H as [[= <-] | [Hin Hc]]; right; split; auto using in_eq, in_cons.
      * apply IH in H as [H | [Hin Hc]]; [now left | right; auto using in_cons].
    + apply IH in H as [H | [Hin Hc]]; [now left | right; auto using in_cons].
Qed.

(** A location's own non-empty district id is used as it is; without one,
    a location outside Türkiye gets none; and an id that is found comes
    from the location itself or from a table entry whose country code is
    "TR". *)
Theorem district_id_resolution {R : Runtime} (location : Location) :
  (opt_str_truthy (diyanetIlceId location) = true ->
   get_diyanet_ilce_id location = Ok (diyanetIlceId location))
  /\ (opt_str_truthy (diyanetIlceId location) = false ->
      is_turkiye_location location = false ->
      get_diyanet_ilce_id location = Ok None)
  /\ (forall id,
        get_diyanet_ilce_id location = Ok (Some id) ->
        diyanetIlceId location = Some id
        \/ exists near,
             In near get_locations
             /\ countryCode near = TURKEY_COUNTRY_CODE
             /\ diyanetIlceId near = Some id).
Proof.
  unfold get_diyanet_ilce_id. split; [|split].
  - now intros ->.
  - now intros -> ->.
  - intros id. destruct (opt_str_truthy (diyanetIlceId location));
      [intros [= ->]; now left|].
    destruct (is_turkiye_location location); [|discriminate]. cbn [negb].
    destruct (find_nearest_location_by_country_code _ _ _) as [[near|]|] eqn:Hn;
      try discriminate.
    cbn [rbind]. intros [= Hid]. right. exists near.
    unfold find_nearest_location_by_country_code in Hn.
    apply nearest_scan_invariant in Hn as [[=] | [Hin Hcc]]. auto.
Qed.

Lemma district_id_resolution_witness :
  get_diyanet_ilce_id (R := table_runtime) sample_location_tr = Ok (Some (lit "9541"))
  /\ get_diyanet_ilce_id (R := table_runtime) sample_location_us = Ok None
  /\ (get_diyanet_ilce_id (R := table_runtime) location_tr_without_id
      = Ok (Some (lit "9541")) ->
      exists near,
        In near (get_locations (Runtime := table_runtime))
        /\ countryCode near = TURKEY_COUNTRY_CODE
        /\ diyanetIlceId near = Some (lit "9541")).
Proof.
  destruct (district_id_resolution (R := table_runtime) sample_location_tr)
    as (H1 & _ & _).
  destruct (district_id_resolution (R := table_runtime) sample_location_us)
    as (_ & H2 & _).
  destruct (district_id_resolution (R := table_runtime) location_tr_without_id)
    as (_ & _ & H3).
  split; [|split].
  - apply H1. reflexivity.
  - apply H2; vm_compute; reflexivity.
  - intros Hid. destruct (H3 _ Hid) as [Hown | Hnear]; [discriminate | exact Hnear].
Defined.

(** ** prayer_api.py: the Diyanet entry of a day *)

(** The entry [_find_diyanet_prayer_times] returns is the first one of the
    list dated the target day: every entry before it is an object that is
    not dated so, and what follows it is not looked at, the result being
    the same whatever follows. *)
Theorem find_diyanet_first_match
    (data : list json) (target_date : datetime) (entry : dict) :
  _find_diyanet_prayer_times data target_date = Ok (Some entry) ->
  exists before after,
    data = before ++ JDict entry :: after
    /\ entry_dated (JDict entry) (ord2ymd (ordinal target_date))
    /\ Forall (fun e => (exists d, e = JDict d)
                        /\ ~ entry_dated e (ord2ymd (ordinal target_date)))
         before
    /\ forall others,
         _find_diyanet_prayer_times (before ++ JDict entry :: others) target_date
         = Ok (Some entry).
Proof.
  unfold _find_diyanet_prayer_times, _get_timezone_date_parts.
  generalize (ord2ymd (ordinal target_date)) as target. intros target.
  induction data as [|e rest IH]; [discriminate|].
  cbn [_find_diyanet_prayer_times_in].
  destruct e as [| | | | |l|d]; try discriminate.
  destruct (dict_get (lit "MiladiTarihKisa") d) as [[| | | |value| |]|] eqn:Hget;
    try discriminate.
  - destruct (_parse_diyanet_date_parts value) as [parts|] eqn:Hp; [|discriminate].
    cbn [rbind]. destruct (date_parts_eqb parts target) eqn:Heq.
    + intros [= <-]. exists [], rest. split; [reflexivity|]. split; [|split].
      * exists d, value, parts. auto.
      * constructor.
      * intros others. cbn [app _find_diyanet_prayer_times_in].
        rewrite Hget, Hp. cbn [rbind]. now rewrite Heq.
    + intros H. destruct (IH H) as (before & after & -> & Hd & Hb & Hrest).
      exists (JDict d :: before), after. split; [reflexivity|]. split; [exact Hd|].
      split.
      * constructor; [|exact Hb]. split; [eauto|].
        intros (d' & v' & p' & [= <-] & Hg' & Hp' & Hm').
        rewrite Hget in Hg'. injection Hg' as <-. rewrite Hp in Hp'.
        injection Hp' as <-. congruence.
      * intros others. cbn [app _find_diyanet_prayer_times_in].
        rewrite Hget, Hp. cbn [rbind]. rewrite Heq. apply Hrest.
  - destruct (_parse_diyanet_date_parts []) as [parts|] eqn:Hp; [|discriminate].
    cbn [rbind]. destruct (date_parts_eqb parts target) eqn:Heq.
    + vm_compute in Hp. injection Hp as <-. discriminate.
    + intros H. destruct (IH H) as (before & after & -> & Hd & Hb & Hrest).
      exists (JDict d :: before), after. split; [reflexivity|]. split; [exact Hd|].
      split.
      * constructor; [|exact Hb]. split; [eauto|].
        intros (d' & v' & p' & [= <-] & Hg' & _). congruence.
      * intros others. cbn [app _find_diyanet_prayer_times_in].
        rewrite Hget, Hp. cbn [rbind]. rewrite Heq. apply Hrest.
Qed.

Lemma find_diyanet_first_match_witness :
  exists before after,
    diyanet_month
    = before
      ++ JDict [(lit "MiladiTarihKisa", JStr (lit "01.03.2024"));
                (lit "Imsak", JStr (lit "06:21"))] :: after
    /\ entry_dated
         (JDict [(lit "MiladiTarihKisa", JStr (lit "01.03.2024"));
                 (lit "Imsak", JStr (lit "06:21"))])
         (ord2ymd 738946)
    /\ Forall (fun e => (exists d, e = JDict d) /\ ~ entry_dated e (ord2ymd 738946))
         before
    /\ forall others,
         _find_diyanet_prayer_times
           (before
            ++ JDict [(lit "MiladiTarihKisa", JStr (lit "01.03.2024"));
                      (lit "Imsak", JStr (lit "06:21"))] :: others)
           first_of_march
         = Ok (Some [(lit "MiladiTarihKisa", JStr (lit "01.03.2024"));
                     (lit "Imsak", JStr (lit "06:21"))]).
Proof.
  apply (find_diyanet_first_match diyanet_month first_of_march).
  vm_compute. reflexivity.
Defined.

(** ** prayer_api.py: tomorrow's Fajr *)

(** Whatever either provider's tomorrow-Fajr fetcher returns has the shape
    DD:DD. *)
Theorem tomorrow_fajr_is_shaped {R : Runtime}
    (w w' : World) (ilce_id : pystr) (location : Location) (fajr : pystr) :
  (_fetch_tomorrow_fajr_from_diyanet ilce_id w = (Ok fajr, w') ->
   hhmm_shape fajr = true)
  /\ (_fetch_tomorrow_fajr_from_aladhan location w = (Ok fajr, w') ->
      hhmm_shape fajr = true).
Proof.
  split.
  - unfold _fetch_tomorrow_fajr_from_diyanet. intros H.
    apply mbind_Ok_inv in H as (data & w1 & _ & H).
    apply mbind_Ok_inv in H as (today & w2 & _ & H).
    apply mbind_Ok_inv in H as (tomorrow & w3 & _ & H).
    apply mbind_Ok_inv in H as (found & w4 & _ & H).
    destruct (dict_falsy found); [discriminate|].
    apply mlift_Ok_inv in H as [H _].
    eapply require_time_field_shape; exact H.
  - unfold _fetch_tomorrow_fajr_from_aladhan. intros H.
    apply mbind_Ok_inv in H as (tomorrow & w0 & _ & H).
    apply mbind_Ok_inv in H as (timestamp & w0' & _ & H).
    apply mbind_Ok_inv in H as (url & w0'' & _ & H).
    apply mbind_Ok_inv in H as ([data timings] & w1 & _ & H).
    apply mlift_Ok_inv in H as [H _].
    eapply require_time_field_shape; exact H.
Qed.

Lemma tomorrow_fajr_is_shaped_witness :
  hhmm_shape (lit "06:21") = true.
Proof.
  refine (proj1 (tomorrow_fajr_is_shaped (R := ascii_runtime)
                   (world_answering diyanet_answer NoFile) _ (lit "9541")
                   sample_location_tr (lit "06:21")) _).
  vm_compute. reflexivity.
Defined.
